(** * Cricbuzz live stats: the player-lookup page and the SQL page

    A shallow embedding of [pages/top_stats.py] and of the query runner of
    [pages/sql_queries.py].

    The Python code works on decoded JSON values with dynamically checked
    operations ([in], [x[k]], [x.get(k, d)], iteration, truthiness), each of
    which can raise.  The embedding keeps that: JSON values are one inductive
    type, every dynamic operation is a function into a result type with an
    exception case, and the Streamlit page is a computation that emits the
    sequence of widget calls it performs. *)

From Stdlib Require Import String Ascii List ZArith Bool Lia.
From Stdlib Require Import Floats.SpecFloat.
Import ListNotations.
Local Open Scope string_scope.
Local Open Scope list_scope.
#[local] Set Warnings "-register-all".

(** ** Decoded JSON values *)

(** What [json.loads] / [response.json()] return: [None], [bool], [int],
    [float], [str], [list] and [dict] (insertion-ordered, string keys). *)
Inductive json : Type :=
| JNull
| JBool (b : bool)
| JInt (z : Z)
| JFloat (f : spec_float)
| JStr (s : string)
| JArr (xs : list json)
| JObj (kvs : list (string * json)).

(** ** Outcomes of Python operations *)

Inductive pyexn : Type :=
| TypeError
| KeyError
| AttributeError
| ValueError
| JSONDecodeError
| InvalidURL
| UnicodeEncodeError
| DatabaseError (msg : string).

(** [Ok a]: normal completion with [a].  [Raise e]: the exception [e]
    propagates.  [Unmodelled]: the operation was applied to an argument
    outside the fragment of the third-party library (pandas, dict hashing of
    numbers) described below; nothing is asserted about it. *)
Inductive res (A : Type) : Type :=
| Ok (a : A)
| Raise (e : pyexn)
| Unmodelled.
Arguments Ok {A} a.
Arguments Raise {A} e.
Arguments Unmodelled {A}.

Definition rbind {A B} (c : res A) (k : A -> res B) : res B :=
  match c with
  | Ok a => k a
  | Raise e => Raise e
  | Unmodelled => Unmodelled
  end.

Declare Scope res_scope.
Delimit Scope res_scope with res.
Notation "x <- c ;; k" := (rbind c (fun x => k))
  (at level 61, c at next level, right associativity) : res_scope.

(** A list comprehension [[f(x) for x in xs]]: left to right, the first
    failure aborts. *)
Fixpoint rmap {A B} (f : A -> res B) (xs : list A) : res (list B) :=
  match xs with
  | [] => Ok []
  | x :: xs' => (y <- f x ;; ys <- rmap f xs' ;; Ok (y :: ys))%res
  end.

(** ** Python's dynamic operations on decoded JSON *)

(** [bool(v)], as used by [if v:] and [not v]. *)
Definition py_truthy (v : json) : bool :=
  match v with
  | JNull => false
  | JBool b => b
  | JInt z => negb (z =? 0)%Z
  | JFloat (S754_zero _) => false
  | JFloat _ => true
  | JStr s => negb (s =? "")
  | JArr xs => match xs with [] => false | _ => true end
  | JObj kvs => match kvs with [] => false | _ => true end
  end.

(** [d.get(k)] on a dict: the binding of [k] (a decoded dict binds a key at
    most once; the first binding is taken). *)
Fixpoint dict_get (kvs : list (string * json)) (k : string) : option json :=
  match kvs with
  | [] => None
  | (k', v) :: rest => if k' =? k then Some v else dict_get rest k
  end.

(** [needle in hay] on two [str]: substring test. *)
Fixpoint str_contains (needle hay : string) : bool :=
  prefix needle hay ||
  match hay with
  | EmptyString => false
  | String _ t => str_contains needle t
  end.

(** [x == k] for a [str] [k] and a decoded JSON [x]. *)
Definition str_eq_json (k : string) (x : json) : bool :=
  match x with
  | JStr s => s =? k
  | _ => false
  end.

(** [k in v] for a [str] [k]: key membership on a dict, element membership on
    a list, substring on a str, [TypeError] on anything else ("argument of
    type 'int' is not iterable"). *)
Definition py_contains (k : string) (v : json) : res bool :=
  match v with
  | JObj kvs => Ok (match dict_get kvs k with Some _ => true | None => false end)
  | JArr xs => Ok (existsb (str_eq_json k) xs)
  | JStr s => Ok (str_contains k s)
  | _ => Raise TypeError
  end.

(** [v[k]] for a [str] [k]: [KeyError] on a dict without [k]; [TypeError] on
    a list or str ("indices must be integers") and on the other values ("not
    subscriptable"). *)
Definition py_getitem (v : json) (k : string) : res json :=
  match v with
  | JObj kvs =>
      match dict_get kvs k with
      | Some x => Ok x
      | None => Raise KeyError
      end
  | _ => Raise TypeError
  end.

(** [v.get(k, d)]: only dicts have [get]. *)
Definition py_get (v : json) (k : string) (d : json) : res json :=
  match v with
  | JObj kvs =>
      match dict_get kvs k with
      | Some x => Ok x
      | None => Ok d
      end
  | _ => Raise AttributeError
  end.

Fixpoint chars (s : string) : list json :=
  match s with
  | EmptyString => []
  | String c t => JStr (String c EmptyString) :: chars t
  end.

(** [for x in v] / [list(v)]: the elements of a list, the keys of a dict, the
    characters of a str; [TypeError] otherwise. *)
Definition py_iter (v : json) : res (list json) :=
  match v with
  | JArr xs => Ok xs
  | JObj kvs => Ok (map (fun kv => JStr (fst kv)) kvs)
  | JStr s => Ok (chars s)
  | _ => Raise TypeError
  end.

(** [v.items()]: only dicts have [items]. *)
Definition py_items (v : json) : res (list (string * json)) :=
  match v with
  | JObj kvs => Ok kvs
  | _ => Raise AttributeError
  end.

(** ** pandas tables *)

(** What a table stores in a cell.  pandas stores each column under one
    type, inferred from all the objects put into the column:
    - [Kept v]: the object [v] with its value unchanged (columns of text or
      of other objects, of booleans, of integers, and the floats of a float
      column);
    - [ToFloat z]: the integer [z] as a float, [float(z)];
    - [NaN]: a [None] in a float column;
    - [Coerced v]: the object [v] under the type pandas settles on for a
      numeric column holding an integer outside the 64-bit signed range,
      which is left open here. *)
Inductive cell : Type :=
| Kept (v : json)
| ToFloat (z : Z)
| NaN
| Coerced (v : json).

(** A [DataFrame] as far as this program looks at one: the column labels and
    the rows, every row holding one cell per column. *)
Record DataFrame : Type := mkDataFrame {
  columns : list json;
  data : list (list cell)
}.

(** [pd.DataFrame()] *)
Definition empty_frame : DataFrame := mkDataFrame [] [].

(** [df.empty]: some axis has length zero. *)
Definition df_empty (df : DataFrame) : bool :=
  match columns df, data df with
  | [], _ => true
  | _, [] => true
  | _, _ => false
  end.

Definition is_scalar (v : json) : bool :=
  match v with
  | JArr _ | JObj _ => false
  | _ => true
  end.

Definition max_width (rows : list (list json)) : nat :=
  fold_right (fun r k => Nat.max (length r) k) 0 rows.

(** A row shorter than the table is filled up with [None]. *)
Definition pad (k : nat) (r : list json) : list json :=
  r ++ repeat JNull (k - length r).

(** How the objects of one column are stored. *)
Inductive storage : Type :=
| AsIs
| AsFloat
| Open.

(** Text, lists, dicts and booleans make a column one of objects (an
    all-boolean column is one of booleans): nothing is converted. *)
Definition is_boxed (v : json) : bool :=
  match v with
  | JStr _ | JArr _ | JObj _ | JBool _ => true
  | _ => false
  end.

Definition is_float (v : json) : bool :=
  match v with
  | JFloat _ => true
  | _ => false
  end.

Definition is_int (v : json) : bool :=
  match v with
  | JInt _ => true
  | _ => false
  end.

Definition is_null (v : json) : bool :=
  match v with
  | JNull => true
  | _ => false
  end.

Definition outside_int64 (v : json) : bool :=
  match v with
  | JInt z => (z <? - 2 ^ 63)%Z || (2 ^ 63 <=? z)%Z
  | _ => false
  end.

(** The type inferred for a column from its objects: a column of numbers
    and [None]s becomes one of floats as soon as it holds a float, or a
    [None] beside an integer; every other column keeps its objects. *)
Definition storage_of (column : list json) : storage :=
  if existsb is_boxed column then AsIs
  else if existsb outside_int64 column then Open
  else if existsb is_float column
          || (existsb is_null column && existsb is_int column)
  then AsFloat
  else AsIs.

Definition store (s : storage) (v : json) : cell :=
  match s with
  | AsIs => Kept v
  | Open => Coerced v
  | AsFloat =>
      match v with
      | JInt z => ToFloat z
      | JNull => NaN
      | _ => Kept v
      end
  end.

(** The [j]-th column of rows that have one. *)
Definition column_at (rows : list (list json)) (j : nat) : list json :=
  map (fun r => nth j r JNull) rows.

(** The cells of a table of [k] columns built from rows of [k] objects. *)
Definition store_table (k : nat) (rows : list (list json)) : list (list cell) :=
  let kinds := map (fun j => storage_of (column_at rows j)) (seq 0 k) in
  map (fun r => map (fun sv => store (fst sv) (snd sv)) (combine kinds r)) rows.

(** The default column labels [0 .. k-1] used for [columns=None]. *)
Definition range_labels (k : nat) : list json :=
  map (fun i => JInt (Z.of_nat i)) (seq 0 k).

(** Library model of [pd.DataFrame(rows, columns=headers)] for [rows] a Python
    list (pandas 1.3 and later; the repository pins no version).
    - no rows: a frame with the given labels and no rows;
    - first row a list: every row is measured with [len] and read with
      [list] (so [TypeError] for a row that has neither), the rows are laid
      out in a table as wide as the longest one, shorter rows being filled
      with [None]; a label list of another length is refused with
      [ValueError] ("N columns passed, passed data had K columns"); each
      column is then stored under its inferred type;
    - [columns=None] gives the default labels.
    Labels have to be a list of scalars or [None]; other label arguments and
    tables whose first row is not a list are outside this model. *)
Definition pd_DataFrame (rows : list json) (headers : json) : res DataFrame :=
  match headers with
  | JNull =>
      match rows with
      | [] => Ok empty_frame
      | JArr _ :: _ =>
          (cells <- rmap py_iter rows ;;
           let k := max_width cells in
           Ok (mkDataFrame (range_labels k) (store_table k (map (pad k) cells))))%res
      | _ => Unmodelled
      end
  | JArr labels =>
      if forallb is_scalar labels then
        match rows with
        | [] => Ok (mkDataFrame labels [])
        | JArr _ :: _ =>
            (cells <- rmap py_iter rows ;;
             let k := max_width cells in
             if (length labels =? k)%nat
             then Ok (mkDataFrame labels (store_table k (map (pad k) cells)))
             else Raise ValueError)%res
        | _ => Unmodelled
        end
      else Unmodelled
  | _ => Unmodelled
  end.

(** ** [parse_stats_table] (top_stats.py, lines 57-64) *)

Definition parse_stats_table (stats_json : json) : res DataFrame :=
  if negb (py_truthy stats_json) then Ok empty_frame else
  (has_h <- py_contains "headers" stats_json ;;
   if negb has_h then Ok empty_frame else
   has_v <- py_contains "values" stats_json ;;
   if negb has_v then Ok empty_frame else
   headers <- py_getitem stats_json "headers" ;;
   vals <- py_getitem stats_json "values" ;;
   entries <- py_iter vals ;;
   rows <- rmap (fun row => py_getitem row "values") entries ;;
   pd_DataFrame rows headers)%res.


(** ** The page as a computation *)

(** An f-string: literal pieces and interpolated values.  [Fmt v] stands for
    [str(v)] at that place ([str] of a [str] being the string itself); the
    formatting of numbers and containers is not expanded. *)
Inductive piece : Type :=
| Lit (s : string)
| Fmt (v : json)
| FmtExn (e : pyexn).

Definition text : Type := list piece.

(** The calls a run performs, in order: Streamlit widgets, the requests sent
    to the stats API, the statements sent to the database. *)
Inductive event : Type :=
| st_title (t : string)
| st_text_input (label : string)
| st_selectbox (label : string) (options : list string)
| st_tabs (labels : list string)
| with_tab (i : nat)
| st_columns (n : nat)
| with_col (i : nat)
| st_write (t : text)
| st_subheader (t : string)
| st_image (url : text) (width : Z)
| st_markdown (t : text)
| st_warning (t : string)
| st_error (t : text)
| st_success (t : string)
| st_spinner (t : string)
| st_dataframe (df : DataFrame)
| http_get (url : text)
| pd_read_sql (query : string).

(** A computation that emits events and then completes, raises, or leaves the
    model.  Events emitted before an exception stay emitted. *)
Definition ui (A : Type) : Type := (list event * res A)%type.

Definition uret {A} (a : A) : ui A := ([], Ok a).

Definition emit (e : event) : ui unit := ([e], Ok tt).

Definition lift {A} (r : res A) : ui A := ([], r).

Definition ubind {A B} (c : ui A) (k : A -> ui B) : ui B :=
  match c with
  | (l, Ok a) => let (l', r) := k a in (l ++ l', r)
  | (l, Raise e) => (l, Raise e)
  | (l, Unmodelled) => (l, Unmodelled)
  end.

(** [try: body / except: handler] with a bare [except]. *)
Definition try_except {A} (body : ui A) (handler : ui A) : ui A :=
  match body with
  | (l, Raise _) => let (l', r) := handler in (l ++ l', r)
  | other => other
  end.

Declare Scope ui_scope.
Delimit Scope ui_scope with ui.
Notation "x <- c ;; k" := (ubind c (fun x => k))
  (at level 61, c at next level, right associativity) : ui_scope.
Notation "c ;; k" := (ubind c (fun _ => k))
  (at level 61, right associativity) : ui_scope.

(** [for x in xs: body(x)] *)
Fixpoint for_each {A} (body : A -> ui unit) (xs : list A) : ui unit :=
  match xs with
  | [] => uret tt
  | x :: xs' => (body x ;; for_each body xs')%ui
  end.

Definition trace {A} (c : ui A) : list event := fst c.
Definition outcome {A} (c : ui A) : res A := snd c.

(** ** The stats API as seen by the page *)

(** An HTTP response: its status and what decoding its body gives, [None]
    when [data.decode("utf-8")] or the JSON parser raises.  Transport faults
    (no connection, a timeout) are not part of the model. *)
Record response : Type := mkResponse {
  status_code : Z;
  decoded : option json
}.

(** One run of the page: the text typed in the search box, the position the
    user picked in the select box (0 is the preselected one), and the answers
    of the API's four endpoints. *)
Record session : Type := mkSession {
  player_name : string;
  pick : nat;
  search_api : string -> response;
  player_api : json -> response;
  career_api : json -> response;
  stats_api : json -> string -> response
}.

(** [json.loads(data.decode("utf-8"))] and [response.json()] *)
Definition json_loads (r : response) : res json :=
  match decoded r with
  | Some v => Ok v
  | None => Raise JSONDecodeError
  end.

(** ** Fetch helpers (top_stats.py, lines 25-55) *)

(** [http.client] looks at the path before it sends anything: a path holding
    a blank, a control character or DEL is refused with [InvalidURL], and
    one that is not ASCII cannot be encoded ([UnicodeEncodeError]).  Strings
    are the UTF-8 bytes of the Python text, so a character outside ASCII
    shows as bytes from 128 on.  The fixed parts of the paths are fine; the
    check bears on the interpolated text. *)
Definition blank_or_control (c : ascii) : bool :=
  (nat_of_ascii c <=? 32)%nat || (nat_of_ascii c =? 127)%nat.

Definition outside_ascii (c : ascii) : bool := (128 <=? nat_of_ascii c)%nat.

Fixpoint some_char (p : ascii -> bool) (s : string) : bool :=
  match s with
  | EmptyString => false
  | String c t => p c || some_char p t
  end.

Definition request_line_check (text : string) : res unit :=
  if some_char blank_or_control text then Raise InvalidURL
  else if some_char outside_ascii text then Raise UnicodeEncodeError
  else Ok tt.

(** The same check on [str(player_id)], as far as that text is plain: a
    string is its own text; the text of [None], a boolean or a number has
    letters, digits, signs and dots only; a list of two or more elements has
    [", "] between them and a dict with an entry has [": "] after the key,
    so both hold a blank.  One-element lists of text or containers are left
    out. *)
Definition id_line_check (player_id : json) : res unit :=
  match player_id with
  | JStr s => request_line_check s
  | JNull | JBool _ | JInt _ | JFloat _ => Ok tt
  | JArr [] | JObj [] => Ok tt
  | JArr [JNull] | JArr [JBool _] | JArr [JInt _] | JArr [JFloat _] => Ok tt
  | JArr [_] => Unmodelled
  | JArr (_ :: _ :: _) => Raise InvalidURL
  | JObj (_ :: _) => Raise InvalidURL
  end.

Definition search_players (w : session) (query : string) : ui json :=
  (lift (request_line_check query) ;;
   emit (http_get [Lit "/stats/v1/player/search?plrN="; Fmt (JStr query)]) ;;
   try_except (lift (json_loads (search_api w query))) (uret (JObj [])))%ui.

Definition get_player_details (w : session) (player_id : json) : ui json :=
  (lift (id_line_check player_id) ;;
   emit (http_get [Lit "/stats/v1/player/"; Fmt player_id]) ;;
   try_except (lift (json_loads (player_api w player_id))) (uret (JObj [])))%ui.

(** [requests] quotes the URL it is given, so no text is refused here. *)
Definition get_player_stats (w : session) (player_id : json)
    (stat_type : string) : ui json :=
  (emit (http_get [Lit "https://cricbuzz-cricket.p.rapidapi.com/stats/v1/player/";
                   Fmt player_id; Lit "/"; Fmt (JStr stat_type)]) ;;
   let response := stats_api w player_id stat_type in
   if (status_code response =? 200)%Z
   then lift (json_loads response)
   else uret (JObj []))%ui.

(** ** Candidate set (top_stats.py, line 77) *)

(** [d[k] = v] on an insertion-ordered dict: an existing key keeps its place
    and takes the new value, a new key goes last. *)
Fixpoint dict_set (d : list (string * json)) (k : string) (v : json)
    : list (string * json) :=
  match d with
  | [] => [(k, v)]
  | (k', v') :: rest =>
      if k' =? k then (k', v) :: rest else (k', v') :: dict_set rest k v
  end.

(** Use of a decoded JSON value as a dict key: a [str] is itself, a list or
    dict is unhashable ([TypeError]).  The other scalars hash fine, but with
    Python's cross-type equality ([True == 1 == 1.0]); they are left out. *)
Definition hash_key (v : json) : res string :=
  match v with
  | JStr s => Ok s
  | JArr _ | JObj _ => Raise TypeError
  | _ => Unmodelled
  end.

Fixpoint collect_options (d : list (string * json)) (ps : list json)
    : res (list (string * json)) :=
  match ps with
  | [] => Ok d
  | p :: ps' =>
      (name <- py_getitem p "name" ;;
       k <- hash_key name ;;
       collect_options (dict_set d k p) ps')%res
  end.

(** [{p["name"]: p for p in players}] *)
Definition player_options (players : json) : res (list (string * json)) :=
  (ps <- py_iter players ;; collect_options [] ps)%res.

(** [st.selectbox(label, options)]: the option at the picked position, the
    first one unless the user picked another; [None] without options. *)
Definition selectbox (options : list string) (picked : nat) : option string :=
  nth_error options (if (picked <? length options)%nat then picked else 0%nat).

(** ** Profile tab (top_stats.py, lines 85-166) *)

(** [s.replace(old, new)] for a non-empty [old]: left to right, matches do
    not overlap.  [skip] counts the characters of a match still to drop. *)
Fixpoint str_replace_from (old new : string) (skip : nat) (s : string) : string :=
  match s with
  | EmptyString => EmptyString
  | String c t =>
      match skip with
      | S n => str_replace_from old new n t
      | O =>
          if prefix old s
          then new ++ str_replace_from old new (String.length old - 1) t
          else String c (str_replace_from old new 0 t)
      end
  end.

(** [v.replace(old, new)]: only [str] has [replace]. *)
Definition py_replace (v : json) (old new : string) : res string :=
  match v with
  | JStr s => Ok (str_replace_from old new 0 s)
  | _ => Raise AttributeError
  end.

(** Lines 86-87. *)
Definition profile_heading (selected_player : json) : ui unit :=
  (name <- lift (py_getitem selected_player "name") ;;
   team <- lift (py_getitem selected_player "teamName") ;;
   emit (st_write [Lit "### "; Fmt name; Lit " ("; Fmt team; Lit ")"]) ;;
   dob <- lift (py_get selected_player "dob" (JStr "N/A")) ;;
   emit (st_write [Lit "📅 DOB: "; Fmt dob]))%ui.

(** Lines 90-98. *)
Definition profile_image (selected_player player_details : json) : ui unit :=
  (has_image <- lift (py_contains "image" player_details) ;;
   if has_image then
     image <- lift (py_getitem player_details "image") ;;
     img_url <- lift (py_replace image "http://" "https://") ;;
     emit (st_image [Lit img_url] 150)
   else
     has_face <- lift (py_contains "faceImageId" selected_player) ;;
     face <- (if has_face
              then f <- lift (py_getitem selected_player "faceImageId") ;;
                   uret (py_truthy f)
              else uret false) ;;
     if face then
       face_id <- lift (py_getitem selected_player "faceImageId") ;;
       emit (st_image [Lit "https://www.cricbuzz.com/a/img/v1/152x152/i1/c";
                       Fmt face_id; Lit ".jpg"] 150)
     else
       emit (st_image
               [Lit "https://placehold.co/150x150/800000/FFFFFF?text=No+Image"]
               150))%ui.

(** Lines 101-106. *)
Definition profile_fields (player_details : json) : ui unit :=
  (emit (st_subheader "Player Details") ;;
   role <- lift (py_get player_details "role" (JStr "N/A")) ;;
   emit (st_write [Lit "**Role:** "; Fmt role]) ;;
   bat <- lift (py_get player_details "bat" (JStr "N/A")) ;;
   emit (st_write [Lit "**Batting Style:** "; Fmt bat]) ;;
   bowl <- lift (py_get player_details "bowl" (JStr "N/A")) ;;
   emit (st_write [Lit "**Bowling Style:** "; Fmt bowl]) ;;
   teams <- lift (py_get player_details "teams" (JStr "N/A")) ;;
   emit (st_write [Lit "**Teams:** "; Fmt teams]) ;;
   birth <- lift (py_get player_details "birthPlace" (JStr "N/A")) ;;
   emit (st_write [Lit "**Birth Place:** "; Fmt birth]))%ui.

(** One of the three [with colN:] blocks of lines 115-137, which differ in
    the column, the title and the discipline key only. *)
Definition ranking_column (i : nat) (title key : string) (rankings : json)
    : ui unit :=
  (emit (with_col i) ;;
   emit (st_write [Lit title]) ;;
   has <- lift (py_contains key rankings) ;;
   if has then
     entry <- lift (py_getitem rankings key) ;;
     items <- lift (py_items entry) ;;
     for_each (fun kv => emit (st_write [Fmt (JStr (fst kv)); Lit ": ";
                                         Fmt (snd kv)])) items
   else emit (st_write [Lit "No rankings available"]))%ui.

(** Lines 109-137. *)
Definition rankings_block (player_details : json) : ui unit :=
  (has <- lift (py_contains "rankings" player_details) ;;
   shown <- (if has
             then r <- lift (py_getitem player_details "rankings") ;;
                  uret (py_truthy r)
             else uret false) ;;
   if shown then
     emit (st_subheader "🏆 ICC Rankings") ;;
     rankings <- lift (py_getitem player_details "rankings") ;;
     emit (st_columns 3) ;;
     ranking_column 0 "### Batting" "bat" rankings ;;
     ranking_column 1 "### Bowling" "bowl" rankings ;;
     ranking_column 2 "### All-Rounder" "all" rankings
   else uret tt)%ui.

(** [[f.get("name"), f.get("debut"), f.get("lastPlayed")]] *)
Definition career_row (f : json) : res json :=
  (name <- py_get f "name" JNull ;;
   debut <- py_get f "debut" JNull ;;
   last <- py_get f "lastPlayed" JNull ;;
   Ok (JArr [name; debut; last]))%res.

(** The body of the [try] of lines 147-161. *)
Definition career_try (r : response) : ui unit :=
  (career_json <- lift (json_loads r) ;;
   has <- lift (py_contains "values" career_json) ;;
   some <- (if has
            then v <- lift (py_getitem career_json "values") ;;
                 uret (py_truthy v)
            else uret false) ;;
   if some then
     vals <- lift (py_getitem career_json "values") ;;
     entries <- lift (py_iter vals) ;;
     career_rows <- lift (rmap career_row entries) ;;
     match career_rows with
     | _ :: _ =>
         career_df <- lift (pd_DataFrame career_rows
                              (JArr [JStr "Format"; JStr "Debut";
                                     JStr "Last Played"])) ;;
         emit (st_dataframe career_df)
     | [] => emit (st_warning "No career debut information available.")
     end
   else emit (st_warning "No career debut information available."))%ui.

(** Lines 140-163.  The path of line 142 holds the id that line 80 already
    put into the path of the profile request, so it has passed the check of
    the request line by the time this block is reached. *)
Definition career_block (w : session) (selected_player : json) : ui unit :=
  (emit (st_subheader "Career Debut Information") ;;
   pid <- lift (py_getitem selected_player "id") ;;
   emit (http_get [Lit "/stats/v1/player/"; Fmt pid; Lit "/career"]) ;;
   try_except (career_try (career_api w pid))
     (emit (st_warning "Could not load career debut information.")))%ui.

(** Lines 165-166. *)
Definition web_link (player_details : json) : ui unit :=
  (has <- lift (py_contains "webURL" player_details) ;;
   if has then
     url <- lift (py_getitem player_details "webURL") ;;
     emit (st_markdown [Lit "[🔗 View on Cricbuzz]("; Fmt url; Lit ")"])
   else uret tt)%ui.

(** Lines 85-166. *)
Definition profile_tab (w : session) (selected_player player_details : json)
    : ui unit :=
  (emit (with_tab 0) ;;
   profile_heading selected_player ;;
   profile_image selected_player player_details ;;
   if py_truthy player_details then
     profile_fields player_details ;;
     rankings_block player_details ;;
     career_block w selected_player ;;
     web_link player_details
   else uret tt)%ui.

(** ** Stats tabs (top_stats.py, lines 169-186) *)

(** The batting tab (lines 169-176) and the bowling tab (lines 179-186)
    differ in the tab, the heading, the endpoint and the warning only. *)
Definition stats_tab (w : session) (i : nat) (heading stat_type none : string)
    (selected_player : json) : ui unit :=
  (emit (with_tab i) ;;
   emit (st_subheader heading) ;;
   pid <- lift (py_getitem selected_player "id") ;;
   stats <- get_player_stats w pid stat_type ;;
   df <- lift (parse_stats_table stats) ;;
   if negb (df_empty df)
   then emit (st_dataframe df)
   else emit (st_warning none))%ui.

(** ** [show_top_stats] (top_stats.py, lines 67-188) *)

Definition no_players_found : event :=
  st_warning "No players found. Try another name.".

Definition show_top_stats (w : session) : ui unit :=
  (emit (st_title "📊 Player Stats & Profile") ;;
   emit (st_text_input "Enter player name (e.g. Kohli, Dhoni, Smith):") ;;
   if py_truthy (JStr (player_name w)) then
     results <- search_players w (player_name w) ;;
     has <- lift (py_contains "player" results) ;;
     found <- (if has
               then p <- lift (py_getitem results "player") ;;
                    uret (py_truthy p)
               else uret false) ;;
     if found then
       players <- lift (py_getitem results "player") ;;
       options <- lift (player_options players) ;;
       emit (st_selectbox "Select a player:" (map fst options)) ;;
       selected_player <-
         lift (match selectbox (map fst options) (pick w) with
               | Some selected_name =>
                   match dict_get options selected_name with
                   | Some p => Ok p
                   | None => Raise KeyError
                   end
               | None => Raise KeyError
               end) ;;
       pid <- lift (py_getitem selected_player "id") ;;
       player_details <- get_player_details w pid ;;
       emit (st_tabs ["📌 Profile"; "🏏 Batting Stats"; "🎯 Bowling Stats"]) ;;
       profile_tab w selected_player player_details ;;
       stats_tab w 1 "Batting Stats" "batting" "No batting stats available."
         selected_player ;;
       stats_tab w 2 "Bowling Stats" "bowling" "No bowling stats available."
         selected_player
     else emit no_players_found
   else uret tt)%ui.

(** ** The query runner (sql_queries.py, lines 33-40 and 615-627) *)

(** A database connection, as far as [pd.read_sql(query, conn)] is concerned:
    for each statement text, the table it yields or the exception it raises
    (a syntax error, a lost connection, ...). *)
Record connection : Type := mkConnection {
  execute : string -> pyexn + DataFrame
}.

Definition run_query (conn : connection) (query : string)
    : ui (option DataFrame) :=
  (emit (pd_read_sql query) ;;
   match execute conn query with
   | inr df => uret (Some df)
   | inl e =>
       emit (st_error [Lit "❌ Query Error: "; FmtExn e]) ;;
       uret None
   end)%ui.

Section RunButton.

(** [str.strip], whose set of whitespace characters is Unicode's. *)
Variable py_strip : string -> string.

(** The [if st.button("Run Query"):] block, lines 615-627, once the button
    is pressed. *)
Definition run_button (conn : connection) (query_input : string) : ui unit :=
  (if py_truthy (JStr (py_strip query_input)) then
     emit (st_spinner "Executing query...") ;;
     df <- run_query conn query_input ;;
     match df with
     | Some df =>
         emit (st_subheader "Query Results") ;;
         emit (st_dataframe df) ;;
         emit (st_success "Query executed successfully!")
     | None =>
         emit (st_error
                 [Lit "Query failed. Please check your SQL syntax or database tables."])
     end
   else emit (st_warning "Please enter a query to run."))%ui.

End RunButton.

(** ** The SQL page (sql_queries.py, lines 10-30 and 581-656) *)

(** The catalog [QUERIES] of lines 43-578: description and statement text,
    in the order of the dict literal. *)
Definition QUERIES : list (string * string) :=
  [("Q1: List all Indian players with full name, role, batting style, and bowling style",
    "
            SELECT full_name AS player_name, playing_role, batting_style, bowling_style
            FROM players
            WHERE country = 'India';
        ");
   ("Q2: Matches played in the last 30 days (most recent first)",
    "
            SELECT match_desc AS match_description, team1, team2, venue, venue_city, start_date
            FROM recent_matches
            WHERE start_date >= DATE_SUB(CURDATE(), INTERVAL 30 DAY)
            ORDER BY start_date DESC;
        ");
   ("Q3: Top 10 ODI run scorers with total runs, average, centuries",
    "
            SELECT player_name, runs AS total_runs, average AS batting_avg
            FROM top_odi_runs
            ORDER BY total_runs DESC
            LIMIT 10;
        ");
   ("Q4: Venues with capacity over 50,000 (largest first)",
    "
            SELECT venue_name AS stadium_name, city, country, capacity
            FROM venues
            WHERE CAST(REPLACE(REPLACE(capacity, ',', ''), '(including standing room)', '') AS UNSIGNED) >= 50000
            ORDER BY CAST(REPLACE(REPLACE(capacity, ',', ''), '(including standing room)', '') AS UNSIGNED) DESC;
        ");
   ("Q5: Total matches won by each team (most wins first)",
    "
            SELECT match_winner AS team_name, COUNT(*) AS total_wins
            FROM combined_matches
            GROUP BY team_name
            ORDER BY total_wins DESC;
        ");
   ("Q6: Count of players by playing role",
    "
            SELECT playing_role AS role, COUNT(*) AS total_players
            FROM players
            GROUP BY role;
        ");
   ("Q7: Highest individual batting score by format",
    "
            SELECT c.format AS match_format, MAX(b.runs) AS highest_score
            FROM batting_data b
            JOIN combined_matches c ON b.match_id = c.match_id
            GROUP BY match_format;
        ");
   ("Q8: Series that started in 2024",
    "
            SELECT series_name AS series, venue AS venue_name, match_format AS format, start_date AS match_date
            FROM series_matches
            WHERE YEAR(start_date) = 2024
            ORDER BY match_date;
        ");
   ("Q9: Show allrounders with 1000+ runs & 50+ wickets",
    "
            SELECT name AS player_name, total_runs AS runs_scored, total_wickets AS wickets_taken
            FROM players
            WHERE playing_role LIKE '%Allrounder%'
              AND total_runs > 1000
              AND total_wickets > 50;
        ");
   ("Q10: Last 20 completed matches (latest first)",
    "
            SELECT match_desc AS match_description,
                   team1 AS team_one,
                   team2 AS team_two,
                   SUBSTRING_INDEX(status, ' won by ', 1) AS winning_team,
                   SUBSTRING_INDEX(SUBSTRING_INDEX(status, ' won by ', -1), ' ', 1) AS victory_margin,
                   CASE
                       WHEN status LIKE '%won by%run%' THEN 'Runs'
                       WHEN status LIKE '%won by%wkt%' THEN 'Wickets'
                       ELSE NULL
                   END AS victory_type,
                   venue AS venue_name
            FROM recent_matches
            WHERE state = 'Complete'
            ORDER BY STR_TO_DATE(start_date, '%d-%m-%Y %H:%i') DESC
            LIMIT 20;
        ");
   ("Q11: Players in >=2 formats: runs by format + overall avg",
    "
            SELECT player_name, test_runs, odi_runs, t20_runs,
                   ROUND(
                        (test_runs + odi_runs + t20_runs) / 
                        (
                            (CASE WHEN test_runs > 0 THEN 1 ELSE 0 END) + 
                            (CASE WHEN odi_runs > 0 THEN 1 ELSE 0 END) + 
                            (CASE WHEN t20_runs > 0 THEN 1 ELSE 0 END)
                        ), 
                   2) AS overall_batting_average
            FROM players_stats
            WHERE 
                (CASE WHEN test_runs > 0 THEN 1 ELSE 0 END) + 
                (CASE WHEN odi_runs > 0 THEN 1 ELSE 0 END) + 
                (CASE WHEN t20_runs > 0 THEN 1 ELSE 0 END) >= 2
            ORDER BY overall_batting_average DESC;
        ");
   ("Q12: Home vs Away team wins",
    "
            SELECT team_stats.team AS team_name,
                   team_stats.home_or_away,
                   COUNT(*) AS total_wins
            FROM (
                SELECT team1 AS team,
                       CASE 
                           WHEN status LIKE CONCAT(team1, ' won%') AND series_name LIKE CONCAT('%tour of ', team1, '%') THEN 'Home'
                           WHEN status LIKE CONCAT(team1, ' won%') THEN 'Away'
                       END AS home_or_away
                FROM series_matches
                WHERE status LIKE '%won%'
                UNION ALL
                SELECT team2 AS team,
                       CASE 
                           WHEN status LIKE CONCAT(team2, ' won%') AND series_name LIKE CONCAT('%tour of ', team2, '%') THEN 'Home'
                           WHEN status LIKE CONCAT(team2, ' won%') THEN 'Away'
                       END AS home_or_away
                FROM series_matches
                WHERE status LIKE '%won%'
            ) AS team_stats
            WHERE home_or_away IS NOT NULL
            GROUP BY team_stats.team, team_stats.home_or_away
            ORDER BY team_stats.team, team_stats.home_or_away;
        ");
   ("Q13: Batting partnerships with combined runs >= 100 in the same innings",
    "
            SELECT p1.match_id, p1.innings_no, p1.batter1_name AS batter1, p1.batter2_name AS batter2,
                   p1.runs_partnership + p2.runs_partnership AS combined_runs
            FROM players_partnerships_data p1
            JOIN players_partnerships_data p2
                ON p1.match_id = p2.match_id
               AND p1.innings_no = p2.innings_no
               AND p1.wicket_fallen + 1 = p2.wicket_fallen
            WHERE (p1.runs_partnership + p2.runs_partnership) >= 100
            ORDER BY p1.match_id, p1.innings_no, p1.wicket_fallen;
        ");
   ("Q14: Bowling performance at venues for bowlers with >=2 matches and >=4 overs",
    "
            SELECT player_name, venue, COUNT(DISTINCT match_id) AS matches_played,
                   SUM(wickets) AS total_wickets,
                   ROUND(AVG(economy_rate), 2) AS avg_economy_rate
            FROM bowlers_bowling_venue_data
            WHERE overs >= 4
            GROUP BY player_name, venue
            HAVING COUNT(DISTINCT match_id) >= 2
            ORDER BY player_name, venue;
        ");
   ("Q15: Players in close matches (margin <50 runs or <5 wkts)",
    "
            SELECT p.player_id, p.name AS player_name,
                   AVG(b.runs) AS avg_runs,
                   COUNT(DISTINCT b.match_id) AS close_matches_played,
                   SUM(CASE WHEN c.match_winner = b.team THEN 1 ELSE 0 END) AS matches_won
            FROM batting_data b
            JOIN combined_matches c ON b.match_id = c.match_id
            JOIN players p ON b.player_id = p.player_id
            WHERE (
                    (c.win_margin LIKE '%runs' AND CAST(SUBSTRING_INDEX(c.win_margin, ' ', 1) AS UNSIGNED) < 50)
                 OR (c.win_margin LIKE '%wkt%' AND CAST(SUBSTRING_INDEX(c.win_margin, ' ', 1) AS UNSIGNED) < 5)
                  )
            GROUP BY p.player_id, p.name
            ORDER BY close_matches_played DESC;
        ");
   ("Q16: Yearly avg runs & strike rate since 2020 (>=5 matches/year)",
    "
            SELECT player_name, YEAR(date) AS year,
                   ROUND(AVG(runs), 2) AS avg_runs_per_match,
                   ROUND(AVG(strike_rate), 2) AS avg_strike_rate
            FROM batters_batting_data
            WHERE date >= '2020-01-01'
            GROUP BY player_name, YEAR(date)
            HAVING COUNT(DISTINCT match_id) >= 5
            ORDER BY avg_runs_per_match DESC;
        ");
   ("Q17: Toss decision impact: win % by toss choice",
    "
            WITH toss_results AS (
                SELECT toss_decision,
                       CASE WHEN toss_winner = match_winner THEN 1 ELSE 0 END AS toss_win_match
                FROM combined_matches
                WHERE toss_winner IS NOT NULL AND toss_decision IS NOT NULL
                  AND match_winner NOT LIKE 'Match drawn'
            )
            SELECT toss_decision,
                   COUNT(*) AS total_matches,
                   SUM(toss_win_match) AS won_after_toss,
                   ROUND(SUM(toss_win_match) * 100.0 / COUNT(*), 2) AS win_percentage
            FROM toss_results
            GROUP BY toss_decision;
        ");
   ("Q18: Most economical bowlers (ODI & T20, min 10 matches, avg >=2 overs)",
    "
            WITH bowler_agg AS (
                SELECT player_id, player_name, COUNT(DISTINCT match_id) AS matches_played,
                       SUM(overs) AS total_overs, SUM(runs_conceded) AS total_runs, SUM(wickets) AS total_wickets,
                       SUM(overs) * 1.0 / COUNT(DISTINCT match_id) AS avg_overs_per_match,
                       SUM(runs_conceded) * 1.0 / SUM(overs) AS economy_rate
                FROM bowlers_bowling_venue_data
                GROUP BY player_id, player_name
                HAVING COUNT(DISTINCT match_id) >= 2 AND SUM(overs) * 1.0 / COUNT(DISTINCT match_id) >= 1
            ),
            ranked_bowlers AS (
                SELECT *, RANK() OVER (ORDER BY total_wickets DESC, economy_rate ASC) AS bowler_rank
                FROM bowler_agg
            )
            SELECT bowler_rank AS ranking, player_name, matches_played, total_overs, total_runs, total_wickets,
                   ROUND(economy_rate, 2) AS economy_rate
            FROM ranked_bowlers
            ORDER BY bowler_rank;
        ");
   ("Q19: Player consistency since 2022: avg runs & stdev (>=10 balls/inn)",
    "
            WITH player_innings AS (
                SELECT player_id, player_name, match_id, runs, balls_faced
                FROM batters_batting_data
                WHERE date >= '2022-01-01' AND balls_faced >= 10
            ),
            player_stats AS (
                SELECT player_id, player_name, COUNT(DISTINCT match_id) AS innings_played,
                       AVG(runs) AS avg_runs, STDDEV(runs) AS run_stddev
                FROM player_innings
                GROUP BY player_id, player_name
                HAVING COUNT(DISTINCT match_id) >= 2
            )
            SELECT player_name, innings_played, ROUND(avg_runs, 2) AS avg_runs,
                   ROUND(run_stddev, 2) AS run_stddev
            FROM player_stats
            ORDER BY run_stddev ASC, avg_runs DESC;
        ");
   ("Q20: Matches & batting avg by format (players with >=20 matches)",
    "
            WITH player_format_stats AS (
                SELECT b.player_id, b.player_name, c.format,
                       COUNT(DISTINCT b.match_id) AS matches_played,
                       SUM(b.runs) AS total_runs,
                       SUM(CASE WHEN b.dismissal <> 'not out' THEN 1 ELSE 0 END) AS outs
                FROM batting_data b
                JOIN combined_matches c ON b.match_id = c.match_id
                GROUP BY b.player_id, b.player_name, c.format
            ),
            player_summary AS (
                SELECT player_id, player_name,
                       SUM(CASE WHEN format = 'Test' THEN matches_played ELSE 0 END) AS test_matches,
                       SUM(CASE WHEN format = 'ODI'  THEN matches_played ELSE 0 END) AS odi_matches,
                       SUM(CASE WHEN format = 'T20'  THEN matches_played ELSE 0 END) AS t20_matches,
                       ROUND(SUM(CASE WHEN format = 'Test' THEN total_runs ELSE 0 END) * 1.0 /
                             NULLIF(SUM(CASE WHEN format = 'Test' THEN outs ELSE 0 END), 0), 2) AS test_bat_avg,
                       ROUND(SUM(CASE WHEN format = 'ODI' THEN total_runs ELSE 0 END) * 1.0 /
                             NULLIF(SUM(CASE WHEN format = 'ODI' THEN outs ELSE 0 END), 0), 2) AS odi_bat_avg,
                       ROUND(SUM(CASE WHEN format = 'T20' THEN total_runs ELSE 0 END) * 1.0 /
                             NULLIF(SUM(CASE WHEN format = 'T20' THEN outs ELSE 0 END), 0), 2) AS t20_bat_avg
                FROM player_format_stats
                GROUP BY player_id, player_name
            )
            SELECT *
            FROM player_summary
            WHERE (test_matches + odi_matches + t20_matches) >= 10
            ORDER BY (test_matches + odi_matches + t20_matches) DESC;
        ");
   ("Q21: Composite performance score & ranking by format",
    "
            WITH batting_stats AS (
                SELECT 
                    player_id,
                    MIN(player_name) AS player_name,
                    c.format,
                    SUM(runs) AS runs_scored,
                    ROUND(SUM(runs) / NULLIF(SUM(CASE WHEN dismissal <> 'not out' THEN 1 END),0), 2) AS batting_avg,
                    ROUND(AVG(strike_rate), 2) AS strike_rate
                FROM batting_data b
                JOIN combined_matches c ON b.match_id = c.match_id
                GROUP BY player_id, c.format
            ),
            bowling_stats AS (
                SELECT
                    player_id,
                    MIN(player_name) AS player_name,
                    c.format,
                    SUM(wickets) AS wickets_taken,
                    ROUND(SUM(runs_conceded) / NULLIF(SUM(wickets), 0), 2) AS bowling_avg,
                    ROUND(SUM(runs_conceded) / NULLIF(SUM(overs), 0), 2) AS economy_rate
                FROM bowling_data bo
                JOIN combined_matches c ON bo.match_id = c.match_id
                GROUP BY player_id, c.format
            ),
            fielding_stats AS (
                SELECT
                    player_id,
                    c.format,
                    SUM(catches) AS catches,
                    SUM(stumpings) AS stumpings
                FROM fielding_data f
                JOIN combined_matches c ON f.match_id = c.match_id
                GROUP BY player_id, c.format
            ),
            combined AS (
                SELECT  
                    b.player_id,
                    b.player_name,
                    b.format,
                    b.runs_scored,
                    b.batting_avg,
                    b.strike_rate,
                    IFNULL(bo.wickets_taken,0) AS wickets_taken,
                    IFNULL(bo.bowling_avg,50) AS bowling_avg,
                    IFNULL(bo.economy_rate,6) AS economy_rate,
                    IFNULL(f.catches,0) AS catches,
                    IFNULL(f.stumpings,0) AS stumpings
                FROM batting_stats b
                LEFT JOIN bowling_stats bo ON b.player_id = bo.player_id AND b.format = bo.format
                LEFT JOIN fielding_stats f ON b.player_id = f.player_id AND b.format = f.format
            ),
            scored AS (
                SELECT
                    player_id,
                    player_name,
                    format,
                    (runs_scored * 0.01 + batting_avg * 0.5 + strike_rate * 0.3) AS batting_points,
                    (wickets_taken * 2 + (50 - bowling_avg) * 0.5 + (6 - economy_rate) * 2) AS bowling_points,
                    (catches * 1 + stumpings * 2) AS fielding_points
                FROM combined
            ),
            ranked AS (
                SELECT
                    player_id,
                    player_name,
                    format,
                    ROUND(batting_points + bowling_points + fielding_points, 2) AS total_score,
                    RANK() OVER (PARTITION BY format ORDER BY (batting_points + bowling_points + fielding_points) DESC) AS rank_in_format
                FROM scored
            )
            SELECT *
            FROM ranked
            WHERE rank_in_format <= 20
            ORDER BY format, rank_in_format;
        ");
   ("Q22: Head-to-head stats last 3 years (pairs with >=5 matches)",
    "
            WITH recent_matches AS (
                SELECT *
                FROM combined_matches
                WHERE match_date >= DATE_SUB(CURDATE(), INTERVAL 5 YEAR)
            ),
            team_pairs AS (
                SELECT 
                    LEAST(team1, team2) AS team_a,
                    GREATEST(team1, team2) AS team_b,
                    COUNT(*) AS matches_played
                FROM recent_matches
                GROUP BY LEAST(team1, team2), GREATEST(team1, team2)
                HAVING matches_played >= 3
            ),
            match_details AS (
                SELECT 
                    m.match_id,
                    LEAST(m.team1, m.team2) AS team_a,
                    GREATEST(m.team1, m.team2) AS team_b,
                    m.team1,
                    m.team2,
                    m.match_winner,
                    m.win_margin,
                    m.toss_winner,
                    m.toss_decision,
                    m.venue,
                    m.format
                FROM recent_matches m
                JOIN team_pairs tp 
                    ON LEAST(m.team1, m.team2) = tp.team_a 
                AND GREATEST(m.team1, m.team2) = tp.team_b
            ),
            team_stats AS (
                SELECT
                    team_a,
                    team_b,
                    SUM(CASE WHEN match_winner = team_a THEN 1 ELSE 0 END) AS wins_team_a,
                    SUM(CASE WHEN match_winner = team_b THEN 1 ELSE 0 END) AS wins_team_b,
                    ROUND(AVG(CASE WHEN match_winner = team_a THEN win_margin END), 2) AS avg_margin_team_a,
                    ROUND(AVG(CASE WHEN match_winner = team_b THEN win_margin END), 2) AS avg_margin_team_b
                FROM match_details
                GROUP BY team_a, team_b
            ),
            venue_performance AS (
                SELECT
                    LEAST(team1, team2) AS team_a,
                    GREATEST(team1, team2) AS team_b,
                    venue,
                    toss_decision,
                    SUM(CASE WHEN match_winner = team1 THEN 1 ELSE 0 END) AS wins_team1,
                    SUM(CASE WHEN match_winner = team2 THEN 1 ELSE 0 END) AS wins_team2,
                    COUNT(*) AS total_matches
                FROM recent_matches
                GROUP BY LEAST(team1, team2), GREATEST(team1, team2), venue, toss_decision
            ),
            overall_win_pct AS (
                SELECT
                    team_a,
                    team_b,
                    ROUND(100 * wins_team_a / NULLIF((wins_team_a + wins_team_b),0), 2) AS win_pct_team_a,
                    ROUND(100 * wins_team_b / NULLIF((wins_team_a + wins_team_b),0), 2) AS win_pct_team_b
                FROM team_stats
            )
            SELECT 
                ts.team_a,
                ts.team_b,
                (ts.wins_team_a + ts.wins_team_b) AS total_matches,
                ts.wins_team_a,
                ts.wins_team_b,
                ts.avg_margin_team_a,
                ts.avg_margin_team_b,
                ow.win_pct_team_a,
                ow.win_pct_team_b
            FROM team_stats ts
            JOIN overall_win_pct ow ON ts.team_a = ow.team_a AND ts.team_b = ow.team_b
            ORDER BY total_matches DESC, ts.team_a, ts.team_b;
        ");
   ("Q23: Recent form (last 10 innings): avg, strike rate, 50+ scores, consistency",
    "
            WITH player_last10 AS (
                SELECT
                    player_id,
                    player_name,
                    runs,
                    strike_rate,
                    ROW_NUMBER() OVER (PARTITION BY player_id ORDER BY date DESC) AS rn
                FROM batters_batting_data
            ),
            recent_matches AS (
                SELECT *
                FROM player_last10
                WHERE rn <= 10
            ),
            metrics AS (
                SELECT
                    player_id,
                    player_name,
                    ROUND(AVG(CASE WHEN rn <= 5 THEN runs END), 2) AS last5_avg,
                    ROUND(AVG(runs), 2) AS last10_avg,
                    ROUND(AVG(strike_rate), 2) AS avg_strike_rate,
                    SUM(CASE WHEN runs >= 50 THEN 1 ELSE 0 END) AS scores_50plus,
                    ROUND(STDDEV(runs), 2) AS consistency
                FROM recent_matches
                GROUP BY player_id, player_name
            ),
            player_form AS (
                SELECT *,
                    CASE
                        WHEN last5_avg >= 100 THEN 'Excellent Form'
                        WHEN last5_avg >= 60 THEN 'Good Form'
                        WHEN last5_avg >= 30 THEN 'Average Form'
                        ELSE 'Poor Form'
                    END AS form_category
                FROM metrics
            )
            SELECT *
            FROM player_form
            ORDER BY last5_avg DESC;
        ");
   ("Q24: Best batting partnerships (adjacent, >=5 partnerships)",
    "
            WITH partnership_stats AS (
                SELECT
                    batter1_name,
                    batter2_name,
                    COUNT(*) AS total_partnerships,
                    ROUND(AVG(runs_partnership), 2) AS avg_runs,
                    SUM(CASE WHEN runs_partnership > 50 THEN 1 ELSE 0 END) AS partnerships_over_50,
                    MAX(runs_partnership) AS highest_partnership,
                    ROUND(
                        CASE 
                            WHEN COUNT(*) = 0 THEN 0
                            ELSE SUM(CASE WHEN runs_partnership > 50 THEN 1 ELSE 0 END) * 100.0 / COUNT(*)
                        END, 2
                    ) AS success_rate
                FROM players_partnerships_data
                GROUP BY batter1_name, batter2_name
                HAVING COUNT(*) >= 1
            ),
            ranked_partnerships AS (
                SELECT *,
                    ROW_NUMBER() OVER (ORDER BY success_rate DESC, avg_runs DESC, highest_partnership DESC) AS `ranking`
                FROM partnership_stats
            )
            SELECT *
            FROM ranked_partnerships
            WHERE `ranking` <= 20;
        ");
   ("Q25: Quarterly batting trend & career phase (>=6 quarters)",
    "
            WITH player_match_order AS (
                SELECT 
                    player_id,
                    player_name,
                    match_id,
                    runs,
                    strike_rate,
                    ROW_NUMBER() OVER (PARTITION BY player_id ORDER BY match_id) AS match_order
                FROM batters_batting_data
            ),
            player_quarters AS (
                SELECT
                    player_id,
                    player_name,
                    CEIL(match_order / 3) AS quarter_number,  -- every 3 matches = 1 quarter
                    COUNT(match_id) AS matches_played,
                    AVG(runs) AS avg_runs,
                    AVG(strike_rate) AS avg_sr
                FROM player_match_order
                GROUP BY player_id, player_name, CEIL(match_order / 3)
                HAVING COUNT(match_id) >= 3
            ),
            player_with_trend AS (
                SELECT
                    player_id,
                    player_name,
                    CONCAT('Q', quarter_number) AS year_quarter,
                    avg_runs,
                    avg_sr,
                    LAG(avg_runs) OVER (PARTITION BY player_id ORDER BY quarter_number) AS prev_avg_runs,
                    LAG(avg_sr) OVER (PARTITION BY player_id ORDER BY quarter_number) AS prev_avg_sr
                FROM player_quarters
            ),
            player_trend_analysis AS (
                SELECT
                    player_id,
                    player_name,
                    year_quarter,
                    avg_runs,
                    avg_sr,
                    CASE
                        WHEN prev_avg_runs IS NULL THEN 'N/A'
                        WHEN avg_runs > prev_avg_runs AND avg_sr > prev_avg_sr THEN 'Improving'
                        WHEN avg_runs < prev_avg_runs AND avg_sr < prev_avg_sr THEN 'Declining'
                        ELSE 'Stable'
                    END AS performance_trend
                FROM player_with_trend
            )
            SELECT 
                player_id,
                player_name,
                COUNT(CASE WHEN performance_trend = 'Improving' THEN 1 END) AS improving_quarters,
                COUNT(CASE WHEN performance_trend = 'Declining' THEN 1 END) AS declining_quarters,
                COUNT(CASE WHEN performance_trend = 'Stable' THEN 1 END) AS stable_quarters,
                CASE
                    WHEN COUNT(CASE WHEN performance_trend = 'Improving' THEN 1 END) >
                        COUNT(CASE WHEN performance_trend = 'Declining' THEN 1 END)
                    THEN 'Career Ascending'
                    WHEN COUNT(CASE WHEN performance_trend = 'Declining' THEN 1 END) >
                        COUNT(CASE WHEN performance_trend = 'Improving' THEN 1 END)
                    THEN 'Career Declining'
                    ELSE 'Career Stable'
                END AS career_phase
            FROM player_trend_analysis
            GROUP BY player_id, player_name;
    ")].

(** The text of [st.write] on lines 634-648. *)
Definition available_tables_text : string :=
  "
    - `players`: Contains player information.
    - `recent_matches`: Contains details of recent matches.
    - `top_odi_runs`: Contains top ODI run scorers.
    - `venues`: Contains venue and stadium information.
    - `combined_matches`: A unified view of all matches.
    - `batting_data`: Contains detailed batting performance data.
    - `series_matches`: Contains information about different series.
    - `players_stats`: Contains player statistics.
    - `players_partnerships_data`: Contains batting partnerships data.
    - `bowlers_bowling_venue_data`: Contains bowling stats at specific venues.
    - `batters_batting_data`: Contains detailed batting stats for batters.
    - `bowling_data`: Contains bowling data.
    - `fielding_data`: Contains fielding data.
    ".

(** The text of [st.markdown] on lines 650-656. *)
Definition example_queries_text : string :=
  "
    - **Get all players from a specific team:**
      `SELECT * FROM players WHERE team_id = 1;`
    - **Find top batsmen by total runs:**
      `SELECT name, total_runs FROM top_batsmen ORDER BY total_runs DESC;`
    ".

(** The calls of the SQL page: those of the kinds already met, and the ones
    only this page makes. *)
Inductive sql_event : Type :=
| ui_call (e : event)
| st_info (t : string)
| st_text_area (label value : string) (height : Z)
| st_button (label : string)
| mysql_connect (host user password database : option string)
| conn_close.

Definition page (A : Type) : Type := (list sql_event * res A)%type.

Definition pret {A} (a : A) : page A := ([], Ok a).

Definition pemit (e : sql_event) : page unit := ([e], Ok tt).

Definition pbind {A B} (c : page A) (k : A -> page B) : page B :=
  match c with
  | (l, Ok a) => let (l', r) := k a in (l ++ l', r)
  | (l, Raise e) => (l, Raise e)
  | (l, Unmodelled) => (l, Unmodelled)
  end.

(** A computation of the player page's kind, run inside the SQL page. *)
Definition of_ui {A} (c : ui A) : page A := (map ui_call (fst c), snd c).

Declare Scope page_scope.
Delimit Scope page_scope with page.
Notation "x <- c ;; k" := (pbind c (fun x => k))
  (at level 61, c at next level, right associativity) : page_scope.
Notation "c ;; k" := (pbind c (fun _ => k))
  (at level 61, right associativity) : page_scope.

(** One run of the SQL page: the four settings read with [os.getenv] ([None]
    when unset), what [mysql.connector.connect] does with them (the exception
    it raises, or the connection and the answer of its [is_connected()]), the
    position picked in the select box, the text typed into the editor ([None]
    when it was left as filled in), and whether the button was pressed. *)
Record sql_session : Type := mkSqlSession {
  db_host : option string;
  db_user : option string;
  db_password : option string;
  db_name : option string;
  connect : pyexn + (bool * connection);
  query_pick : nat;
  query_edit : option string;
  run_pressed : bool
}.

(** The exceptions caught by [except Error], [Error] being the one of
    [mysql.connector]. *)
Definition is_mysql_error (e : pyexn) : bool :=
  match e with
  | DatabaseError _ => true
  | _ => false
  end.

(** [create_connection] (lines 10-30).  A connection that reports not to be
    connected falls out of the [try] and the function returns [None] by
    reaching its end. *)
Definition create_connection (w : sql_session) : page (option connection) :=
  (pemit (mysql_connect (db_host w) (db_user w) (db_password w) (db_name w)) ;;
   match connect w with
   | inr (true, conn) => pret (Some conn)
   | inr (false, _) => pret None
   | inl e =>
       if is_mysql_error e then
         pemit (ui_call (st_error [Lit "❌ Error connecting to MySQL database: ";
                                   FmtExn e])) ;;
         pret None
       else ([], Raise e)
   end)%page.

(** The calls after [conn.close()] (lines 631-656). *)
Definition page_footer : list sql_event :=
  [ui_call (st_markdown [Lit "---"]);
   ui_call (st_subheader "Available Tables");
   ui_call (st_write [Lit available_tables_text]);
   ui_call (st_markdown [Lit "### 📝 Example Queries"]);
   ui_call (st_markdown [Lit example_queries_text])].

Section SqlPage.

Variable py_strip : string -> string.

(** [show_sql_queries] (lines 581-656). *)
Definition show_sql_queries (w : sql_session) : page unit :=
  (pemit (ui_call (st_title "🔍 SQL Analytics")) ;;
   pemit (ui_call (st_markdown [Lit "---"])) ;;
   pemit (st_info "💡 Note: This page connects to a MySQL database to run the queries. Make sure your database is running and the connection details are correct.") ;;
   conn <- create_connection w ;;
   match conn with
   | None =>
       pemit (ui_call (st_warning "Could not connect to the database. Please check your credentials and connection."))
   | Some conn =>
       pemit (ui_call (st_subheader "Run Custom SQL Queries")) ;;
       pemit (ui_call (st_selectbox "Select a query from the list:" (map fst QUERIES))) ;;
       selected_query_text <-
         match selectbox (map fst QUERIES) (query_pick w) with
         | Some query_selection =>
             match find (fun kv => fst kv =? query_selection) QUERIES with
             | Some kv => pret (snd kv)
             | None => ([], Raise KeyError)
             end
         | None => ([], Raise KeyError)
         end ;;
       pemit (st_text_area "Or enter your own SQL query below:"
                selected_query_text 200) ;;
       let query_input :=
         match query_edit w with
         | Some typed => typed
         | None => selected_query_text
         end in
       pemit (st_button "Run Query") ;;
       (if run_pressed w
        then of_ui (run_button py_strip conn query_input)
        else pret tt) ;;
       pemit conn_close ;;
       (page_footer, Ok tt)
   end)%page.

End SqlPage.

Definition trace_of_page {A} (c : page A) : list sql_event := fst c.

(** The statements a run of the SQL page sends to the database, in order. *)
Definition statements (l : list sql_event) : list string :=
  flat_map (fun e => match e with
                     | ui_call (pd_read_sql q) => [q]
                     | _ => []
                     end) l.

Definition is_close (e : sql_event) : bool :=
  match e with
  | conn_close => true
  | _ => false
  end.

(** The entry of the catalog at the picked position, the first one for a
    position outside the list. *)
Definition selected_entry (l : list (string * string)) (picked : nat)
    : option (string * string) :=
  nth_error l (if (picked <? length l)%nat then picked else 0%nat).

(** The statement text of the selected entry. *)
Definition selected_text (picked : nat) : string :=
  match selected_entry QUERIES picked with
  | Some kv => snd kv
  | None => ""
  end.

(** The text in the editor: what was typed, or the pre-filled statement. *)
Definition editor_text (w : sql_session) : string :=
  match query_edit w with
  | Some typed => typed
  | None => selected_text (query_pick w)
  end.

(** The calls of the page up to the button, with a connection. *)
Definition page_head (w : sql_session) : list sql_event :=
  [ui_call (st_title "🔍 SQL Analytics");
   ui_call (st_markdown [Lit "---"]);
   st_info "💡 Note: This page connects to a MySQL database to run the queries. Make sure your database is running and the connection details are correct.";
   mysql_connect (db_host w) (db_user w) (db_password w) (db_name w);
   ui_call (st_subheader "Run Custom SQL Queries");
   ui_call (st_selectbox "Select a query from the list:" (map fst QUERIES));
   st_text_area "Or enter your own SQL query below:" (selected_text (query_pick w)) 200;
   st_button "Run Query"].

(** No two of the strings are equal. *)
Fixpoint distinct (l : list string) : bool :=
  match l with
  | [] => true
  | x :: rest => negb (existsb (String.eqb x) rest) && distinct rest
  end.

(** ** Shapes of stats payloads *)

(** The cells of a well-formed entry [{"values": [cell, ...]}]. *)
Definition entry_cells (e : json) : option (list json) :=
  match e with
  | JObj kvs =>
      match dict_get kvs "values" with
      | Some (JArr cells) => Some cells
      | _ => None
      end
  | _ => None
  end.

(** [stats_payload kvs labels rows]: the object [kvs] has the external shape
    [{headers: [string], values: [{values: [scalar]}]}], with the header
    labels [labels] and one entry per element of [rows], holding its cells. *)
Definition stats_payload (kvs : list (string * json)) (labels : list string)
    (rows : list (list json)) : Prop :=
  dict_get kvs "headers" = Some (JArr (map JStr labels)) /\
  exists entries,
    dict_get kvs "values" = Some (JArr entries) /\
    map entry_cells entries = map Some rows.

(** The payload with exactly these labels and rows. *)
Definition mk_stats (labels : list string) (rows : list (list json)) : json :=
  JObj [("headers", JArr (map JStr labels));
        ("values", JArr (map (fun cells => JObj [("values", JArr cells)]) rows))].

(** The input of a stats payload is malformed, in the spec's sense: a key is
    missing, or one of the two is not a list. *)
Definition is_list (v : json) : bool :=
  match v with
  | JArr _ => true
  | _ => false
  end.

Definition malformed_stats (v : json) : bool :=
  match v with
  | JObj kvs =>
      match dict_get kvs "headers", dict_get kvs "values" with
      | Some h, Some vs => negb (is_list h) || negb (is_list vs)
      | _, _ => true
      end
  | _ => true
  end.

(** The inputs that the guard of line 59 turns into the empty table: falsy
    ones ([None], [{}], ...) and objects without one of the two keys. *)
Definition lacks_key (v : json) : Prop :=
  py_truthy v = false \/
  exists kvs, v = JObj kvs /\
    (dict_get kvs "headers" = None \/ dict_get kvs "values" = None).

(** An empty or malformed search response: undecodable, or an object without
    the [player] key, or one whose [player] entry is empty. *)
Definition no_candidates (r : response) : Prop :=
  decoded r = None \/
  exists kvs, decoded r = Some (JObj kvs) /\
    (dict_get kvs "player" = None \/
     exists v, dict_get kvs "player" = Some v /\ py_truthy v = false).

(** The display name of a candidate, when it has one that is a string. *)
Definition name_of (p : json) : option string :=
  match py_getitem p "name" with
  | Ok (JStr n) => Some n
  | _ => None
  end.

(** The last candidate of the list that goes by the name [n]. *)
Fixpoint last_named (n : string) (ps : list json) : option json :=
  match ps with
  | [] => None
  | p :: ps' =>
      match last_named n ps' with
      | Some q => Some q
      | None =>
          match name_of p with
          | Some m => if m =? n then Some p else None
          | None => None
          end
      end
  end.

(** What [d.get(k, "N/A")] displays for the field [k] of the dict [d]. *)
Definition field_or_na (d : list (string * json)) (k : string) : json :=
  match dict_get d k with
  | Some x => x
  | None => JStr "N/A"
  end.

(** The row of the career table made from one per-format entry. *)
Definition career_cells (f : list (string * json)) : list json :=
  let cell k := match dict_get f k with Some x => x | None => JNull end in
  [cell "name"; cell "debut"; cell "lastPlayed"].

Definition career_labels : list json :=
  [JStr "Format"; JStr "Debut"; JStr "Last Played"].

(** The details lack rankings: no [rankings] key, or an empty value there. *)
Definition rankings_absent (d : list (string * json)) : Prop :=
  dict_get d "rankings" = None \/
  exists r, dict_get d "rankings" = Some r /\ py_truthy r = false.

(** The names of a list in the order of their first occurrence, each once;
    [seen] are the names already met. *)
Fixpoint keep_first (seen names : list string) : list string :=
  match names with
  | [] => []
  | n :: rest =>
      if existsb (String.eqb n) seen
      then keep_first seen rest
      else n :: keep_first (n :: seen) rest
  end.

(** The display names of a list of candidates that all have one. *)
Fixpoint names_of (ps : list json) : list string :=
  match ps with
  | [] => []
  | p :: ps' =>
      match name_of p with
      | Some n => n :: names_of ps'
      | None => names_of ps'
      end
  end.

(** The requests among the calls of a run. *)
Definition is_request (e : event) : bool :=
  match e with
  | http_get _ => true
  | _ => false
  end.

Definition requests (l : list event) : nat := length (filter is_request l).

(** A computation that sends no request. *)
Definition quiet {A} (c : ui A) : Prop := requests (trace c) = 0.

(** The lines of one rankings column: one per category of the discipline, or
    the notice when the discipline is not there. *)
Definition ranking_lines (rankings : list (string * json)) (key : string)
    : list event :=
  match dict_get rankings key with
  | Some (JObj items) =>
      map (fun kv => st_write [Fmt (JStr (fst kv)); Lit ": "; Fmt (snd kv)]) items
  | _ => [st_write [Lit "No rankings available"]]
  end.

(** A discipline of the rankings is well-formed: absent, or an object. *)
Definition discipline_ok (rankings : list (string * json)) (key : string) : Prop :=
  dict_get rankings key = None \/ exists items, dict_get rankings key = Some (JObj items).

Definition is_object (v : json) : bool :=
  match v with
  | JObj _ => true
  | _ => false
  end.


(** The cells of a row of [k] objects, in a table built from [rows]. *)
Definition stored_row (k : nat) (rows : list (list json)) (r : list json)
    : list cell :=
  map (fun sv => store (fst sv) (snd sv))
      (combine (map (fun j => storage_of (column_at rows j)) (seq 0 k)) r).

(** The picture of the profile tab (lines 90-98) for a candidate and details
    that are objects, the [image] entry being absent or a string. *)
Definition picture_of (sp kvs : list (string * json)) : event :=
  match dict_get kvs "image" with
  | Some (JStr url) => st_image [Lit (str_replace_from "http://" "https://" 0 url)] 150
  | _ =>
      match dict_get sp "faceImageId" with
      | Some face_id =>
          if py_truthy face_id
          then st_image [Lit "https://www.cricbuzz.com/a/img/v1/152x152/i1/c";
                         Fmt face_id; Lit ".jpg"] 150
          else st_image
                 [Lit "https://placehold.co/150x150/800000/FFFFFF?text=No+Image"] 150
      | None =>
          st_image [Lit "https://placehold.co/150x150/800000/FFFFFF?text=No+Image"] 150
      end
  end.

(** The [image] entry of the details is absent, or is a string. *)
Definition image_ok (kvs : list (string * json)) : Prop :=
  dict_get kvs "image" = None \/ exists url, dict_get kvs "image" = Some (JStr url).

(** The five detail lines of lines 101-106. *)
Definition detail_lines (kvs : list (string * json)) : list event :=
  [st_subheader "Player Details";
   st_write [Lit "**Role:** "; Fmt (field_or_na kvs "role")];
   st_write [Lit "**Batting Style:** "; Fmt (field_or_na kvs "bat")];
   st_write [Lit "**Bowling Style:** "; Fmt (field_or_na kvs "bowl")];
   st_write [Lit "**Teams:** "; Fmt (field_or_na kvs "teams")];
   st_write [Lit "**Birth Place:** "; Fmt (field_or_na kvs "birthPlace")]].

(** The two heading lines of lines 86-87. *)
Definition heading_lines (sp : list (string * json)) (name team : json)
    : list event :=
  [st_write [Lit "### "; Fmt name; Lit " ("; Fmt team; Lit ")"];
   st_write [Lit "📅 DOB: "; Fmt (field_or_na sp "dob")]].

(** ** Sample payloads *)

Definition values_is_number : json :=
  JObj [("headers", JArr [JStr "Format"]); ("values", JInt 5)].

Definition ragged_stats : json :=
  mk_stats ["Format"; "Runs"] [[JStr "Test"; JInt 9230]; [JStr "ODI"]].

Definition wide_row_stats : json :=
  mk_stats ["Format"] [[JStr "Test"; JInt 9230]].

Definition no_rows_stats : json := mk_stats ["Format"; "Runs"] [].

(** The second entry keeps its cells under another key. *)
Definition unkeyed_entry_fields : list (string * json) :=
  [("headers", JArr [JStr "Format"]);
   ("values", JArr [JObj [("values", JArr [JStr "Test"])];
                    JObj [("cells", JArr [JStr "ODI"])]])].

(** ** Sample sessions *)

Definition kohli_junior : json :=
  JObj [("id", JInt 9999); ("name", JStr "Virat Kohli"); ("teamName", JStr "Delhi")].

Definition taruwar : json :=
  JObj [("id", JInt 7); ("name", JStr "Taruwar Kohli"); ("teamName", JStr "Punjab")].


Definition api_ok (v : json) : response := mkResponse 200 (Some v).

(** A 200 response whose body is not JSON. *)
Definition api_garbled : response := mkResponse 200 None.

(** A session in which every endpoint answers the same whatever the player:
    the user typed "Kohli" and left the select box as it is. *)
Definition lookup (search details career stats : response) : session :=
  mkSession "Kohli" 0 (fun _ => search) (fun _ => details) (fun _ => career)
    (fun _ _ => stats).

Definition kohli : json :=
  JObj [("id", JInt 1413); ("name", JStr "Virat Kohli"); ("teamName", JStr "India")].

Definition search_kohli : response := api_ok (JObj [("player", JArr [kohli])]).

Definition career_kohli : response :=
  api_ok (JObj [("values", JArr [JObj [("name", JStr "test"); ("debut", JStr "2011");
                                       ("lastPlayed", JStr "2024")]])]).

Definition no_stats : response := mkResponse 404 None.

(** The search endpoint answers with the JSON number 5. *)
Definition search_answers_number : session :=
  lookup (api_ok (JInt 5)) api_garbled api_garbled no_stats.

(** The stats endpoint answers 200 with a body that is not JSON. *)
Definition stats_garbled : session :=
  lookup search_kohli api_garbled api_garbled api_garbled.

(** The profile fetch fails (undecodable body), the career endpoint is fine. *)
Definition details_garbled : session :=
  lookup search_kohli api_garbled career_kohli no_stats.

(** The search finds nobody. *)
Definition nobody_found : session :=
  lookup (api_ok (JObj [("player", JArr [])])) api_garbled api_garbled no_stats.

(** The profile endpoint answers with an empty object. *)
Definition details_empty : session :=
  lookup search_kohli (api_ok (JObj [])) career_kohli no_stats.

(** The profile has a role and nothing else; the career endpoint is fine. *)
Definition role_only : session :=
  lookup search_kohli (api_ok (JObj [("role", JStr "Batsman")])) career_kohli no_stats.

(** A profile with an image, rankings and a link. *)
Definition kohli_details : json :=
  JObj [("role", JStr "Batsman");
        ("bat", JStr "Right Handed Bat");
        ("image", JStr "http://static.cricbuzz.com/a/img/v1/152x152/i1/c1413.jpg");
        ("rankings", JObj [("bat", JObj [("odiRank", JStr "2")])]);
        ("webURL", JStr "http://www.cricbuzz.com/profiles/1413/virat-kohli")].

Definition batting_kohli : response :=
  api_ok (mk_stats ["ROWHEADER"; "Test"; "ODI"]
            [[JStr "Matches"; JStr "113"; JStr "295"]]).

Definition all_fine : session :=
  lookup search_kohli (api_ok kohli_details) career_kohli batting_kohli.

(** The stats endpoint answers with headers and no entry. *)
Definition stats_without_rows : session :=
  lookup search_kohli (api_ok kohli_details) career_kohli
    (api_ok (mk_stats ["ROWHEADER"; "Test"] [])).

(** Three candidates, two of them going by the same name. *)
Definition search_namesakes : response :=
  api_ok (JObj [("player", JArr [kohli; taruwar; kohli_junior])]).

(** The second candidate of the search has no name. *)
Definition search_nameless : session :=
  lookup (api_ok (JObj [("player", JArr [kohli; JObj [("id", JInt 7)]])]))
    (api_ok kohli_details) career_kohli no_stats.

(** The name typed holds blanks; the search would find nobody. *)
Definition name_with_blanks : session :=
  mkSession "Nonexistent Player XYZ" 0
    (fun _ => api_ok (JObj [("player", JArr [])]))
    (fun _ => api_garbled) (fun _ => api_garbled) (fun _ _ => no_stats).

(** ** Sample connections *)

Definition top_scorers : DataFrame :=
  mkDataFrame [JStr "player_name"; JStr "total_runs"]
              [[Kept (JStr "SR Tendulkar"); Kept (JInt 18426)]].

(** A database that knows one statement and refuses every other one. *)
Definition one_table_db : connection :=
  mkConnection (fun q =>
    if q =? "SELECT player_name, runs AS total_runs FROM top_odi_runs"
    then inr top_scorers
    else inl (DatabaseError "You have an error in your SQL syntax")).

(** A database whose [players] table is there, asked for rows that do not
    exist. *)
Definition no_rows_db : connection :=
  mkConnection (fun q =>
    if q =? "SELECT player_name FROM players WHERE 1 = 0"
    then inr (mkDataFrame [JStr "player_name"] [])
    else inl (DatabaseError "You have an error in your SQL syntax")).

(** A stand-in for [str.strip] to run the page on samples: leading ASCII
    blanks are removed, which is enough to tell a blank text. *)
Fixpoint lstrip_blank (s : string) : string :=
  match s with
  | String c t =>
      if existsb (Ascii.eqb c) [" "%char; "009"%char; "010"%char; "013"%char]
      then lstrip_blank t
      else s
  | EmptyString => EmptyString
  end.

(** The settings are there, the server accepts, the third entry is picked,
    the editor is left alone and the button pressed. *)
Definition run_third_query : sql_session :=
  mkSqlSession (Some "localhost") (Some "root") (Some "secret") (Some "cricket")
    (inr (true, one_table_db)) 2 None true.

(** The server refuses the credentials. *)
Definition access_denied : sql_session :=
  mkSqlSession (Some "localhost") (Some "root") None (Some "cricket")
    (inl (DatabaseError "Access denied for user")) 0 None true.

(** The connector trips over its arguments before reaching the server. *)
Definition connect_type_error : sql_session :=
  mkSqlSession None None None None (inl TypeError) 0 None false.

(** The user replaces the pre-filled text by a statement of their own and
    presses the button. *)
Definition run_typed_query : sql_session :=
  mkSqlSession (Some "localhost") (Some "root") (Some "secret") (Some "cricket")
    (inr (true, one_table_db)) 2
    (Some "SELECT player_name, runs AS total_runs FROM top_odi_runs") true.

(** * Properties of [parse_stats_table] *)

Lemma mk_stats_payload labels rows :
  stats_payload [("headers", JArr (map JStr labels));
                 ("values", JArr (map (fun cells => JObj [("values", JArr cells)]) rows))]
                labels rows.
Proof.
  split; [reflexivity|].
  eexists; split; [reflexivity|].
  rewrite map_map. apply map_ext. reflexivity.
Qed.

Lemma present_truthy kvs k v :
  dict_get kvs k = Some v -> py_truthy (JObj kvs) = true.
Proof. destruct kvs; [discriminate | reflexivity]. Qed.

(** With both keys present, the two guards of line 59 pass. *)
Lemma parse_stats_table_present kvs h v :
  dict_get kvs "headers" = Some h ->
  dict_get kvs "values" = Some v ->
  parse_stats_table (JObj kvs) =
  (entries <- py_iter v ;;
   rows <- rmap (fun row => py_getitem row "values") entries ;;
   pd_DataFrame rows h)%res.
Proof.
  intros Hh Hv. unfold parse_stats_table.
  rewrite (present_truthy _ _ _ Hh). cbn [negb py_contains py_getitem rbind].
  rewrite Hh, Hv. reflexivity.
Qed.

Lemma rmap_entry_values entries rows :
  map entry_cells entries = map Some rows ->
  rmap (fun row => py_getitem row "values") entries = Ok (map JArr rows).
Proof.
  revert rows. induction entries as [|e es IH]; intros [|r rs] H;
    try discriminate; [reflexivity|].
  cbn [map] in H. injection H as He Hes.
  cbn [rmap]. rewrite (IH _ Hes).
  destruct e as [| | | | | |kvs]; try discriminate.
  cbn in He |- *. destruct (dict_get kvs "values") as [[]|]; try discriminate.
  injection He as ->. reflexivity.
Qed.

Lemma rmap_iter_lists rows : rmap py_iter (map JArr rows) = Ok rows.
Proof.
  induction rows as [|r rs IH]; [reflexivity|].
  cbn [map rmap py_iter rbind]. rewrite IH. reflexivity.
Qed.

Lemma labels_scalar labels : forallb is_scalar (map JStr labels) = true.
Proof. induction labels; [reflexivity | assumption]. Qed.

(** What the table constructor does with well-formed rows. *)
Lemma pd_DataFrame_lists labels rows :
  pd_DataFrame (map JArr rows) (JArr (map JStr labels)) =
  match rows with
  | [] => Ok (mkDataFrame (map JStr labels) [])
  | _ :: _ =>
      if (length labels =? max_width rows)%nat
      then Ok (mkDataFrame (map JStr labels)
                 (store_table (max_width rows) (map (pad (max_width rows)) rows)))
      else Raise ValueError
  end.
Proof.
  unfold pd_DataFrame. rewrite labels_scalar.
  destruct rows as [|r rs]; [reflexivity|].
  change (map JArr (r :: rs)) with (JArr r :: map JArr rs) at 1.
  cbv beta iota.
  change (JArr r :: map JArr rs) with (map JArr (r :: rs)).
  rewrite rmap_iter_lists. cbn [rbind]. rewrite length_map. reflexivity.
Qed.

(** The normalizer on a payload of the external shape. *)
Lemma parse_stats_table_payload kvs labels rows :
  stats_payload kvs labels rows ->
  parse_stats_table (JObj kvs) =
  match rows with
  | [] => Ok (mkDataFrame (map JStr labels) [])
  | _ :: _ =>
      if (length labels =? max_width rows)%nat
      then Ok (mkDataFrame (map JStr labels)
                 (store_table (max_width rows) (map (pad (max_width rows)) rows)))
      else Raise ValueError
  end.
Proof.
  intros [Hh (entries & Hv & Hrows)].
  rewrite (parse_stats_table_present _ _ _ Hh Hv).
  cbn [py_iter rbind]. rewrite (rmap_entry_values _ _ Hrows). cbn [rbind].
  apply pd_DataFrame_lists.
Qed.

Lemma parse_stats_table_guard v :
  lacks_key v -> parse_stats_table v = Ok empty_frame.
Proof.
  intros [Hf | (kvs & -> & Hk)]; unfold parse_stats_table.
  - rewrite Hf. reflexivity.
  - destruct (py_truthy (JObj kvs)); [|reflexivity].
    cbn [negb py_contains rbind].
    destruct Hk as [Hk | Hk].
    + rewrite Hk. reflexivity.
    + destruct (dict_get kvs "headers"); [|reflexivity].
      cbn [negb]. rewrite Hk. reflexivity.
Qed.

(** C1 (as amended).  An input that is falsy ([None], the empty dict, ...) or
    is an object lacking the [headers] key or the [values] key is normalized
    to the empty table, zero headers and zero rows, and nothing is raised.
    (The shape of what is stored under the two keys is not looked at by the
    guard.) *)
Theorem parse_stats_table_missing_key (v : json) :
  lacks_key v ->
  parse_stats_table v = Ok empty_frame /\
  columns empty_frame = [] /\ data empty_frame = [].
Proof.
  intros H. split; [apply parse_stats_table_guard, H | split; reflexivity].
Qed.

Lemma parse_stats_table_missing_key_witness :
  lacks_key (JObj [("headers", JArr [JStr "Format"])]) /\
  parse_stats_table (JObj [("headers", JArr [JStr "Format"])]) = Ok empty_frame.
Proof.
  assert (H : lacks_key (JObj [("headers", JArr [JStr "Format"])])).
  { right. eexists. split; [reflexivity | right; reflexivity]. }
  split; [exact H | exact (proj1 (parse_stats_table_missing_key _ H))].
Defined.

(** C1 (as stated) fails: [values] holding a number is one of the malformed
    inputs of the claim, and the normalizer raises [TypeError] on it (line 63
    iterates over the number) instead of returning the empty table. *)
Lemma parse_stats_table_values_number_raises :
  malformed_stats values_is_number = true /\
  parse_stats_table values_is_number = Raise TypeError /\
  parse_stats_table values_is_number <> Ok empty_frame.
Proof. split; [reflexivity | split; [reflexivity | discriminate]]. Qed.

Lemma max_width_cons (r : list json) rs :
  max_width (r :: rs) = Nat.max (length r) (max_width rs).
Proof. reflexivity. Qed.

Lemma max_width_exact (rows : list (list json)) n :
  Forall (fun r => length r = n) rows -> rows <> [] -> max_width rows = n.
Proof.
  induction 1 as [|r rs Hr Hrs IH]; [congruence|]. intros _.
  rewrite max_width_cons, Hr. destruct rs as [|r' rs'].
  - apply Nat.max_0_r.
  - rewrite IH by discriminate. apply Nat.max_id.
Qed.

Lemma pad_exact n (r : list json) : length r = n -> pad n r = r.
Proof.
  intros <-. unfold pad. rewrite Nat.sub_diag. apply app_nil_r.
Qed.

Lemma map_pad_exact n (rows : list (list json)) :
  Forall (fun r => length r = n) rows -> map (pad n) rows = rows.
Proof.
  induction 1 as [|r rs Hr _ IH]; [reflexivity|].
  cbn [map]. rewrite IH, (pad_exact _ _ Hr). reflexivity.
Qed.

Lemma max_width_ge (cells : list (list json)) r :
  In r cells -> length r <= max_width cells.
Proof.
  induction cells as [|c cs IH]; [contradiction|].
  rewrite max_width_cons. intros [-> | H]; [lia|].
  specialize (IH H). lia.
Qed.

Lemma length_pad k (r : list json) : length r <= k -> length (pad k r) = k.
Proof. intros H. unfold pad. rewrite length_app, repeat_length. lia. Qed.


Lemma store_table_rows k rows : store_table k rows = map (stored_row k rows) rows.
Proof. reflexivity. Qed.

Lemma length_stored_row k rows r :
  length r = k -> length (stored_row k rows r) = k.
Proof.
  intros H. unfold stored_row.
  rewrite length_map, length_combine, length_map, length_seq. lia.
Qed.

(** The stored rows of a table of [k] columns have [k] cells. *)
Lemma store_table_shape k rows :
  Forall (fun r => length r = k) rows ->
  Forall (fun r => length r = k) (store_table k rows) /\
  length (store_table k rows) = length rows.
Proof.
  intros H. rewrite store_table_rows. split; [|apply length_map].
  apply Forall_forall. intros c Hc. apply in_map_iff in Hc as (r & <- & Hr).
  apply length_stored_row. exact (proj1 (Forall_forall _ _) H r Hr).
Qed.

Lemma padded_rows (cells : list (list json)) :
  Forall (fun r => length r = max_width cells) (map (pad (max_width cells)) cells).
Proof.
  apply Forall_forall. intros r Hr. apply in_map_iff in Hr as (c & <- & Hc).
  apply length_pad, max_width_ge, Hc.
Qed.










(** C3 (as amended).  On a payload of the external shape with at least one
    entry, the normalizer completes exactly when the longest entry has as
    many cells as there are header labels: it then returns a table with the
    labels, one row per entry and as many cells in every row as there are
    labels, so rows that differ from the header count are the shorter ones,
    and are tolerated.  When the longest entry's cell count differs from the
    header count, the [ValueError] of the table constructor propagates out
    of [parse_stats_table]. *)
Theorem parse_stats_table_width_check kvs labels rows :
  stats_payload kvs labels rows ->
  rows <> [] ->
  (max_width rows = length labels ->
   exists df,
     parse_stats_table (JObj kvs) = Ok df /\
     columns df = map JStr labels /\
     length (data df) = length rows /\
     Forall (fun r => length r = length labels) (data df)) /\
  (max_width rows <> length labels ->
   parse_stats_table (JObj kvs) = Raise ValueError).
Proof.
  intros Hp Hne. rewrite (parse_stats_table_payload _ _ _ Hp).
  destruct rows as [|r rs]; [congruence|].
  split; intros Hw.
  - rewrite Hw, Nat.eqb_refl. eexists. split; [reflexivity|].
    cbn [columns data]. split; [reflexivity|].
    pose proof (padded_rows (r :: rs)) as Hpad. rewrite Hw in Hpad.
    destruct (store_table_shape _ _ Hpad) as [Hs Hl].
    split; [rewrite Hl; apply length_map | exact Hs].
  - destruct (Nat.eqb_spec (length labels) (max_width (r :: rs))) as [E|E];
      [congruence | reflexivity].
Qed.

Lemma parse_stats_table_width_check_witness :
  exists df,
    parse_stats_table ragged_stats = Ok df /\
    columns df = [JStr "Format"; JStr "Runs"] /\
    length (data df) = 2 /\
    Forall (fun r => length r = 2) (data df).
Proof.
  refine (proj1 (parse_stats_table_width_check _ ["Format"; "Runs"]
                   [[JStr "Test"; JInt 9230]; [JStr "ODI"]]
                   (mk_stats_payload _ _) _) eq_refl).
  discriminate.
Defined.

(** C3 (as stated) fails: one header, one row of two cells, and the
    normalizer raises [ValueError]. *)
Lemma parse_stats_table_wide_row_raises :
  stats_payload [("headers", JArr [JStr "Format"]);
                 ("values", JArr [JObj [("values", JArr [JStr "Test"; JInt 9230])]])]
                ["Format"] [[JStr "Test"; JInt 9230]] /\
  length [JStr "Test"; JInt 9230] <> length ["Format"] /\
  parse_stats_table wide_row_stats = Raise ValueError.
Proof.
  split; [exact (mk_stats_payload ["Format"] [[JStr "Test"; JInt 9230]])|].
  split; [discriminate | reflexivity].
Qed.

(** C9.  With both keys present, N header labels and an empty values list,
    the table keeps the N labels as its columns and has no row; an object
    without one of the keys gives no column at all.  Both tables have zero
    rows (and both count as empty for the page), but for N > 0 they are
    different tables. *)
Theorem parse_stats_table_no_rows kvs labels :
  stats_payload kvs labels [] ->
  parse_stats_table (JObj kvs) = Ok (mkDataFrame (map JStr labels) []) /\
  length (columns (mkDataFrame (map JStr labels) [])) = length labels /\
  df_empty (mkDataFrame (map JStr labels) []) = true /\
  forall kvs',
    dict_get kvs' "headers" = None \/ dict_get kvs' "values" = None ->
    parse_stats_table (JObj kvs') = Ok (mkDataFrame [] []) /\
    (labels <> [] -> parse_stats_table (JObj kvs) <> parse_stats_table (JObj kvs')).
Proof.
  intros Hp.
  pose proof (parse_stats_table_payload _ _ _ Hp) as E. cbv iota in E.
  split; [exact E|]. split; [apply length_map|]. split.
  - unfold df_empty. cbn. destruct (map JStr labels); reflexivity.
  - intros kvs' Hk.
    assert (E' : parse_stats_table (JObj kvs') = Ok empty_frame).
    { apply parse_stats_table_guard. right. eexists; split; [reflexivity | exact Hk]. }
    split; [exact E'|]. intros Hl. rewrite E, E'.
    destruct labels; [congruence | discriminate].
Qed.

Lemma parse_stats_table_no_rows_witness :
  parse_stats_table no_rows_stats =
  Ok (mkDataFrame [JStr "Format"; JStr "Runs"] []).
Proof.
  exact (proj1 (parse_stats_table_no_rows _ ["Format"; "Runs"]
                  (mk_stats_payload ["Format"; "Runs"] []))).
Defined.

(** * Properties of the fetch helpers *)

Lemma json_loads_none r : decoded r = None -> json_loads r = Raise JSONDecodeError.
Proof. unfold json_loads. intros ->. reflexivity. Qed.

Lemma json_loads_some r v : decoded r = Some v -> json_loads r = Ok v.
Proof. unfold json_loads. intros ->. reflexivity. Qed.

(** C10 (as amended).  For a query, respectively an id, that the request
    line accepts, [search_players] and [get_player_details] return the empty
    dict, and do not raise, when the body of the response is not decodable
    JSON; [get_player_stats] returns the empty dict for every status other
    than 200.  On a decodable body (and, for [get_player_stats], status 200)
    each helper returns the decoded value, whatever its shape: a dict is
    certain on the fallback paths only. *)
Theorem fetch_helpers_fallback (w : session) :
  (forall q, request_line_check q = Ok tt ->
     decoded (search_api w q) = None ->
     outcome (search_players w q) = Ok (JObj [])) /\
  (forall pid, id_line_check pid = Ok tt ->
     decoded (player_api w pid) = None ->
     outcome (get_player_details w pid) = Ok (JObj [])) /\
  (forall pid ty, status_code (stats_api w pid ty) <> 200%Z ->
     outcome (get_player_stats w pid ty) = Ok (JObj [])) /\
  (forall q v, request_line_check q = Ok tt ->
     decoded (search_api w q) = Some v ->
     outcome (search_players w q) = Ok v) /\
  (forall pid v, id_line_check pid = Ok tt ->
     decoded (player_api w pid) = Some v ->
     outcome (get_player_details w pid) = Ok v) /\
  (forall pid ty v, status_code (stats_api w pid ty) = 200%Z ->
     decoded (stats_api w pid ty) = Some v ->
     outcome (get_player_stats w pid ty) = Ok v).
Proof.
  unfold search_players, get_player_details, get_player_stats.
  repeat split.
  - intros q Hq H. rewrite Hq, (json_loads_none _ H). reflexivity.
  - intros pid Hp H. rewrite Hp, (json_loads_none _ H). reflexivity.
  - intros pid ty H. cbn.
    destruct (Z.eqb_spec (status_code (stats_api w pid ty)) 200);
      [contradiction | reflexivity].
  - intros q v Hq H. rewrite Hq, (json_loads_some _ _ H). reflexivity.
  - intros pid v Hp H. rewrite Hp, (json_loads_some _ _ H). reflexivity.
  - intros pid ty v H Hd. cbn. rewrite H, (json_loads_some _ _ Hd). reflexivity.
Qed.

Lemma fetch_helpers_fallback_witness :
  outcome (search_players details_garbled "Kohli") =
    Ok (JObj [("player", JArr [kohli])]) /\
  outcome (get_player_details details_garbled (JInt 1413)) = Ok (JObj []) /\
  outcome (get_player_stats details_garbled (JInt 1413) "batting") = Ok (JObj []).
Proof.
  pose proof (fetch_helpers_fallback details_garbled) as (_ & Hd & Hs & Hq & _).
  split; [exact (Hq "Kohli" _ eq_refl eq_refl)|].
  split; [exact (Hd (JInt 1413) eq_refl eq_refl)|].
  apply Hs. discriminate.
Defined.

(** C10 (as stated) fails in its conclusion that a consumer can assume a
    dict: a body that decodes to a number is returned as that number (and the
    membership test of line 76 then raises), and [get_player_stats] raises on
    a 200 response whose body is not JSON. *)
Lemma fetch_helpers_not_always_dict :
  outcome (search_players search_answers_number "Kohli") = Ok (JInt 5) /\
  outcome (show_top_stats search_answers_number) = Raise TypeError /\
  outcome (get_player_stats stats_garbled (JInt 1413) "batting") =
    Raise JSONDecodeError.
Proof. split; [reflexivity | split; reflexivity]. Qed.

(** * Properties of the player search *)

(** C6 (as amended).  When the name typed is one the request line accepts
    and the search response is undecodable, or decodes to a JSON object
    without the [player] key or with an empty [player] entry, the page
    completes without raising; it sends the search request, shows the
    no-players-found warning and nothing else: no select box, no candidate,
    no further request. *)
Theorem no_players_found_state (w : session) :
  request_line_check (player_name w) = Ok tt ->
  player_name w <> "" ->
  no_candidates (search_api w (player_name w)) ->
  show_top_stats w =
  ([st_title "📊 Player Stats & Profile";
    st_text_input "Enter player name (e.g. Kohli, Dhoni, Smith):";
    http_get [Lit "/stats/v1/player/search?plrN="; Fmt (JStr (player_name w))];
    no_players_found],
   Ok tt).
Proof.
  intros Hline Hname Hresp. unfold show_top_stats, search_players.
  assert (Ht : py_truthy (JStr (player_name w)) = true).
  { cbn. destruct (String.eqb_spec (player_name w) ""); [contradiction | reflexivity]. }
  rewrite Ht, Hline.
  destruct Hresp as [Hd | (kvs & Hd & Hk)].
  - rewrite (json_loads_none _ Hd). reflexivity.
  - rewrite (json_loads_some _ _ Hd). cbn.
    destruct Hk as [Hk | (v & Hk & Hv)]; rewrite Hk; cbn; [reflexivity|].
    rewrite Hv. reflexivity.
Qed.

Lemma no_players_found_state_witness :
  trace (show_top_stats nobody_found) =
  [st_title "📊 Player Stats & Profile";
   st_text_input "Enter player name (e.g. Kohli, Dhoni, Smith):";
   http_get [Lit "/stats/v1/player/search?plrN="; Fmt (JStr "Kohli")];
   no_players_found] /\
  outcome (show_top_stats nobody_found) = Ok tt.
Proof.
  assert (Hn : no_candidates (search_api nobody_found (player_name nobody_found))).
  { right. eexists. split; [reflexivity|]. right. eexists. split; reflexivity. }
  pose proof (no_players_found_state nobody_found eq_refl ltac:(discriminate) Hn) as H.
  rewrite H. split; reflexivity.
Defined.

(** C6 (as stated) fails: the body of the search response decodes to the
    number 5, which has no [player] key, and the membership test of line 76
    raises [TypeError] instead of leading to the no-players-found state. *)
Lemma search_body_number_raises :
  decoded (search_api search_answers_number "Kohli") = Some (JInt 5) /\
  show_top_stats search_answers_number =
  ([st_title "📊 Player Stats & Profile";
    st_text_input "Enter player name (e.g. Kohli, Dhoni, Smith):";
    http_get [Lit "/stats/v1/player/search?plrN="; Fmt (JStr "Kohli")]],
   Raise TypeError).
Proof. split; reflexivity. Qed.

(** A name holding a blank is put into the path as it is (line 28), and the
    request is refused before anything is sent. *)
Example name_with_blanks_refused :
  show_top_stats name_with_blanks =
  ([st_title "📊 Player Stats & Profile";
    st_text_input "Enter player name (e.g. Kohli, Dhoni, Smith):"],
   Raise InvalidURL).
Proof. reflexivity. Qed.

(** * Properties of the candidate set *)

Lemma dict_get_set d k v n :
  dict_get (dict_set d k v) n = if k =? n then Some v else dict_get d n.
Proof.
  induction d as [|[k' v'] d IH]; cbn.
  - reflexivity.
  - destruct (String.eqb_spec k' k) as [->|Hk]; cbn.
    + destruct (k =? n); reflexivity.
    + rewrite IH. destruct (String.eqb_spec k' n) as [->|Hn]; [|reflexivity].
      destruct (String.eqb_spec k n); [congruence | reflexivity].
Qed.

Lemma name_of_getitem p n :
  name_of p = Some n -> py_getitem p "name" = Ok (JStr n).
Proof.
  unfold name_of. destruct (py_getitem p "name") as [[]| |]; try discriminate.
  intros [= ->]. reflexivity.
Qed.

(** The comprehension, started from the dict [d]: it completes when every
    candidate has a string name, and each name then maps to the last
    candidate that goes by it, the other keys of [d] being kept. *)
Lemma collect_options_spec ps : forall d,
  Forall (fun p => name_of p <> None) ps ->
  exists d', collect_options d ps = Ok d' /\
    forall n, dict_get d' n =
              match last_named n ps with
              | Some q => Some q
              | None => dict_get d n
              end.
Proof.
  induction ps as [|p ps IH]; intros d Hall.
  - exists d. split; reflexivity.
  - inversion Hall as [|? ? Hp Hps]; subst.
    destruct (name_of p) as [m|] eqn:Hm; [|congruence].
    destruct (IH (dict_set d m p) Hps) as (d' & Hd' & Hget).
    exists d'. split.
    + cbn [collect_options]. rewrite (name_of_getitem _ _ Hm). cbn. exact Hd'.
    + intros n. rewrite Hget. cbn [last_named].
      destruct (last_named n ps); [reflexivity|].
      rewrite Hm, dict_get_set. destruct (m =? n); reflexivity.
Qed.

Lemma last_named_sound n ps q :
  last_named n ps = Some q -> In q ps /\ name_of q = Some n.
Proof.
  induction ps as [|p ps IH]; cbn; [discriminate|].
  destruct (last_named n ps) as [q'|].
  - intros [= ->]. destruct (IH eq_refl). auto.
  - destruct (name_of p) as [m|] eqn:Hm; [|discriminate].
    destruct (String.eqb_spec m n) as [->|]; [|discriminate].
    intros [= ->]. auto.
Qed.

Lemma last_named_none n ps :
  Forall (fun q => name_of q <> Some n) ps -> last_named n ps = None.
Proof.
  induction 1 as [|p ps Hp _ IH]; [reflexivity|].
  cbn. rewrite IH. destruct (name_of p) as [m|]; [|reflexivity].
  destruct (String.eqb_spec m n); [congruence | reflexivity].
Qed.

Lemma last_named_app n pre p post :
  name_of p = Some n ->
  Forall (fun q => name_of q <> Some n) post ->
  last_named n (pre ++ p :: post) = Some p.
Proof.
  intros Hp Hpost. induction pre as [|a pre IH]; cbn.
  - rewrite (last_named_none _ _ Hpost), Hp, String.eqb_refl. reflexivity.
  - rewrite IH. reflexivity.
Qed.

(** C5.  For a search result list whose candidates all carry a display name,
    the candidate set is built, each of its keys is the display name of the
    candidate stored under it, every display name of the list is a key, and
    of the candidates sharing a display name the one occurring last in the
    list is the one stored. *)
Theorem player_options_later_wins (ps : list json) :
  Forall (fun p => name_of p <> None) ps ->
  exists d,
    player_options (JArr ps) = Ok d /\
    (forall n p, dict_get d n = Some p -> In p ps /\ name_of p = Some n) /\
    (forall pre p post n,
       ps = pre ++ p :: post ->
       name_of p = Some n ->
       Forall (fun q => name_of q <> Some n) post ->
       dict_get d n = Some p).
Proof.
  intros Hall. destruct (collect_options_spec ps [] Hall) as (d & Hd & Hget).
  exists d. split; [exact Hd|]. split.
  - intros n p H. rewrite Hget in H.
    destruct (last_named n ps) as [q|] eqn:Hq; [|discriminate].
    injection H as ->. exact (last_named_sound _ _ _ Hq).
  - intros pre p post n -> Hp Hpost.
    rewrite Hget, (last_named_app _ _ _ _ Hp Hpost). reflexivity.
Qed.

Lemma player_options_later_wins_witness :
  exists d,
    player_options (JArr [kohli; taruwar; kohli_junior]) = Ok d /\
    dict_get d "Virat Kohli" = Some kohli_junior.
Proof.
  assert (Hall : Forall (fun p => name_of p <> None) [kohli; taruwar; kohli_junior]).
  { repeat constructor; discriminate. }
  destruct (player_options_later_wins _ Hall) as (d & Hd & _ & Hlast).
  exists d. split; [exact Hd|].
  apply (Hlast [kohli; taruwar] kohli_junior [] "Virat Kohli");
    [reflexivity | reflexivity | constructor].
Defined.

(** * Properties of the query runner *)

(** C8 (as amended).  Whatever the connection and the query text,
    [run_query] completes without raising: the one statement it sends is the
    text it was given, unchanged, and it returns either the table the
    database yields, as it is and showing nothing, or [None] after showing
    the error message of the exception the database raised. *)
Theorem run_query_total (conn : connection) (query : string) :
  (exists df,
     execute conn query = inr df /\
     run_query conn query = ([pd_read_sql query], Ok (Some df))) \/
  (exists e,
     execute conn query = inl e /\
     run_query conn query =
       ([pd_read_sql query; st_error [Lit "❌ Query Error: "; FmtExn e]], Ok None)).
Proof.
  unfold run_query. destruct (execute conn query) as [e|df].
  - right. exists e. split; reflexivity.
  - left. exists df. split; reflexivity.
Qed.

(** C8 (as stated) fails: a statement that selects nothing yields a table
    without rows, which [run_query] returns without any message; the result
    is neither a populated table nor a failure signal. *)
Lemma run_query_empty_table :
  execute no_rows_db "SELECT player_name FROM players WHERE 1 = 0" =
    inr (mkDataFrame [JStr "player_name"] []) /\
  df_empty (mkDataFrame [JStr "player_name"] []) = true /\
  run_query no_rows_db "SELECT player_name FROM players WHERE 1 = 0" =
  ([pd_read_sql "SELECT player_name FROM players WHERE 1 = 0"],
   Ok (Some (mkDataFrame [JStr "player_name"] []))).
Proof. split; [reflexivity | split; reflexivity]. Qed.

(** The run button hands the text of the editor to [run_query] as it is,
    provided it is not blank. *)
Lemma run_button_sends_verbatim py_strip conn query_input :
  py_strip query_input <> "" ->
  exists rest r,
    run_button py_strip conn query_input =
    (st_spinner "Executing query..." :: pd_read_sql query_input :: rest, r).
Proof.
  intros H. unfold run_button, run_query.
  assert (Ht : py_truthy (JStr (py_strip query_input)) = true).
  { cbn. destruct (String.eqb_spec (py_strip query_input) ""); [contradiction | reflexivity]. }
  rewrite Ht. destruct (execute conn query_input); cbn; eauto.
Qed.

Example run_query_unknown_statement :
  run_query one_table_db "DROP TABLE players" =
  ([pd_read_sql "DROP TABLE players";
    st_error [Lit "❌ Query Error: ";
              FmtExn (DatabaseError "You have an error in your SQL syntax")]],
   Ok None).
Proof. reflexivity. Qed.

(** * Properties of the profile tab *)

Lemma py_get_obj kvs k d :
  py_get (JObj kvs) k d = Ok (match dict_get kvs k with Some x => x | None => d end).
Proof. cbn. destruct (dict_get kvs k); reflexivity. Qed.

Lemma profile_fields_obj kvs :
  profile_fields (JObj kvs) =
  ([st_subheader "Player Details";
    st_write [Lit "**Role:** "; Fmt (field_or_na kvs "role")];
    st_write [Lit "**Batting Style:** "; Fmt (field_or_na kvs "bat")];
    st_write [Lit "**Bowling Style:** "; Fmt (field_or_na kvs "bowl")];
    st_write [Lit "**Teams:** "; Fmt (field_or_na kvs "teams")];
    st_write [Lit "**Birth Place:** "; Fmt (field_or_na kvs "birthPlace")]],
   Ok tt).
Proof.
  unfold profile_fields. rewrite !py_get_obj. reflexivity.
Qed.

Lemma rankings_block_absent kvs :
  rankings_absent kvs -> rankings_block (JObj kvs) = ([], Ok tt).
Proof.
  unfold rankings_block. cbn [py_contains py_getitem lift].
  intros [H | (r & H & Hr)]; rewrite H; cbn; [|rewrite Hr]; reflexivity.
Qed.

Lemma web_link_obj kvs :
  web_link (JObj kvs) =
  (match dict_get kvs "webURL" with
   | Some url => [st_markdown [Lit "[🔗 View on Cricbuzz]("; Fmt url; Lit ")"]]
   | None => []
   end, Ok tt).
Proof.
  unfold web_link. cbn [py_contains py_getitem lift].
  destruct (dict_get kvs "webURL"); reflexivity.
Qed.

Lemma rmap_career_row_objs (fs : list (list (string * json))) :
  rmap career_row (map JObj fs) = Ok (map JArr (map career_cells fs)).
Proof.
  induction fs as [|f fs IH]; [reflexivity|].
  cbn [map rmap]. rewrite IH. unfold career_row. rewrite !py_get_obj. reflexivity.
Qed.

(** The rows built by line 152 are lists of three cells. *)
Lemma rmap_career_row_shape entries rows :
  rmap career_row entries = Ok rows ->
  exists cells, rows = map JArr cells /\ Forall (fun c => length c = 3) cells.
Proof.
  revert rows. induction entries as [|e es IH]; intros rows; cbn [rmap].
  - intros [= <-]. exists []. split; [reflexivity | constructor].
  - unfold career_row at 1.
    destruct (py_get e "name" JNull) as [n| |]; try discriminate.
    destruct (py_get e "debut" JNull) as [d| |]; try discriminate.
    destruct (py_get e "lastPlayed" JNull) as [l| |]; try discriminate.
    cbn [rbind]. destruct (rmap career_row es) as [rs| |]; try discriminate.
    intros [= <-]. destruct (IH rs eq_refl) as (cells & -> & Hc).
    exists ([n; d; l] :: cells). split; [reflexivity | constructor; trivial].
Qed.

Lemma pd_DataFrame_career cells :
  cells <> [] ->
  Forall (fun c => length c = 3) cells ->
  pd_DataFrame (map JArr cells) (JArr career_labels) =
  Ok (mkDataFrame career_labels (store_table 3 cells)).
Proof.
  intros Hne Hc.
  change career_labels with (map JStr ["Format"; "Debut"; "Last Played"]).
  rewrite pd_DataFrame_lists. destruct cells as [|c cs]; [congruence|].
  rewrite (max_width_exact _ 3 Hc Hne). cbn [length Nat.eqb].
  rewrite (map_pad_exact _ _ Hc). reflexivity.
Qed.

Lemma ubind_modelled {A B} (c : ui A) (k : A -> ui B) :
  outcome c <> Unmodelled ->
  (forall l a, c = (l, Ok a) -> outcome (k a) <> Unmodelled) ->
  outcome (ubind c k) <> Unmodelled.
Proof.
  destruct c as [l [a| |]]; cbn; intros Hc Hk; [|discriminate|congruence].
  specialize (Hk l a eq_refl). destruct (k a). exact Hk.
Qed.

Lemma lift_ok {A} (r : res A) l a : lift r = (l, Ok a) -> r = Ok a.
Proof. unfold lift. congruence. Qed.

Lemma json_loads_modelled r : json_loads r <> Unmodelled.
Proof. unfold json_loads. destruct (decoded r); discriminate. Qed.

Lemma py_contains_modelled k v : py_contains k v <> Unmodelled.
Proof. destruct v; discriminate. Qed.

Lemma py_getitem_modelled v k : py_getitem v k <> Unmodelled.
Proof. destruct v; try discriminate. cbn. destruct (dict_get kvs k); discriminate. Qed.

Lemma py_iter_modelled v : py_iter v <> Unmodelled.
Proof. destruct v; discriminate. Qed.

Lemma py_get_modelled v k d : py_get v k d <> Unmodelled.
Proof. destruct v; try discriminate. cbn. destruct (dict_get kvs k); discriminate. Qed.

Lemma rmap_career_row_modelled entries : rmap career_row entries <> Unmodelled.
Proof.
  induction entries as [|e es IH]; [discriminate|]. cbn [rmap].
  unfold career_row at 1.
  pose proof (py_get_modelled e "name" JNull).
  pose proof (py_get_modelled e "debut" JNull).
  pose proof (py_get_modelled e "lastPlayed" JNull).
  destruct (py_get e "name" JNull); try congruence; try discriminate.
  destruct (py_get e "debut" JNull); try congruence; try discriminate.
  destruct (py_get e "lastPlayed" JNull); try congruence; try discriminate.
  cbn [rbind]. destruct (rmap career_row es); try congruence; discriminate.
Qed.

Ltac modelled_step :=
  apply ubind_modelled;
  [ first [ apply json_loads_modelled | apply py_contains_modelled
          | apply py_getitem_modelled | apply py_iter_modelled
          | apply rmap_career_row_modelled | discriminate | idtac ]
  | intros ? ? ? ].

Tactic Notation "modelled_step" "as" ident(a) ident(H) :=
  apply ubind_modelled;
  [ first [ apply json_loads_modelled | apply py_contains_modelled
          | apply py_getitem_modelled | apply py_iter_modelled
          | apply rmap_career_row_modelled | discriminate | idtac ]
  | intros ? a H ].

(** The [try] body stays inside the modelled part of pandas. *)
Lemma career_try_modelled r : outcome (career_try r) <> Unmodelled.
Proof.
  unfold career_try.
  modelled_step as cj Hcj. modelled_step as has Hhas. modelled_step as some Hsome.
  { destruct has; [|discriminate]. modelled_step. discriminate. }
  destruct some; [|discriminate].
  modelled_step as v Hv. modelled_step as entries He. modelled_step as rows Hrows.
  apply lift_ok in Hrows. destruct (rmap_career_row_shape _ _ Hrows) as (cells & -> & Hc).
  destruct cells as [|c cs]; [discriminate|].
  change (map JArr (c :: cs)) with (JArr c :: map JArr cs) at 1.
  cbv beta iota. fold career_labels.
  change (JArr c :: map JArr cs) with (map JArr (c :: cs)).
  rewrite pd_DataFrame_career by (trivial; discriminate).
  discriminate.
Qed.

(** Whatever the career endpoint answers, the career block completes. *)
Lemma career_block_completes w sp pid :
  py_getitem sp "id" = Ok pid ->
  exists l, career_block w sp = (l, Ok tt).
Proof.
  intros Hid. unfold career_block. rewrite Hid. cbn [lift emit ubind app].
  pose proof (career_try_modelled (career_api w pid)) as Hm.
  destruct (career_try (career_api w pid)) as [l [[]| |]]; cbn in *;
    [eauto | eauto | congruence].
Qed.

Lemma career_try_table r ckvs fs :
  decoded r = Some (JObj ckvs) ->
  dict_get ckvs "values" = Some (JArr (map JObj fs)) ->
  fs <> [] ->
  career_try r =
  ([st_dataframe (mkDataFrame career_labels (store_table 3 (map career_cells fs)))],
   Ok tt).
Proof.
  intros Hd Hv Hne. unfold career_try.
  rewrite (json_loads_some _ _ Hd). cbn [lift ubind py_contains py_getitem app].
  rewrite Hv. cbn [uret ubind app py_truthy].
  destruct fs as [|f fs]; [congruence|].
  cbn [map ubind app py_iter lift].
  change (JObj f :: map JObj fs) with (map JObj (f :: fs)).
  rewrite rmap_career_row_objs.
  change (map JArr (map career_cells (f :: fs)))
    with (JArr (career_cells f) :: map JArr (map career_cells fs)) at 1.
  cbv beta iota. fold career_labels.
  change (JArr (career_cells f) :: map JArr (map career_cells fs))
    with (map JArr (map career_cells (f :: fs))).
  rewrite pd_DataFrame_career.
  - reflexivity.
  - discriminate.
  - apply Forall_map. apply Forall_forall. reflexivity.
Qed.
(** The tab up to the gate of line 100, and after it. *)
Lemma profile_tab_compose w sp d lh li :
  profile_heading sp = (lh, Ok tt) ->
  profile_image sp d = (li, Ok tt) ->
  profile_tab w sp d =
  if py_truthy d then
    let rest := (profile_fields d ;; rankings_block d ;;
                 career_block w sp ;; web_link d)%ui in
    (with_tab 0 :: lh ++ li ++ trace rest, outcome rest)
  else (with_tab 0 :: lh ++ li, Ok tt).
Proof.
  intros Hh Hi. unfold profile_tab. rewrite Hh, Hi.
  destruct (py_truthy d).
  - cbv zeta.
    destruct (profile_fields d;; rankings_block d;; career_block w sp;; web_link d)%ui
      as [l r].
    cbn. reflexivity.
  - cbn. rewrite !app_nil_r. reflexivity.
Qed.

(** After the gate, for details that are an object without rankings. *)
Lemma profile_rest_no_rankings w sp kvs lc :
  rankings_absent kvs ->
  career_block w sp = (lc, Ok tt) ->
  (profile_fields (JObj kvs) ;; rankings_block (JObj kvs) ;;
   career_block w sp ;; web_link (JObj kvs))%ui =
  (trace (profile_fields (JObj kvs)) ++ lc ++ trace (web_link (JObj kvs)), Ok tt).
Proof.
  intros Hr Hc.
  rewrite (rankings_block_absent _ Hr), Hc, web_link_obj, profile_fields_obj.
  cbn. reflexivity.
Qed.

Lemma career_block_table w sp pid ckvs fs :
  py_getitem sp "id" = Ok pid ->
  decoded (career_api w pid) = Some (JObj ckvs) ->
  dict_get ckvs "values" = Some (JArr (map JObj fs)) ->
  fs <> [] ->
  career_block w sp =
  ([st_subheader "Career Debut Information";
    http_get [Lit "/stats/v1/player/"; Fmt pid; Lit "/career"];
    st_dataframe (mkDataFrame career_labels (store_table 3 (map career_cells fs)))],
   Ok tt).
Proof.
  intros Hid Hd Hv Hne. unfold career_block. rewrite Hid.
  cbn [lift emit ubind app]. rewrite (career_try_table _ _ _ Hd Hv Hne).
  reflexivity.
Qed.

Lemma profile_heading_obj sp n t :
  dict_get sp "name" = Some n ->
  dict_get sp "teamName" = Some t ->
  profile_heading (JObj sp) = (heading_lines sp n t, Ok tt).
Proof.
  intros Hn Ht. unfold profile_heading, heading_lines. rewrite py_get_obj.
  cbn [py_getitem]. rewrite Hn, Ht. reflexivity.
Qed.

(** The picture, for an [image] entry that is absent or a string. *)
Lemma profile_image_obj sp kvs :
  image_ok kvs ->
  profile_image (JObj sp) (JObj kvs) = ([picture_of sp kvs], Ok tt).
Proof.
  unfold profile_image, picture_of. cbn [py_contains py_getitem lift ubind app].
  intros [Hi | (url & Hi)]; rewrite Hi; [|reflexivity].
  cbn [ubind app]. destruct (dict_get sp "faceImageId") as [f|]; [|reflexivity].
  cbn [uret ubind app]. destruct (py_truthy f); reflexivity.
Qed.

Lemma ubind_after {A B} (c : ui A) (k : A -> ui B) l a :
  c = (l, Ok a) -> ubind c k = (l ++ trace (k a), outcome (k a)).
Proof. intros ->. unfold ubind, trace, outcome. destruct (k a). reflexivity. Qed.

(** The tab for a candidate with name and team, and non-empty details whose
    [image] entry is absent or a string: heading, picture and detail lines
    are shown, and the tab goes on with rankings, career and link. *)
Lemma profile_tab_shown w sp kvs name team :
  dict_get sp "name" = Some name ->
  dict_get sp "teamName" = Some team ->
  image_ok kvs ->
  kvs <> [] ->
  profile_tab w (JObj sp) (JObj kvs) =
  (with_tab 0 :: heading_lines sp name team ++ [picture_of sp kvs] ++
   detail_lines kvs ++
   trace (rankings_block (JObj kvs) ;; career_block w (JObj sp) ;;
          web_link (JObj kvs))%ui,
   outcome (rankings_block (JObj kvs) ;; career_block w (JObj sp) ;;
            web_link (JObj kvs))%ui).
Proof.
  intros Hn Ht Hi Hne.
  rewrite (profile_tab_compose _ _ _ _ _ (profile_heading_obj _ _ _ Hn Ht)
             (profile_image_obj sp _ Hi)).
  destruct kvs as [|kv kvs]; [congruence|]. cbn [py_truthy]. cbv zeta.
  rewrite (ubind_after _ _ _ _ (profile_fields_obj (kv :: kvs))).
  unfold trace at 1, outcome at 1. cbn [fst snd]. reflexivity.
Qed.

(** The tab behind the gate of line 100, for falsy details. *)
Lemma profile_tab_gate w sp details :
  py_truthy details = false ->
  profile_tab w sp details =
  (emit (with_tab 0) ;; profile_heading sp ;; profile_image sp details)%ui.
Proof.
  intros Hf. unfold profile_tab. rewrite Hf.
  destruct (profile_heading sp) as [lh [[]| |]]; try reflexivity.
  destruct (profile_image sp details) as [li [[]| |]]; try reflexivity.
  cbn. rewrite !app_nil_r. reflexivity.
Qed.

(** C4 (as amended).  For a selected candidate that has its name, its team
    and an id that the request line accepts (as every id has with which the
    tab is reached, line 80 having sent it before):
    - the career fetch is isolated: whatever the career endpoint answers, the
      career block completes, so what the tab rendered before it stays and
      the tab goes on;
    - details without rankings render no rankings section and do not stop
      the tab; in particular, when the details are a non-empty object without
      rankings, their image entry being absent or a string, and the career
      response holds a non-empty list of per-format objects, the tab shows
      the heading, the picture, the detail lines, no rankings, and the career
      table with one row of three cells per entry;
    - profile fields and rankings come from one fetch, and the career
      request is sent only behind the gate on its result: with empty details
      the tab ends after the heading and the image; with the empty dict
      (which is what a failed profile fetch gives) it shows the two heading
      lines and the picture, and neither detail lines, rankings nor career. *)
Theorem profile_tab_isolation (w : session) (sp : list (string * json))
    (pid name team : json) :
  dict_get sp "id" = Some pid ->
  id_line_check pid = Ok tt ->
  dict_get sp "name" = Some name ->
  dict_get sp "teamName" = Some team ->
  (exists l, career_block w (JObj sp) = (l, Ok tt)) /\
  (forall kvs, rankings_absent kvs -> rankings_block (JObj kvs) = ([], Ok tt)) /\
  (forall kvs ckvs fs,
     kvs <> [] ->
     image_ok kvs ->
     rankings_absent kvs ->
     decoded (career_api w pid) = Some (JObj ckvs) ->
     dict_get ckvs "values" = Some (JArr (map JObj fs)) ->
     fs <> [] ->
     profile_tab w (JObj sp) (JObj kvs) =
     (with_tab 0 :: heading_lines sp name team ++ [picture_of sp kvs] ++
      detail_lines kvs ++
      [st_subheader "Career Debut Information";
       http_get [Lit "/stats/v1/player/"; Fmt pid; Lit "/career"];
       st_dataframe
         (mkDataFrame career_labels (store_table 3 (map career_cells fs)))] ++
      match dict_get kvs "webURL" with
      | Some url => [st_markdown [Lit "[🔗 View on Cricbuzz]("; Fmt url; Lit ")"]]
      | None => []
      end,
      Ok tt) /\
     length (store_table 3 (map career_cells fs)) = length fs /\
     Forall (fun row => length row = 3) (store_table 3 (map career_cells fs))) /\
  (forall details,
     py_truthy details = false ->
     profile_tab w (JObj sp) details =
     (emit (with_tab 0) ;; profile_heading (JObj sp) ;;
      profile_image (JObj sp) details)%ui) /\
  profile_tab w (JObj sp) (JObj []) =
  (with_tab 0 :: heading_lines sp name team ++ [picture_of sp []], Ok tt).
Proof.
  intros Hid _ Hn Ht.
  assert (Hid' : py_getitem (JObj sp) "id" = Ok pid) by (cbn; rewrite Hid; reflexivity).
  split; [exact (career_block_completes w _ pid Hid')|].
  split; [exact rankings_block_absent|]. split; [|split].
  - intros kvs ckvs fs Hne Hi Hr Hd Hv Hfs.
    assert (Hshape : Forall (fun c : list json => length c = 3) (map career_cells fs)).
    { apply Forall_map, Forall_forall. reflexivity. }
    split; [|split].
    + rewrite (profile_tab_shown _ _ _ _ _ Hn Ht Hi Hne).
      rewrite (rankings_block_absent _ Hr),
        (career_block_table _ _ _ _ _ Hid' Hd Hv Hfs), web_link_obj.
      destruct (dict_get kvs "webURL"); reflexivity.
    + rewrite (proj2 (store_table_shape _ _ Hshape)). apply length_map.
    + exact (proj1 (store_table_shape _ _ Hshape)).
  - intros details Hf. apply profile_tab_gate, Hf.
  - rewrite (profile_tab_gate w (JObj sp) (JObj []) eq_refl).
    rewrite (profile_heading_obj _ _ _ Hn Ht),
      (profile_image_obj sp [] (or_introl eq_refl)).
    reflexivity.
Qed.

Lemma profile_tab_isolation_witness :
  profile_tab role_only kohli (JObj [("role", JStr "Batsman")]) =
  ([with_tab 0;
    st_write [Lit "### "; Fmt (JStr "Virat Kohli"); Lit " ("; Fmt (JStr "India"); Lit ")"];
    st_write [Lit "📅 DOB: "; Fmt (JStr "N/A")];
    st_image [Lit "https://placehold.co/150x150/800000/FFFFFF?text=No+Image"] 150;
    st_subheader "Player Details";
    st_write [Lit "**Role:** "; Fmt (JStr "Batsman")];
    st_write [Lit "**Batting Style:** "; Fmt (JStr "N/A")];
    st_write [Lit "**Bowling Style:** "; Fmt (JStr "N/A")];
    st_write [Lit "**Teams:** "; Fmt (JStr "N/A")];
    st_write [Lit "**Birth Place:** "; Fmt (JStr "N/A")];
    st_subheader "Career Debut Information";
    http_get [Lit "/stats/v1/player/"; Fmt (JInt 1413); Lit "/career"];
    st_dataframe
      (mkDataFrame career_labels
         [[Kept (JStr "test"); Kept (JStr "2011"); Kept (JStr "2024")]])],
   Ok tt).
Proof.
  pose proof (profile_tab_isolation role_only
                [("id", JInt 1413); ("name", JStr "Virat Kohli");
                 ("teamName", JStr "India")]
                (JInt 1413) (JStr "Virat Kohli") (JStr "India")
                eq_refl eq_refl eq_refl eq_refl)
    as (_ & _ & H & _).
  exact (proj1 (H [("role", JStr "Batsman")]
                  [("values", JArr [JObj [("name", JStr "test"); ("debut", JStr "2011");
                                          ("lastPlayed", JStr "2024")]])]
                  [[("name", JStr "test"); ("debut", JStr "2011");
                    ("lastPlayed", JStr "2024")]]
                  ltac:(discriminate) (or_introl eq_refl) (or_introl eq_refl)
                  eq_refl eq_refl ltac:(discriminate))).
Defined.

(** C4 (as stated) fails when the fetch that fails is the profile one: the
    profile body below is undecodable, the career endpoint would answer with
    one entry, and the page sends no career request and shows no career
    table. *)
Lemma failed_details_hide_career :
  decoded (player_api details_garbled (JInt 1413)) = None /\
  career_try (career_api details_garbled (JInt 1413)) =
    ([st_dataframe
        (mkDataFrame career_labels
           [[Kept (JStr "test"); Kept (JStr "2011"); Kept (JStr "2024")]])],
     Ok tt) /\
  show_top_stats details_garbled =
  ([st_title "📊 Player Stats & Profile";
    st_text_input "Enter player name (e.g. Kohli, Dhoni, Smith):";
    http_get [Lit "/stats/v1/player/search?plrN="; Fmt (JStr "Kohli")];
    st_selectbox "Select a player:" ["Virat Kohli"];
    http_get [Lit "/stats/v1/player/"; Fmt (JInt 1413)];
    st_tabs ["📌 Profile"; "🏏 Batting Stats"; "🎯 Bowling Stats"];
    with_tab 0;
    st_write [Lit "### "; Fmt (JStr "Virat Kohli"); Lit " ("; Fmt (JStr "India"); Lit ")"];
    st_write [Lit "📅 DOB: "; Fmt (JStr "N/A")];
    st_image [Lit "https://placehold.co/150x150/800000/FFFFFF?text=No+Image"] 150;
    with_tab 1; st_subheader "Batting Stats";
    http_get [Lit "https://cricbuzz-cricket.p.rapidapi.com/stats/v1/player/";
              Fmt (JInt 1413); Lit "/"; Fmt (JStr "batting")];
    st_warning "No batting stats available.";
    with_tab 2; st_subheader "Bowling Stats";
    http_get [Lit "https://cricbuzz-cricket.p.rapidapi.com/stats/v1/player/";
              Fmt (JInt 1413); Lit "/"; Fmt (JStr "bowling")];
    st_warning "No bowling stats available."],
   Ok tt).
Proof. split; [reflexivity | split; reflexivity]. Qed.

(** C7 (as amended).  For a candidate that has its name and team, and
    details that are an object whose [image] entry is absent or a string:
    - when the details are not empty, the profile tab shows, after the two
      heading lines and the picture, the five detail lines (role, batting
      style, bowling style, teams, birth place), each with the field's value
      or, when the field is absent, with "N/A", whatever else the details
      hold;
    - an absent date of birth shows as "N/A";
    - with no [image] in the details and no [faceImageId] in the candidate,
      the picture is the placeholder;
    - when moreover the rankings are absent and the candidate has an id
      that the request line accepts, the tab completes without a fault, and
      an absent web link is left out, without any marker;
    - when the details are the empty object, the tab ends after the heading
      lines and the picture: no detail line and no marker is shown. *)
Theorem absent_fields_marked (w : session) (sp kvs : list (string * json))
    (name team : json) :
  dict_get sp "name" = Some name ->
  dict_get sp "teamName" = Some team ->
  image_ok kvs ->
  (kvs <> [] ->
   exists rest r,
     profile_tab w (JObj sp) (JObj kvs) =
     (with_tab 0 :: heading_lines sp name team ++ [picture_of sp kvs] ++
      detail_lines kvs ++ rest, r) /\
     (rankings_absent kvs ->
      forall pid, dict_get sp "id" = Some pid -> id_line_check pid = Ok tt ->
        r = Ok tt /\
        exists career,
          career_block w (JObj sp) = (career, Ok tt) /\
          rest = career ++
                 match dict_get kvs "webURL" with
                 | Some url =>
                     [st_markdown [Lit "[🔗 View on Cricbuzz]("; Fmt url; Lit ")"]]
                 | None => []
                 end)) /\
  (forall k, dict_get kvs k = None -> field_or_na kvs k = JStr "N/A") /\
  (dict_get sp "dob" = None -> field_or_na sp "dob" = JStr "N/A") /\
  (dict_get kvs "image" = None ->
   dict_get sp "faceImageId" = None ->
   picture_of sp kvs =
   st_image [Lit "https://placehold.co/150x150/800000/FFFFFF?text=No+Image"] 150) /\
  (kvs = [] ->
   profile_tab w (JObj sp) (JObj kvs) =
   (with_tab 0 :: heading_lines sp name team ++ [picture_of sp kvs], Ok tt)).
Proof.
  intros Hn Ht Hi. split; [|split; [|split; [|split]]].
  - intros Hne. do 2 eexists. split.
    + exact (profile_tab_shown w _ _ _ _ Hn Ht Hi Hne).
    + intros Hr pid Hid _.
      assert (Hid' : py_getitem (JObj sp) "id" = Ok pid)
        by (cbn; rewrite Hid; reflexivity).
      destruct (career_block_completes w _ _ Hid') as (lc & Hc).
      rewrite (rankings_block_absent _ Hr), Hc, web_link_obj.
      split; [reflexivity|]. exists lc. split; [reflexivity|].
      destruct (dict_get kvs "webURL"); reflexivity.
  - intros k H. unfold field_or_na. rewrite H. reflexivity.
  - intros H. unfold field_or_na. rewrite H. reflexivity.
  - intros H1 H2. unfold picture_of. rewrite H1, H2. reflexivity.
  - intros ->. rewrite (profile_tab_gate w (JObj sp) (JObj []) eq_refl).
    rewrite (profile_heading_obj _ _ _ Hn Ht), (profile_image_obj sp _ Hi).
    reflexivity.
Qed.

Lemma absent_fields_marked_witness :
  exists rest r,
    profile_tab role_only kohli (JObj [("role", JStr "Batsman")]) =
    ([with_tab 0;
      st_write [Lit "### "; Fmt (JStr "Virat Kohli"); Lit " ("; Fmt (JStr "India"); Lit ")"];
      st_write [Lit "📅 DOB: "; Fmt (JStr "N/A")];
      st_image [Lit "https://placehold.co/150x150/800000/FFFFFF?text=No+Image"] 150;
      st_subheader "Player Details";
      st_write [Lit "**Role:** "; Fmt (JStr "Batsman")];
      st_write [Lit "**Batting Style:** "; Fmt (JStr "N/A")];
      st_write [Lit "**Bowling Style:** "; Fmt (JStr "N/A")];
      st_write [Lit "**Teams:** "; Fmt (JStr "N/A")];
      st_write [Lit "**Birth Place:** "; Fmt (JStr "N/A")]] ++ rest, r) /\
    r = Ok tt.
Proof.
  destruct (proj1 (absent_fields_marked role_only
                     [("id", JInt 1413); ("name", JStr "Virat Kohli");
                      ("teamName", JStr "India")]
                     [("role", JStr "Batsman")] (JStr "Virat Kohli") (JStr "India")
                     eq_refl eq_refl (or_introl eq_refl))
              ltac:(discriminate))
    as (rest & r & Htab & Hdone).
  exists rest, r. split; [exact Htab|].
  exact (proj1 (Hdone (or_introl eq_refl) (JInt 1413) eq_refl eq_refl)).
Defined.

(** C7 (as stated) fails: the profile endpoint answers with an empty object,
    so role, styles, teams, birth place and web link are all absent, and the
    tab shows no marker for any of them; only the date of birth and the image
    get one. *)
Lemma empty_details_show_no_marker :
  outcome (get_player_details details_empty (JInt 1413)) = Ok (JObj []) /\
  profile_tab details_empty kohli (JObj []) =
  ([with_tab 0;
    st_write [Lit "### "; Fmt (JStr "Virat Kohli"); Lit " ("; Fmt (JStr "India"); Lit ")"];
    st_write [Lit "📅 DOB: "; Fmt (JStr "N/A")];
    st_image [Lit "https://placehold.co/150x150/800000/FFFFFF?text=No+Image"] 150],
   Ok tt) /\
  (In (st_write [Lit "**Role:** "; Fmt (JStr "N/A")])
      (trace (show_top_stats details_empty)) -> False).
Proof.
  split; [reflexivity | split; [reflexivity|]].
  cbn. intros H. repeat (destruct H as [H|H]; [discriminate H|]). exact H.
Qed.

(** A candidate without [teamName]: line 86 indexes it and the page stops
    with [KeyError], where line 87 reads the date of birth with [get]. *)
Example missing_team_name_raises :
  outcome (show_top_stats
             (lookup (api_ok (JObj [("player",
                                     JArr [JObj [("id", JInt 1413);
                                                 ("name", JStr "Virat Kohli")]])]))
                     (api_ok (JObj [("role", JStr "Batsman")]))
                     career_kohli no_stats))
  = Raise KeyError.
Proof. reflexivity. Qed.

(** * The page on a well-formed session *)

Example replace_scheme :
  py_replace (JStr "http://a.example/http://b") "http://" "https://" =
  Ok "https://a.example/https://b".
Proof. reflexivity. Qed.

Example profile_tab_all_fine :
  profile_tab all_fine kohli kohli_details =
  ([with_tab 0;
    st_write [Lit "### "; Fmt (JStr "Virat Kohli"); Lit " ("; Fmt (JStr "India"); Lit ")"];
    st_write [Lit "📅 DOB: "; Fmt (JStr "N/A")];
    st_image [Lit "https://static.cricbuzz.com/a/img/v1/152x152/i1/c1413.jpg"] 150;
    st_subheader "Player Details";
    st_write [Lit "**Role:** "; Fmt (JStr "Batsman")];
    st_write [Lit "**Batting Style:** "; Fmt (JStr "Right Handed Bat")];
    st_write [Lit "**Bowling Style:** "; Fmt (JStr "N/A")];
    st_write [Lit "**Teams:** "; Fmt (JStr "N/A")];
    st_write [Lit "**Birth Place:** "; Fmt (JStr "N/A")];
    st_subheader "🏆 ICC Rankings";
    st_columns 3;
    with_col 0; st_write [Lit "### Batting"];
    st_write [Fmt (JStr "odiRank"); Lit ": "; Fmt (JStr "2")];
    with_col 1; st_write [Lit "### Bowling"]; st_write [Lit "No rankings available"];
    with_col 2; st_write [Lit "### All-Rounder"]; st_write [Lit "No rankings available"];
    st_subheader "Career Debut Information";
    http_get [Lit "/stats/v1/player/"; Fmt (JInt 1413); Lit "/career"];
    st_dataframe (mkDataFrame career_labels
                    [[Kept (JStr "test"); Kept (JStr "2011"); Kept (JStr "2024")]]);
    st_markdown [Lit "[🔗 View on Cricbuzz](";
                 Fmt (JStr "http://www.cricbuzz.com/profiles/1413/virat-kohli"); Lit ")"]],
   Ok tt).
Proof. reflexivity. Qed.

Example stats_tab_all_fine :
  stats_tab all_fine 1 "Batting Stats" "batting" "No batting stats available." kohli =
  ([with_tab 1; st_subheader "Batting Stats";
    http_get [Lit "https://cricbuzz-cricket.p.rapidapi.com/stats/v1/player/";
              Fmt (JInt 1413); Lit "/"; Fmt (JStr "batting")];
    st_dataframe (mkDataFrame [JStr "ROWHEADER"; JStr "Test"; JStr "ODI"]
                              [[Kept (JStr "Matches"); Kept (JStr "113"); Kept (JStr "295")]])],
   Ok tt).
Proof. reflexivity. Qed.

(** Malformed rankings are not isolated: a number where the per-discipline
    mapping should be stops the tab before the career block. *)
Example malformed_rankings_stop_tab :
  outcome (profile_tab all_fine kohli
             (JObj [("role", JStr "Batsman");
                    ("rankings", JObj [("bat", JInt 2)])]))
  = Raise AttributeError.
Proof. reflexivity. Qed.

(** * Further properties of [parse_stats_table] *)

Lemma rmap_length {A B} (f : A -> res B) xs ys :
  rmap f xs = Ok ys -> length ys = length xs.
Proof.
  revert ys. induction xs as [|x xs IH]; intros ys; cbn [rmap].
  - intros [= <-]. reflexivity.
  - destruct (f x) as [y| |]; cbn [rbind]; try discriminate.
    destruct (rmap f xs) as [ys'| |]; cbn [rbind]; try discriminate.
    intros [= <-]. cbn. rewrite (IH ys' eq_refl). reflexivity.
Qed.

Lemma rmap_first_failure {A B} (f : A -> res B) pre bad post e :
  Forall (fun x => exists y, f x = Ok y) pre ->
  f bad = Raise e ->
  rmap f (pre ++ bad :: post) = Raise e.
Proof.
  intros Hpre Hbad. induction Hpre as [|x pre [y Hx] _ IH]; cbn [app rmap].
  - rewrite Hbad. reflexivity.
  - rewrite Hx, IH. reflexivity.
Qed.

(** The tables of the constructor are rectangular, one row per given row. *)
Lemma pd_DataFrame_shape rows h df :
  pd_DataFrame rows h = Ok df ->
  Forall (fun r => length r = length (columns df)) (data df) /\
  length (data df) = length rows.
Proof.
  unfold pd_DataFrame.
  destruct h as [| | | | |labels|]; try discriminate.
  - destruct rows as [|[] rows']; try discriminate.
    + intros [= <-]. split; [constructor | reflexivity].
    + destruct (rmap py_iter (JArr xs :: rows')) as [cells| |] eqn:Hc;
        cbn [rbind]; try discriminate.
      intros [= <-]. cbn [columns data].
      destruct (store_table_shape _ _ (padded_rows cells)) as [Hw Hl]. split.
      * unfold range_labels. rewrite length_map, length_seq. exact Hw.
      * rewrite Hl, length_map. exact (rmap_length _ _ _ Hc).
  - destruct (forallb is_scalar labels); [|discriminate].
    destruct rows as [|[] rows']; try discriminate.
    + intros [= <-]. split; [constructor | reflexivity].
    + destruct (rmap py_iter (JArr xs :: rows')) as [cells| |] eqn:Hc;
        cbn [rbind]; try discriminate.
      destruct (Nat.eqb_spec (length labels) (max_width cells)) as [E|E];
        [|discriminate].
      intros [= <-]. cbn [columns data].
      destruct (store_table_shape _ _ (padded_rows cells)) as [Hw Hl]. split.
      * rewrite E. exact Hw.
      * rewrite Hl, length_map. exact (rmap_length _ _ _ Hc).
Qed.

(** Where a table of the normalizer comes from. *)
Lemma parse_stats_table_ok_inv v df :
  parse_stats_table v = Ok df ->
  df = empty_frame \/
  exists h vs entries rows,
    py_getitem v "headers" = Ok h /\
    py_getitem v "values" = Ok vs /\
    py_iter vs = Ok entries /\
    rmap (fun row => py_getitem row "values") entries = Ok rows /\
    pd_DataFrame rows h = Ok df.
Proof.
  unfold parse_stats_table.
  destruct (py_truthy v); cbn [negb]; [|intros [= <-]; left; reflexivity].
  destruct (py_contains "headers" v) as [[]| |]; cbn [rbind negb];
    try discriminate; [|intros [= <-]; left; reflexivity].
  destruct (py_contains "values" v) as [[]| |]; cbn [rbind negb];
    try discriminate; [|intros [= <-]; left; reflexivity].
  destruct (py_getitem v "headers") as [h| |]; cbn [rbind]; try discriminate.
  destruct (py_getitem v "values") as [vs| |]; cbn [rbind]; try discriminate.
  destruct (py_iter vs) as [entries| |] eqn:Hit; cbn [rbind]; try discriminate.
  destruct (rmap _ entries) as [rows| |] eqn:Hrows; cbn [rbind]; try discriminate.
  intros H. right. exists h, vs, entries, rows. auto.
Qed.

(** X1.  An input that is not a JSON object never yields a populated table:
    the normalizer returns the empty table or raises [TypeError]. *)
Theorem parse_stats_table_non_object (v : json) :
  (forall kvs, v <> JObj kvs) ->
  parse_stats_table v = Ok empty_frame \/ parse_stats_table v = Raise TypeError.
Proof.
  intros Hv. unfold parse_stats_table.
  destruct (py_truthy v); cbn [negb]; [|left; reflexivity].
  destruct v as [| | | | | |kvs]; cbn [py_contains rbind]; auto.
  - destruct (str_contains "headers" s); cbn [negb]; auto.
    destruct (str_contains "values" s); cbn [negb]; auto.
  - destruct (existsb (str_eq_json "headers") xs); cbn [negb]; auto.
    destruct (existsb (str_eq_json "values") xs); cbn [negb]; auto.
  - destruct (Hv kvs eq_refl).
Qed.

Lemma parse_stats_table_non_object_witness :
  parse_stats_table (JArr [JStr "headers"; JStr "values"]) = Raise TypeError /\
  (parse_stats_table (JInt 5) = Ok empty_frame \/
   parse_stats_table (JInt 5) = Raise TypeError).
Proof.
  split; [reflexivity|].
  apply parse_stats_table_non_object. intros kvs. discriminate.
Defined.

(** X2.  With both keys present and a list under [values], the first entry
    that cannot be indexed by ["values"] decides the outcome: its exception
    propagates, [KeyError] for an object without the key and [TypeError] for
    an entry that is not an object, and no table is built. *)
Theorem parse_stats_table_bad_entry kvs h pre bad post e :
  dict_get kvs "headers" = Some h ->
  dict_get kvs "values" = Some (JArr (pre ++ bad :: post)) ->
  Forall (fun x => exists cells, py_getitem x "values" = Ok cells) pre ->
  py_getitem bad "values" = Raise e ->
  parse_stats_table (JObj kvs) = Raise e /\
  ((exists fields, bad = JObj fields) -> e = KeyError) /\
  ((forall fields, bad <> JObj fields) -> e = TypeError).
Proof.
  intros Hh Hv Hpre Hbad. split; [|split].
  - rewrite (parse_stats_table_present _ _ _ Hh Hv). cbn [py_iter rbind].
    rewrite (rmap_first_failure _ _ _ _ _ Hpre Hbad). reflexivity.
  - intros [fields ->]. cbn in Hbad.
    destruct (dict_get fields "values"); congruence.
  - intros Hn. destruct bad as [| | | | | |fields]; cbn in Hbad; try congruence.
Qed.

Lemma parse_stats_table_bad_entry_witness :
  parse_stats_table (JObj unkeyed_entry_fields) = Raise KeyError.
Proof.
  refine (proj1 (parse_stats_table_bad_entry unkeyed_entry_fields
                   (JArr [JStr "Format"])
                   [JObj [("values", JArr [JStr "Test"])]]
                   (JObj [("cells", JArr [JStr "ODI"])]) [] KeyError
                   eq_refl eq_refl _ eq_refl)).
  constructor; [eexists; reflexivity | constructor].
Defined.

(** X3.  Every table the normalizer returns is rectangular: each row has as
    many cells as the table has columns, whatever the input was. *)
Theorem parse_stats_table_rectangular (v : json) (df : DataFrame) :
  parse_stats_table v = Ok df ->
  Forall (fun r => length r = length (columns df)) (data df).
Proof.
  intros H. destruct (parse_stats_table_ok_inv _ _ H)
    as [-> | (h & vs & entries & rows & _ & _ & _ & _ & Hdf)].
  - constructor.
  - exact (proj1 (pd_DataFrame_shape _ _ _ Hdf)).
Qed.

Lemma parse_stats_table_rectangular_witness :
  parse_stats_table ragged_stats =
    Ok (mkDataFrame [JStr "Format"; JStr "Runs"]
                    [[Kept (JStr "Test"); ToFloat 9230]; [Kept (JStr "ODI"); NaN]]) /\
  Forall (fun r => length r = 2)
         [[Kept (JStr "Test"); ToFloat 9230]; [Kept (JStr "ODI"); NaN]].
Proof.
  split; [reflexivity|].
  exact (parse_stats_table_rectangular ragged_stats
           (mkDataFrame [JStr "Format"; JStr "Runs"]
                        [[Kept (JStr "Test"); ToFloat 9230]; [Kept (JStr "ODI"); NaN]])
           eq_refl).
Defined.

(** X4.  Whenever the normalizer returns a table for an object holding both
    keys, the table has exactly one row per element of what is stored under
    [values] (the entries of a list, but also the keys of a dict). *)
Theorem parse_stats_table_row_count kvs h vs entries df :
  dict_get kvs "headers" = Some h ->
  dict_get kvs "values" = Some vs ->
  py_iter vs = Ok entries ->
  parse_stats_table (JObj kvs) = Ok df ->
  length (data df) = length entries.
Proof.
  intros Hh Hv Hit H. rewrite (parse_stats_table_present _ _ _ Hh Hv), Hit in H.
  cbn [rbind] in H.
  destruct (rmap _ entries) as [rows| |] eqn:Hrows; cbn [rbind] in H;
    try discriminate.
  rewrite (proj2 (pd_DataFrame_shape _ _ _ H)). exact (rmap_length _ _ _ Hrows).
Qed.

Lemma parse_stats_table_row_count_witness :
  parse_stats_table ragged_stats =
    Ok (mkDataFrame [JStr "Format"; JStr "Runs"]
                    [[Kept (JStr "Test"); ToFloat 9230]; [Kept (JStr "ODI"); NaN]]) /\
  length [[Kept (JStr "Test"); ToFloat 9230]; [Kept (JStr "ODI"); NaN]] = 2.
Proof.
  split; [reflexivity|].
  exact (parse_stats_table_row_count
           [("headers", JArr [JStr "Format"; JStr "Runs"]);
            ("values", JArr [JObj [("values", JArr [JStr "Test"; JInt 9230])];
                             JObj [("values", JArr [JStr "ODI"])]])]
           (JArr [JStr "Format"; JStr "Runs"])
           (JArr [JObj [("values", JArr [JStr "Test"; JInt 9230])];
                  JObj [("values", JArr [JStr "ODI"])]])
           [JObj [("values", JArr [JStr "Test"; JInt 9230])];
            JObj [("values", JArr [JStr "ODI"])]]
           (mkDataFrame [JStr "Format"; JStr "Runs"]
                        [[Kept (JStr "Test"); ToFloat 9230]; [Kept (JStr "ODI"); NaN]])
           eq_refl eq_refl eq_refl eq_refl).
Defined.

(** * Properties of the stats tabs *)

(** The tab, once the candidate's id is read. *)
Lemma stats_tab_unfold w i heading ty none sp pid :
  py_getitem sp "id" = Ok pid ->
  stats_tab w i heading ty none sp =
  let pre := [with_tab i; st_subheader heading;
              http_get [Lit "https://cricbuzz-cricket.p.rapidapi.com/stats/v1/player/";
                        Fmt pid; Lit "/"; Fmt (JStr ty)]] in
  match outcome (get_player_stats w pid ty) with
  | Ok stats =>
      match parse_stats_table stats with
      | Ok df =>
          (pre ++ [if negb (df_empty df) then st_dataframe df else st_warning none],
           Ok tt)
      | Raise e => (pre, Raise e)
      | Unmodelled => (pre, Unmodelled)
      end
  | Raise e => (pre, Raise e)
  | Unmodelled => (pre, Unmodelled)
  end.
Proof.
  intros Hid. unfold stats_tab, get_player_stats. rewrite Hid.
  cbn [lift emit ubind app outcome].
  destruct (status_code (stats_api w pid ty) =? 200)%Z.
  - unfold lift. destruct (json_loads (stats_api w pid ty)) as [stats| |];
      cbn -[parse_stats_table df_empty]; try reflexivity.
    destruct (parse_stats_table stats) as [df| |];
      cbn -[df_empty]; try reflexivity.
    destruct (df_empty df); reflexivity.
  - reflexivity.
Qed.

(** X5.  For every status other than 200 the stats tab completes and shows
    the no-stats warning: heading, one request, warning. *)
Theorem stats_tab_non_200 w i heading ty none sp pid :
  py_getitem sp "id" = Ok pid ->
  status_code (stats_api w pid ty) <> 200%Z ->
  stats_tab w i heading ty none sp =
  ([with_tab i; st_subheader heading;
    http_get [Lit "https://cricbuzz-cricket.p.rapidapi.com/stats/v1/player/";
              Fmt pid; Lit "/"; Fmt (JStr ty)];
    st_warning none],
   Ok tt).
Proof.
  intros Hid Hs. rewrite (stats_tab_unfold _ _ _ _ _ _ _ Hid).
  unfold get_player_stats. cbn [emit ubind outcome].
  destruct (Z.eqb_spec (status_code (stats_api w pid ty)) 200); [contradiction|].
  reflexivity.
Qed.

Lemma stats_tab_non_200_witness :
  stats_tab details_garbled 1 "Batting Stats" "batting"
    "No batting stats available." kohli =
  ([with_tab 1; st_subheader "Batting Stats";
    http_get [Lit "https://cricbuzz-cricket.p.rapidapi.com/stats/v1/player/";
              Fmt (JInt 1413); Lit "/"; Fmt (JStr "batting")];
    st_warning "No batting stats available."],
   Ok tt).
Proof.
  apply (stats_tab_non_200 details_garbled 1 "Batting Stats" "batting"
           "No batting stats available." kohli (JInt 1413));
    [reflexivity | discriminate].
Defined.

(** X6.  A stats tab that completes has shown, after its heading and its one
    request, exactly one of two things: the no-stats warning, or a table;
    and a table it shows has at least one row and one column. *)
Theorem stats_tab_shows_one w i heading ty none sp l :
  stats_tab w i heading ty none sp = (l, Ok tt) ->
  exists pid last,
    py_getitem sp "id" = Ok pid /\
    l = [with_tab i; st_subheader heading;
         http_get [Lit "https://cricbuzz-cricket.p.rapidapi.com/stats/v1/player/";
                   Fmt pid; Lit "/"; Fmt (JStr ty)];
         last] /\
    (last = st_warning none \/
     exists df, last = st_dataframe df /\ data df <> [] /\ columns df <> []).
Proof.
  destruct (py_getitem sp "id") as [pid| |] eqn:Hid.
  - rewrite (stats_tab_unfold _ _ _ _ _ _ _ Hid). cbv zeta.
    destruct (outcome (get_player_stats w pid ty)) as [stats| |]; try discriminate.
    destruct (parse_stats_table stats) as [df| |]; try discriminate.
    intros [= <-]. exists pid. eexists. split; [reflexivity|].
    split; [reflexivity|].
    destruct (df_empty df) eqn:He; cbn [negb]; [left; reflexivity|].
    right. exists df. split; [reflexivity|].
    unfold df_empty in He.
    destruct (columns df); [discriminate|].
    destruct (data df); [discriminate|]. split; discriminate.
  - unfold stats_tab. rewrite Hid. discriminate.
  - unfold stats_tab. rewrite Hid. discriminate.
Qed.

Lemma stats_tab_shows_one_witness :
  exists pid last,
    py_getitem kohli "id" = Ok pid /\
    [with_tab 1; st_subheader "Batting Stats";
     http_get [Lit "https://cricbuzz-cricket.p.rapidapi.com/stats/v1/player/";
               Fmt (JInt 1413); Lit "/"; Fmt (JStr "batting")];
     st_dataframe (mkDataFrame [JStr "ROWHEADER"; JStr "Test"; JStr "ODI"]
                               [[Kept (JStr "Matches"); Kept (JStr "113"); Kept (JStr "295")]])] =
    [with_tab 1; st_subheader "Batting Stats";
     http_get [Lit "https://cricbuzz-cricket.p.rapidapi.com/stats/v1/player/";
               Fmt pid; Lit "/"; Fmt (JStr "batting")];
     last] /\
    (last = st_warning "No batting stats available." \/
     exists df, last = st_dataframe df /\ data df <> [] /\ columns df <> []).
Proof.
  exact (stats_tab_shows_one all_fine 1 "Batting Stats" "batting"
           "No batting stats available." kohli _ eq_refl).
Defined.

(** X7.  A 200 response holding header labels and an empty values list is
    reported like no stats at all: the table has its columns but no rows,
    counts as empty, and the tab shows the warning. *)
Theorem stats_tab_headers_only w i heading ty none sp pid kvs labels :
  py_getitem sp "id" = Ok pid ->
  status_code (stats_api w pid ty) = 200%Z ->
  decoded (stats_api w pid ty) = Some (JObj kvs) ->
  stats_payload kvs labels [] ->
  stats_tab w i heading ty none sp =
  ([with_tab i; st_subheader heading;
    http_get [Lit "https://cricbuzz-cricket.p.rapidapi.com/stats/v1/player/";
              Fmt pid; Lit "/"; Fmt (JStr ty)];
    st_warning none],
   Ok tt).
Proof.
  intros Hid Hs Hd Hp. rewrite (stats_tab_unfold _ _ _ _ _ _ _ Hid).
  unfold get_player_stats. cbn [emit ubind outcome]. rewrite Hs.
  cbn [Z.eqb Pos.eqb]. rewrite (json_loads_some _ _ Hd). cbn [lift snd app].
  unfold outcome. cbn [snd].
  rewrite (parse_stats_table_payload _ _ _ Hp). cbv iota zeta.
  unfold df_empty. cbn [columns data negb].
  destruct (map JStr labels); reflexivity.
Qed.

Lemma stats_tab_headers_only_witness :
  stats_tab stats_without_rows 1 "Batting Stats" "batting"
    "No batting stats available." kohli =
  ([with_tab 1; st_subheader "Batting Stats";
    http_get [Lit "https://cricbuzz-cricket.p.rapidapi.com/stats/v1/player/";
              Fmt (JInt 1413); Lit "/"; Fmt (JStr "batting")];
    st_warning "No batting stats available."],
   Ok tt).
Proof.
  exact (stats_tab_headers_only stats_without_rows 1 "Batting Stats" "batting"
           "No batting stats available." kohli (JInt 1413) _ ["ROWHEADER"; "Test"]
           eq_refl eq_refl eq_refl (mk_stats_payload ["ROWHEADER"; "Test"] [])).
Defined.

(** * Further properties of the candidate set and of the search *)

Lemma existsb_eqb_In n (l : list string) :
  existsb (String.eqb n) l = true <-> In n l.
Proof.
  rewrite existsb_exists. split.
  - intros (x & Hx & E). apply String.eqb_eq in E. subst. exact Hx.
  - intros H. exists n. split; [exact H | apply String.eqb_refl].
Qed.

Lemma keep_first_ext seen1 seen2 names :
  (forall x, In x seen1 <-> In x seen2) ->
  keep_first seen1 names = keep_first seen2 names.
Proof.
  revert seen1 seen2. induction names as [|n rest IH]; intros s1 s2 H; cbn.
  - reflexivity.
  - assert (E : existsb (String.eqb n) s1 = existsb (String.eqb n) s2).
    { apply eq_true_iff_eq. rewrite !existsb_eqb_In. apply H. }
    rewrite E. destruct (existsb (String.eqb n) s2).
    + apply IH, H.
    + f_equal. apply IH. intros x. cbn. rewrite H. reflexivity.
Qed.

Lemma keep_first_spec names : forall seen,
  NoDup (keep_first seen names) /\
  forall x, In x (keep_first seen names) <-> In x names /\ ~ In x seen.
Proof.
  induction names as [|n rest IH]; intros seen; cbn.
  - split; [constructor | intros x; tauto].
  - destruct (existsb (String.eqb n) seen) eqn:E.
    + apply existsb_eqb_In in E. destruct (IH seen) as [Hnd Hin].
      split; [exact Hnd|]. intros x. rewrite Hin. split.
      * tauto.
      * intros [[<- | Hx] Hs]; [contradiction | tauto].
    + assert (Hn : ~ In n seen).
      { intros Hn. apply existsb_eqb_In in Hn. congruence. }
      destruct (IH (n :: seen)) as [Hnd Hin]. split.
      * constructor; [|exact Hnd]. rewrite Hin. cbn. tauto.
      * intros x. cbn. rewrite Hin. cbn.
        destruct (string_dec n x) as [<- | Hx]; tauto.
Qed.

Lemma keys_dict_set d k v :
  map fst (dict_set d k v) =
  if existsb (String.eqb k) (map fst d) then map fst d else map fst d ++ [k].
Proof.
  induction d as [|[k' v'] d IH]; cbn; [reflexivity|].
  rewrite (String.eqb_sym k k').
  destruct (String.eqb_spec k' k) as [->|Hk]; cbn; [reflexivity|].
  rewrite IH. destruct (existsb (String.eqb k) (map fst d)); reflexivity.
Qed.

Lemma collect_options_keys ps : forall d d',
  Forall (fun p => name_of p <> None) ps ->
  collect_options d ps = Ok d' ->
  map fst d' = map fst d ++ keep_first (map fst d) (names_of ps).
Proof.
  induction ps as [|p ps IH]; intros d d' Hall H.
  - injection H as <-. cbn. rewrite app_nil_r. reflexivity.
  - inversion Hall as [|? ? Hp Hps]; subst.
    destruct (name_of p) as [m|] eqn:Hm; [|congruence].
    cbn [collect_options] in H. rewrite (name_of_getitem _ _ Hm) in H.
    cbn [rbind hash_key] in H.
    rewrite (IH _ _ Hps H), keys_dict_set. cbn [names_of]. rewrite Hm.
    cbn [keep_first].
    destruct (existsb (String.eqb m) (map fst d)); [reflexivity|].
    rewrite <- app_assoc. cbn [app]. do 2 f_equal.
    apply keep_first_ext. intros x. rewrite in_app_iff. cbn. tauto.
Qed.

Lemma dict_get_in_keys d k :
  In k (map fst d) -> exists v, dict_get d k = Some v.
Proof.
  induction d as [|[k' v'] d IH]; cbn; [contradiction|].
  destruct (String.eqb_spec k' k) as [->|Hk]; [eauto|].
  intros [E | H]; [contradiction | exact (IH H)].
Qed.

(** X8.  For candidates that all carry a display name, the options offered
    by the select box are the display names in the order of their first
    occurrence in the search result, each name once. *)
Theorem player_options_keys (ps : list json) :
  Forall (fun p => name_of p <> None) ps ->
  exists d,
    player_options (JArr ps) = Ok d /\
    map fst d = keep_first [] (names_of ps) /\
    NoDup (map fst d) /\
    (forall n, In n (map fst d) <-> In n (names_of ps)).
Proof.
  intros Hall. destruct (collect_options_spec ps [] Hall) as (d & Hd & _).
  exists d. split; [exact Hd|].
  pose proof (collect_options_keys ps [] d Hall Hd) as Hk. cbn in Hk.
  destruct (keep_first_spec (names_of ps) []) as [Hnd Hin].
  rewrite Hk. split; [reflexivity|]. split; [exact Hnd|].
  intros n. rewrite Hin. cbn. tauto.
Qed.

Lemma player_options_keys_witness :
  exists d,
    player_options (JArr [kohli; taruwar; kohli_junior]) = Ok d /\
    map fst d = ["Virat Kohli"; "Taruwar Kohli"].
Proof.
  assert (Hall : Forall (fun p => name_of p <> None) [kohli; taruwar; kohli_junior]).
  { repeat constructor; discriminate. }
  destruct (player_options_keys _ Hall) as (d & Hd & Hk & _).
  exists d. split; [exact Hd | exact Hk].
Defined.

(** X9.  Whatever position is picked in the select box, the lookup of line
    79 succeeds: for a non-empty result list whose candidates all carry a
    display name, the selected name is a key of the candidate set, and the
    candidate found is one of the list and goes by that name. *)
Theorem selection_found (ps : list json) (picked : nat) :
  ps <> [] ->
  Forall (fun p => name_of p <> None) ps ->
  exists d name p,
    player_options (JArr ps) = Ok d /\
    selectbox (map fst d) picked = Some name /\
    dict_get d name = Some p /\
    In p ps /\ name_of p = Some name.
Proof.
  intros Hne Hall.
  destruct (collect_options_spec ps [] Hall) as (d & Hd & Hget).
  pose proof (collect_options_keys ps [] d Hall Hd) as Hk. cbn in Hk.
  assert (Hlen : 0 < length (map fst d)).
  { rewrite Hk. destruct ps as [|p ps]; [congruence|].
    inversion Hall as [|? ? Hp _]; subst. cbn [names_of].
    destruct (name_of p); [cbn; lia | congruence]. }
  assert (Hsel : exists name, selectbox (map fst d) picked = Some name).
  { unfold selectbox.
    destruct (nth_error (map fst d)
                (if (picked <? length (map fst d))%nat then picked else 0%nat))
      as [name|] eqn:E; [eauto|].
    apply nth_error_None in E.
    destruct (Nat.ltb_spec picked (length (map fst d))); lia. }
  destruct Hsel as (name & Hsel).
  assert (Hin : In name (map fst d)).
  { unfold selectbox in Hsel. exact (nth_error_In _ _ Hsel). }
  destruct (dict_get_in_keys _ _ Hin) as (p & Hp).
  exists d, name, p. split; [exact Hd|]. split; [exact Hsel|].
  split; [exact Hp|].
  rewrite Hget in Hp. destruct (last_named name ps) as [q|] eqn:Hq;
    [|discriminate].
  injection Hp as ->. exact (last_named_sound _ _ _ Hq).
Qed.

Lemma selection_found_witness :
  exists d name p,
    player_options (JArr [kohli; taruwar; kohli_junior]) = Ok d /\
    selectbox (map fst d) 7 = Some name /\
    dict_get d name = Some p /\
    In p [kohli; taruwar; kohli_junior] /\ name_of p = Some name.
Proof.
  apply (selection_found [kohli; taruwar; kohli_junior] 7); [discriminate|].
  repeat constructor; discriminate.
Defined.

Lemma collect_options_first_failure pre bad post e : forall d,
  Forall (fun p => name_of p <> None) pre ->
  py_getitem bad "name" = Raise e ->
  collect_options d (pre ++ bad :: post) = Raise e.
Proof.
  induction pre as [|p pre IH]; intros d Hall Hbad; cbn [app collect_options].
  - rewrite Hbad. reflexivity.
  - inversion Hall as [|? ? Hp Hpre]; subst.
    destruct (name_of p) as [m|] eqn:Hm; [|congruence].
    rewrite (name_of_getitem _ _ Hm). cbn [rbind hash_key].
    apply IH; assumption.
Qed.

(** X10.  For a typed name that the request line of line 28 accepts (no
    blank, no control character, ASCII only): when a candidate of the search
    result cannot be indexed by ["name"] (an object without the key gives
    [KeyError], a non-object [TypeError]) and the candidates before it have
    a name, the page stops with that exception right after the search
    request: no select box is shown and no further request is sent. *)
Theorem nameless_candidate_stops_page (w : session) kvs pre bad post e :
  player_name w <> "" ->
  request_line_check (player_name w) = Ok tt ->
  decoded (search_api w (player_name w)) = Some (JObj kvs) ->
  dict_get kvs "player" = Some (JArr (pre ++ bad :: post)) ->
  Forall (fun p => name_of p <> None) pre ->
  py_getitem bad "name" = Raise e ->
  show_top_stats w =
  ([st_title "📊 Player Stats & Profile";
    st_text_input "Enter player name (e.g. Kohli, Dhoni, Smith):";
    http_get [Lit "/stats/v1/player/search?plrN="; Fmt (JStr (player_name w))]],
   Raise e).
Proof.
  intros Hname Hline Hd Hp Hpre Hbad. unfold show_top_stats, search_players.
  assert (Ht : py_truthy (JStr (player_name w)) = true).
  { cbn. destruct (String.eqb_spec (player_name w) ""); [contradiction | reflexivity]. }
  rewrite Ht, Hline, (json_loads_some _ _ Hd).
  cbn [lift emit uret try_except ubind app py_contains py_getitem].
  rewrite Hp. cbn [uret ubind app py_truthy].
  assert (Htr : match pre ++ bad :: post with [] => false | _ :: _ => true end = true)
    by (destruct pre; reflexivity).
  rewrite Htr. unfold player_options. cbn [py_iter rbind].
  rewrite (collect_options_first_failure _ _ _ _ [] Hpre Hbad). reflexivity.
Qed.

Lemma nameless_candidate_stops_page_witness :
  show_top_stats search_nameless =
  ([st_title "📊 Player Stats & Profile";
    st_text_input "Enter player name (e.g. Kohli, Dhoni, Smith):";
    http_get [Lit "/stats/v1/player/search?plrN="; Fmt (JStr "Kohli")]],
   Raise KeyError).
Proof.
  apply (nameless_candidate_stops_page search_nameless
           [("player", JArr [kohli; JObj [("id", JInt 7)]])]
           [kohli] (JObj [("id", JInt 7)]) [] KeyError);
    try reflexivity; [discriminate|].
  repeat constructor; discriminate.
Defined.

(** With an empty search box the page shows its title and the input and does
    nothing else. *)
Lemma empty_search_box (w : session) :
  player_name w = "" ->
  show_top_stats w =
  ([st_title "📊 Player Stats & Profile";
    st_text_input "Enter player name (e.g. Kohli, Dhoni, Smith):"],
   Ok tt).
Proof. intros H. unfold show_top_stats. rewrite H. reflexivity. Qed.

(** * Requests sent by a run *)

Lemma requests_app l1 l2 : requests (l1 ++ l2) = requests l1 + requests l2.
Proof. unfold requests. rewrite filter_app, length_app. reflexivity. Qed.

Lemma ubind_requests {A B} (c : ui A) (k : A -> ui B) m n :
  requests (trace c) <= m ->
  (forall a, requests (trace (k a)) <= n) ->
  requests (trace (ubind c k)) <= m + n.
Proof.
  destruct c as [l [a| |]]; cbn [trace fst ubind]; intros Hc Hk; try lia.
  specialize (Hk a). destruct (k a) as [l' r]. cbn [trace fst] in *.
  rewrite requests_app. lia.
Qed.

Lemma quiet_bind {A B} (c : ui A) (k : A -> ui B) :
  quiet c -> (forall a, quiet (k a)) -> quiet (ubind c k).
Proof.
  unfold quiet. intros Hc Hk.
  pose proof (ubind_requests c k 0 0 ltac:(lia) ltac:(intros a; rewrite Hk; lia)).
  lia.
Qed.

Lemma quiet_lift {A} (r : res A) : quiet (lift r).
Proof. reflexivity. Qed.

Lemma quiet_uret {A} (a : A) : quiet (uret a).
Proof. reflexivity. Qed.

Lemma quiet_emit e : is_request e = false -> quiet (emit e).
Proof. unfold quiet, requests. cbn. intros ->. reflexivity. Qed.

Lemma quiet_for_each {A} (body : A -> ui unit) xs :
  (forall x, quiet (body x)) -> quiet (for_each body xs).
Proof.
  intros H. induction xs as [|x xs IH]; [reflexivity|].
  cbn [for_each]. apply quiet_bind; [apply H | intros _; exact IH].
Qed.

Lemma quiet_try_except {A} (body handler : ui A) :
  quiet body -> quiet handler -> quiet (try_except body handler).
Proof.
  unfold quiet. destruct body as [l [a| |]]; cbn [try_except]; trivial.
  destruct handler as [l' r]. cbn [trace fst]. intros H1 H2.
  rewrite requests_app. lia.
Qed.

Ltac quiet_steps :=
  repeat first
    [ apply quiet_lift
    | apply quiet_uret
    | apply quiet_emit; reflexivity
    | apply quiet_bind; [|intros ?]
    | apply quiet_for_each; intros ?
    | match goal with
      | |- quiet (if ?b then _ else _) => destruct b
      | |- quiet (match ?x with _ => _ end) => destruct x
      | |- requests (trace (if ?b then _ else _)) = 0 => destruct b
      | |- requests (trace (match ?x with _ => _ end)) = 0 => destruct x
      end ].

Lemma quiet_profile_heading sp : quiet (profile_heading sp).
Proof. unfold profile_heading. quiet_steps. Qed.

Lemma quiet_profile_image sp d : quiet (profile_image sp d).
Proof. unfold profile_image. quiet_steps. Qed.

Lemma quiet_profile_fields d : quiet (profile_fields d).
Proof. unfold profile_fields. quiet_steps. Qed.

Lemma quiet_rankings_block d : quiet (rankings_block d).
Proof. unfold rankings_block, ranking_column. quiet_steps. Qed.

Lemma quiet_web_link d : quiet (web_link d).
Proof. unfold web_link. quiet_steps. Qed.

Lemma quiet_career_try r : quiet (career_try r).
Proof. unfold career_try. quiet_steps. Qed.

Lemma requests_emit e : requests (trace (emit e)) <= 1.
Proof. unfold requests. cbn. destruct (is_request e); cbn; lia. Qed.

Lemma career_block_requests w sp : requests (trace (career_block w sp)) <= 1.
Proof.
  unfold career_block.
  apply (ubind_requests _ _ 0 1); [reflexivity | intros _].
  apply (ubind_requests _ _ 0 1); [reflexivity | intros pid].
  apply (ubind_requests _ _ 1 0); [apply requests_emit | intros _].
  apply Nat.eq_le_incl.
  apply quiet_try_except; [apply quiet_career_try | reflexivity].
Qed.

Lemma profile_tab_requests w sp d : requests (trace (profile_tab w sp d)) <= 1.
Proof.
  unfold profile_tab.
  apply (ubind_requests _ _ 0 1); [reflexivity | intros _].
  apply (ubind_requests _ _ 0 1);
    [apply Nat.eq_le_incl, quiet_profile_heading | intros _].
  apply (ubind_requests _ _ 0 1);
    [apply Nat.eq_le_incl, quiet_profile_image | intros _].
  destruct (py_truthy d); [|cbn; lia].
  apply (ubind_requests _ _ 0 1);
    [apply Nat.eq_le_incl, quiet_profile_fields | intros _].
  apply (ubind_requests _ _ 0 1);
    [apply Nat.eq_le_incl, quiet_rankings_block | intros _].
  apply (ubind_requests _ _ 1 0); [apply career_block_requests | intros _].
  apply Nat.eq_le_incl, quiet_web_link.
Qed.

Lemma get_player_stats_requests w pid ty :
  requests (trace (get_player_stats w pid ty)) <= 1.
Proof.
  unfold get_player_stats.
  apply (ubind_requests _ _ 1 0); [apply requests_emit | intros _].
  destruct (status_code (stats_api w pid ty) =? 200)%Z; reflexivity.
Qed.

Lemma stats_tab_requests w i heading ty none sp :
  requests (trace (stats_tab w i heading ty none sp)) <= 1.
Proof.
  unfold stats_tab.
  apply (ubind_requests _ _ 0 1); [reflexivity | intros _].
  apply (ubind_requests _ _ 0 1); [reflexivity | intros _].
  apply (ubind_requests _ _ 0 1); [reflexivity | intros pid].
  apply (ubind_requests _ _ 1 0); [apply get_player_stats_requests | intros stats].
  apply Nat.eq_le_incl. quiet_steps.
Qed.

Lemma fetch_requests e (r : res json) :
  requests (trace (emit e ;; try_except (lift r) (uret (JObj [])))%ui) <= 1.
Proof.
  apply (ubind_requests _ _ 1 0); [apply requests_emit | intros _].
  apply Nat.eq_le_incl, quiet_try_except; reflexivity.
Qed.

Lemma checked_fetch_requests (c : res unit) e (r : res json) :
  requests (trace (lift c ;; emit e ;; try_except (lift r) (uret (JObj [])))%ui) <= 1.
Proof.
  apply (ubind_requests _ _ 0 1); [reflexivity | intros _]. apply fetch_requests.
Qed.

(** X11.  A run of the player page sends at most five requests to the API
    (search, profile, career, batting, bowling), whatever the endpoints
    answer, and none at all while the search box is empty. *)
Theorem show_top_stats_requests (w : session) :
  requests (trace (show_top_stats w)) <= 5 /\
  (player_name w = "" -> requests (trace (show_top_stats w)) = 0).
Proof.
  split; [|intros H; rewrite (empty_search_box w H); reflexivity].
  unfold show_top_stats.
  apply (ubind_requests _ _ 0 5); [reflexivity | intros _].
  apply (ubind_requests _ _ 0 5); [reflexivity | intros _].
  destruct (py_truthy (JStr (player_name w))); [|cbn; lia].
  apply (ubind_requests _ _ 1 4);
    [apply checked_fetch_requests | intros results].
  apply (ubind_requests _ _ 0 4); [reflexivity | intros has].
  apply (ubind_requests _ _ 0 4);
    [apply Nat.eq_le_incl; quiet_steps | intros found].
  destruct found; [|cbn; lia].
  apply (ubind_requests _ _ 0 4); [reflexivity | intros players].
  apply (ubind_requests _ _ 0 4); [reflexivity | intros options].
  apply (ubind_requests _ _ 0 4); [reflexivity | intros _].
  apply (ubind_requests _ _ 0 4); [reflexivity | intros selected].
  apply (ubind_requests _ _ 0 4); [reflexivity | intros pid].
  apply (ubind_requests _ _ 1 3);
    [apply checked_fetch_requests | intros details].
  apply (ubind_requests _ _ 0 3); [reflexivity | intros _].
  apply (ubind_requests _ _ 1 2); [apply profile_tab_requests | intros _].
  apply (ubind_requests _ _ 1 1); [apply stats_tab_requests | intros _].
  apply stats_tab_requests.
Qed.

Lemma show_top_stats_requests_witness :
  requests (trace (show_top_stats all_fine)) = 5 /\
  requests (trace (show_top_stats all_fine)) <= 5.
Proof.
  split; [reflexivity | exact (proj1 (show_top_stats_requests all_fine))].
Defined.

(** * Further properties of the career block *)

Lemma rmap_career_row_non_object entries :
  existsb (fun x => negb (is_object x)) entries = true ->
  rmap career_row entries = Raise AttributeError.
Proof.
  induction entries as [|x xs IH]; [discriminate|].
  cbn [existsb rmap]. destruct x as [| | | | | |f]; try reflexivity.
  cbn [is_object negb orb]. intros H. rewrite (IH H).
  unfold career_row. rewrite !py_get_obj. reflexivity.
Qed.

(** What the [try] body can do: raise having shown nothing, show the
    no-information warning, or show a table of three-cell rows. *)
Lemma career_try_cases r :
  (exists e, career_try r = ([], Raise e)) \/
  career_try r = ([st_warning "No career debut information available."], Ok tt) \/
  exists cells,
    cells <> [] /\ Forall (fun c => length c = 3) cells /\
    career_try r =
    ([st_dataframe (mkDataFrame career_labels (store_table 3 cells))], Ok tt).
Proof.
  unfold career_try.
  pose proof (json_loads_modelled r) as M1.
  destruct (json_loads r) as [cj| |]; [|left; eexists; reflexivity|congruence].
  cbn [lift ubind app].
  pose proof (py_contains_modelled "values" cj) as M2.
  destruct (py_contains "values" cj) as [[]| |];
    [| right; left; reflexivity | left; eexists; reflexivity | congruence].
  pose proof (py_getitem_modelled cj "values") as M3.
  destruct (py_getitem cj "values") as [v| |];
    [|left; eexists; reflexivity|congruence].
  cbn [uret ubind app].
  destruct (py_truthy v); [|right; left; reflexivity].
  pose proof (py_iter_modelled v) as M4.
  destruct (py_iter v) as [entries| |]; [|left; eexists; reflexivity|congruence].
  cbn [ubind app].
  pose proof (rmap_career_row_modelled entries) as M5.
  destruct (rmap career_row entries) as [rows| |] eqn:Hrows;
    [|left; eexists; reflexivity|congruence].
  cbn [ubind app].
  destruct (rmap_career_row_shape _ _ Hrows) as (cells & -> & Hc).
  destruct cells as [|c cs]; [right; left; reflexivity|].
  right; right. exists (c :: cs). split; [discriminate|]. split; [exact Hc|].
  change (map JArr (c :: cs)) with (JArr c :: map JArr cs) at 1.
  cbv beta iota. fold career_labels.
  change (JArr c :: map JArr cs) with (map JArr (c :: cs)).
  rewrite pd_DataFrame_career by (trivial; discriminate).
  reflexivity.
Qed.

(** X12.  For a candidate with an id, the career block always completes
    with three calls: its heading, one request, and exactly one of the
    no-information warning, the could-not-load warning, or a table; a table
    it shows has the three fixed columns, at least one row, and three cells
    in every row. *)
Theorem career_block_outcomes (w : session) (sp pid : json) :
  py_getitem sp "id" = Ok pid ->
  exists last,
    career_block w sp =
    ([st_subheader "Career Debut Information";
      http_get [Lit "/stats/v1/player/"; Fmt pid; Lit "/career"];
      last], Ok tt) /\
    (last = st_warning "No career debut information available." \/
     last = st_warning "Could not load career debut information." \/
     exists df,
       last = st_dataframe df /\
       columns df = career_labels /\
       data df <> [] /\
       Forall (fun row => length row = 3) (data df)).
Proof.
  intros Hid. unfold career_block. rewrite Hid. cbn [lift emit ubind app].
  destruct (career_try_cases (career_api w pid))
    as [(e & ->) | [-> | (cells & Hne & Hc & ->)]]; cbn [try_except emit app].
  - eexists. split; [reflexivity|]. right; left; reflexivity.
  - eexists. split; [reflexivity|]. left; reflexivity.
  - eexists. split; [reflexivity|]. right; right.
    eexists. split; [reflexivity|]. cbn [columns data].
    destruct (store_table_shape _ _ Hc) as [Hw Hl].
    split; [reflexivity|]. split; [|exact Hw].
    intros E. rewrite E in Hl. destruct cells; [congruence | discriminate].
Qed.

Lemma career_block_outcomes_witness :
  exists last,
    career_block role_only kohli =
    ([st_subheader "Career Debut Information";
      http_get [Lit "/stats/v1/player/"; Fmt (JInt 1413); Lit "/career"];
      last], Ok tt) /\
    (last = st_warning "No career debut information available." \/
     last = st_warning "Could not load career debut information." \/
     exists df,
       last = st_dataframe df /\
       columns df = career_labels /\
       data df <> [] /\
       Forall (fun row => length row = 3) (data df)).
Proof. exact (career_block_outcomes role_only kohli (JInt 1413) eq_refl). Defined.

(** X13.  The career block shows the could-not-load warning when the body
    of the career response is not decodable, and also when it decodes to an
    object whose [values] list holds an entry that is not an object. *)
Theorem career_block_could_not_load (w : session) (sp pid : json) :
  py_getitem sp "id" = Ok pid ->
  decoded (career_api w pid) = None \/
  (exists ckvs entries,
     decoded (career_api w pid) = Some (JObj ckvs) /\
     dict_get ckvs "values" = Some (JArr entries) /\
     existsb (fun x => negb (is_object x)) entries = true) ->
  career_block w sp =
  ([st_subheader "Career Debut Information";
    http_get [Lit "/stats/v1/player/"; Fmt pid; Lit "/career"];
    st_warning "Could not load career debut information."], Ok tt).
Proof.
  intros Hid H. unfold career_block. rewrite Hid. cbn [lift emit ubind app].
  unfold career_try.
  destruct H as [Hd | (ckvs & entries & Hd & Hv & Hbad)].
  - rewrite (json_loads_none _ Hd). reflexivity.
  - rewrite (json_loads_some _ _ Hd).
    cbn [lift ubind app py_contains py_getitem]. rewrite Hv.
    cbn [uret ubind app py_truthy py_iter].
    destruct entries as [|x xs]; [discriminate|].
    cbn [ubind app lift]. rewrite (rmap_career_row_non_object _ Hbad). reflexivity.
Qed.

Lemma career_block_could_not_load_witness :
  career_block stats_garbled kohli =
  ([st_subheader "Career Debut Information";
    http_get [Lit "/stats/v1/player/"; Fmt (JInt 1413); Lit "/career"];
    st_warning "Could not load career debut information."], Ok tt).
Proof.
  apply (career_block_could_not_load stats_garbled kohli (JInt 1413) eq_refl).
  left. reflexivity.
Defined.

(** X14.  The career block shows the no-information warning when the career
    response decodes to an object that has no [values] key, or whose
    [values] entry is empty. *)
Theorem career_block_no_information (w : session) (sp pid : json) ckvs :
  py_getitem sp "id" = Ok pid ->
  decoded (career_api w pid) = Some (JObj ckvs) ->
  dict_get ckvs "values" = None \/
  (exists v, dict_get ckvs "values" = Some v /\ py_truthy v = false) ->
  career_block w sp =
  ([st_subheader "Career Debut Information";
    http_get [Lit "/stats/v1/player/"; Fmt pid; Lit "/career"];
    st_warning "No career debut information available."], Ok tt).
Proof.
  intros Hid Hd H. unfold career_block. rewrite Hid. cbn [lift emit ubind app].
  unfold career_try. rewrite (json_loads_some _ _ Hd).
  cbn [lift ubind app py_contains py_getitem].
  destruct H as [Hv | (v & Hv & Hf)]; rewrite Hv; cbn [uret ubind app];
    [|rewrite Hf]; reflexivity.
Qed.

Lemma career_block_no_information_witness :
  career_block (lookup search_kohli (api_ok kohli_details)
                  (api_ok (JObj [("values", JArr [])])) no_stats) kohli =
  ([st_subheader "Career Debut Information";
    http_get [Lit "/stats/v1/player/"; Fmt (JInt 1413); Lit "/career"];
    st_warning "No career debut information available."], Ok tt).
Proof.
  apply (career_block_no_information
           (lookup search_kohli (api_ok kohli_details)
              (api_ok (JObj [("values", JArr [])])) no_stats)
           kohli (JInt 1413) [("values", JArr [])] eq_refl eq_refl).
  right. eexists. split; reflexivity.
Defined.

(** * Properties of the rankings section *)

Lemma for_each_emit {A} (f : A -> event) xs :
  for_each (fun x => emit (f x)) xs = (map f xs, Ok tt).
Proof.
  induction xs as [|x xs IH]; [reflexivity|].
  cbn [for_each map]. rewrite IH. reflexivity.
Qed.

Lemma ranking_column_ok i title key rk :
  discipline_ok rk key ->
  ranking_column i title key (JObj rk) =
  (with_col i :: st_write [Lit title] :: ranking_lines rk key, Ok tt).
Proof.
  unfold ranking_column, ranking_lines. cbn [py_contains py_getitem lift emit ubind app].
  intros [H | (items & H)]; rewrite H; cbn [ubind app emit py_items lift].
  - reflexivity.
  - rewrite for_each_emit. reflexivity.
Qed.

(** X15.  When the rankings of the details are a non-empty object in which
    each of the three disciplines is either absent or an object, the rankings
    section completes: its heading, three columns, and in each column the
    title followed by one line per ranking category, in the payload's order,
    or by the notice that no rankings are available. *)
Theorem rankings_block_well_formed kvs rk :
  dict_get kvs "rankings" = Some (JObj rk) ->
  rk <> [] ->
  discipline_ok rk "bat" ->
  discipline_ok rk "bowl" ->
  discipline_ok rk "all" ->
  rankings_block (JObj kvs) =
  (st_subheader "🏆 ICC Rankings" :: st_columns 3 ::
   (with_col 0 :: st_write [Lit "### Batting"] :: ranking_lines rk "bat") ++
   (with_col 1 :: st_write [Lit "### Bowling"] :: ranking_lines rk "bowl") ++
   (with_col 2 :: st_write [Lit "### All-Rounder"] :: ranking_lines rk "all"),
   Ok tt).
Proof.
  intros Hr Hne Hbat Hbowl Hall. unfold rankings_block.
  cbn [py_contains py_getitem lift ubind app]. rewrite Hr.
  cbn [uret ubind app py_truthy]. destruct rk as [|kv rk']; [congruence|].
  cbn [emit ubind app].
  rewrite (ranking_column_ok _ _ _ _ Hbat), (ranking_column_ok _ _ _ _ Hbowl),
    (ranking_column_ok _ _ _ _ Hall).
  cbn [ubind app]. rewrite <- ?app_assoc, ?app_nil_r. reflexivity.
Qed.

Lemma rankings_block_well_formed_witness :
  rankings_block kohli_details =
  ([st_subheader "🏆 ICC Rankings"; st_columns 3;
    with_col 0; st_write [Lit "### Batting"];
    st_write [Fmt (JStr "odiRank"); Lit ": "; Fmt (JStr "2")];
    with_col 1; st_write [Lit "### Bowling"]; st_write [Lit "No rankings available"];
    with_col 2; st_write [Lit "### All-Rounder"];
    st_write [Lit "No rankings available"]],
   Ok tt).
Proof.
  apply (rankings_block_well_formed _ [("bat", JObj [("odiRank", JStr "2")])]).
  - reflexivity.
  - discriminate.
  - right. eexists. reflexivity.
  - left. reflexivity.
  - left. reflexivity.
Defined.

(** X16.  A batting discipline that is present but is not an object stops
    the profile tab inside the rankings section with [AttributeError]; the
    career request is then not sent, and the link is not shown. *)
Theorem malformed_discipline_stops_tab (w : session) sp kvs rk v lh li :
  dict_get kvs "rankings" = Some (JObj rk) ->
  dict_get rk "bat" = Some v ->
  is_object v = false ->
  profile_heading sp = (lh, Ok tt) ->
  profile_image sp (JObj kvs) = (li, Ok tt) ->
  profile_tab w sp (JObj kvs) =
  (with_tab 0 :: lh ++ li ++
   trace (profile_fields (JObj kvs)) ++
   [st_subheader "🏆 ICC Rankings"; st_columns 3;
    with_col 0; st_write [Lit "### Batting"]],
   Raise AttributeError).
Proof.
  intros Hr Hbat Hv Hh Hi.
  rewrite (profile_tab_compose _ _ _ _ _ Hh Hi).
  rewrite (present_truthy _ _ _ Hr). cbv zeta.
  rewrite profile_fields_obj. unfold rankings_block, ranking_column.
  cbn [py_contains py_getitem lift ubind app]. rewrite Hr.
  cbn [uret ubind app py_truthy].
  destruct rk as [|kv rk']; [discriminate Hbat|].
  cbn [emit lift ubind app py_contains py_getitem]. rewrite Hbat.
  destruct v; try discriminate; reflexivity.
Qed.

Lemma malformed_discipline_stops_tab_witness :
  outcome (profile_tab all_fine kohli
             (JObj [("role", JStr "Batsman");
                    ("rankings", JObj [("bat", JInt 2)])]))
  = Raise AttributeError /\
  requests (trace (profile_tab all_fine kohli
                     (JObj [("role", JStr "Batsman");
                            ("rankings", JObj [("bat", JInt 2)])]))) = 0.
Proof.
  rewrite (malformed_discipline_stops_tab all_fine kohli
             [("role", JStr "Batsman"); ("rankings", JObj [("bat", JInt 2)])]
             [("bat", JInt 2)] (JInt 2)
             (trace (profile_heading kohli))
             (trace (profile_image kohli
                       (JObj [("role", JStr "Batsman");
                              ("rankings", JObj [("bat", JInt 2)])])))
             eq_refl eq_refl eq_refl eq_refl eq_refl).
  split; reflexivity.
Defined.

(** * Properties of the profile picture *)

Lemma str_replace_none old new s :
  str_contains old s = false -> str_replace_from old new 0 s = s.
Proof.
  induction s as [|c t IH]; [reflexivity|].
  cbn [str_contains str_replace_from]. intros H.
  apply orb_false_iff in H as [Hp Ht]. rewrite Hp, (IH Ht). reflexivity.
Qed.

Lemma str_replace_skip old new a : forall rest,
  str_replace_from old new (String.length a) (a ++ rest)%string =
  str_replace_from old new 0 rest.
Proof.
  induction a as [|c a IH]; intros rest; [reflexivity|].
  cbn [String.length String.append str_replace_from]. apply IH.
Qed.

Lemma prefix_append old rest : prefix old (old ++ rest)%string = true.
Proof.
  apply prefix_correct. induction old as [|c old IH]; cbn.
  - destruct rest; reflexivity.
  - rewrite IH. reflexivity.
Qed.

Lemma str_replace_leading c old new rest :
  str_replace_from (String c old) new 0 (String c old ++ rest)%string =
  (new ++ str_replace_from (String c old) new 0 rest)%string.
Proof.
  pose proof (prefix_append (String c old) rest) as Hp.
  cbn [String.append] in Hp |- *. cbn [str_replace_from]. rewrite Hp.
  cbn [String.length Nat.sub]. rewrite ?Nat.sub_0_r, str_replace_skip. reflexivity.
Qed.

(** X17.  When the details carry an image URL, the picture shown is that
    URL, whatever the candidate's [faceImageId]: unchanged when it contains
    no ["http://"], and with the scheme turned into ["https://"] when it
    starts with ["http://"] and has no other occurrence of it. *)
Theorem profile_image_from_details (sp : json) kvs url :
  dict_get kvs "image" = Some (JStr url) ->
  (str_contains "http://" url = false ->
   profile_image sp (JObj kvs) = ([st_image [Lit url] 150], Ok tt)) /\
  (forall rest,
     url = ("http://" ++ rest)%string ->
     str_contains "http://" rest = false ->
     profile_image sp (JObj kvs) =
     ([st_image [Lit ("https://" ++ rest)%string] 150], Ok tt)).
Proof.
  intros Hi.
  assert (E : profile_image sp (JObj kvs) =
              ([st_image [Lit (str_replace_from "http://" "https://" 0 url)] 150], Ok tt)).
  { unfold profile_image. cbn [py_contains py_getitem lift ubind app]. rewrite Hi.
    reflexivity. }
  rewrite E. split.
  - intros Hn. rewrite (str_replace_none _ _ _ Hn). reflexivity.
  - intros rest -> Hn.
    rewrite (str_replace_leading "h" "ttp://" "https://" rest),
      (str_replace_none _ _ _ Hn).
    reflexivity.
Qed.

Lemma profile_image_from_details_witness :
  profile_image kohli kohli_details =
  ([st_image [Lit "https://static.cricbuzz.com/a/img/v1/152x152/i1/c1413.jpg"] 150],
   Ok tt).
Proof.
  refine (proj2 (profile_image_from_details kohli
                   [("role", JStr "Batsman");
                    ("bat", JStr "Right Handed Bat");
                    ("image", JStr "http://static.cricbuzz.com/a/img/v1/152x152/i1/c1413.jpg");
                    ("rankings", JObj [("bat", JObj [("odiRank", JStr "2")])]);
                    ("webURL", JStr "http://www.cricbuzz.com/profiles/1413/virat-kohli")]
                   "http://static.cricbuzz.com/a/img/v1/152x152/i1/c1413.jpg"
                   eq_refl)
                "static.cricbuzz.com/a/img/v1/152x152/i1/c1413.jpg" eq_refl eq_refl).
Defined.

(** X18.  An [image] entry of the details that is not a string (a [null],
    say) is a fault: reading the picture raises [AttributeError], and the
    profile tab stops after its two heading lines, before any detail. *)
Theorem profile_image_not_a_string (w : session) (sp : json) kvs v lh :
  dict_get kvs "image" = Some v ->
  (forall s, v <> JStr s) ->
  profile_heading sp = (lh, Ok tt) ->
  profile_image sp (JObj kvs) = ([], Raise AttributeError) /\
  profile_tab w sp (JObj kvs) = (with_tab 0 :: lh, Raise AttributeError).
Proof.
  intros Hi Hv Hh.
  assert (E : profile_image sp (JObj kvs) = ([], Raise AttributeError)).
  { unfold profile_image. cbn [py_contains py_getitem lift ubind app]. rewrite Hi.
    destruct v; try reflexivity. destruct (Hv s eq_refl). }
  split; [exact E|].
  unfold profile_tab. rewrite Hh, E. cbn. rewrite app_nil_r. reflexivity.
Qed.

Lemma profile_image_not_a_string_witness :
  profile_tab all_fine kohli (JObj [("role", JStr "Batsman"); ("image", JNull)]) =
  ([with_tab 0;
    st_write [Lit "### "; Fmt (JStr "Virat Kohli"); Lit " ("; Fmt (JStr "India"); Lit ")"];
    st_write [Lit "📅 DOB: "; Fmt (JStr "N/A")]],
   Raise AttributeError).
Proof.
  refine (proj2 (profile_image_not_a_string all_fine kohli
                   [("role", JStr "Batsman"); ("image", JNull)] JNull
                   (trace (profile_heading kohli)) eq_refl _ eq_refl)).
  intros s. discriminate.
Defined.

(** * Properties of the SQL page *)

Lemma distinct_NoDup l : distinct l = true -> NoDup l.
Proof.
  induction l as [|x rest IH]; cbn; [constructor|].
  intros H. apply andb_true_iff in H as [Hx Hr]. constructor; [|exact (IH Hr)].
  intros Hin. apply existsb_eqb_In in Hin. rewrite Hin in Hx. discriminate.
Qed.

Lemma QUERIES_keys_distinct : NoDup (map fst QUERIES).
Proof. apply distinct_NoDup. vm_compute. reflexivity. Qed.

Lemma QUERIES_not_empty : QUERIES <> [].
Proof. discriminate. Qed.

Lemma find_key_distinct (l : list (string * string)) : forall i kv,
  NoDup (map fst l) ->
  nth_error l i = Some kv ->
  find (fun x => fst x =? fst kv) l = Some kv.
Proof.
  induction l as [|a l IH]; intros i kv Hnd Hi; [destruct i; discriminate|].
  inversion Hnd as [|? ? Ha Hl]; subst. cbn [find].
  destruct i as [|i]; cbn in Hi.
  - injection Hi as ->. rewrite String.eqb_refl. reflexivity.
  - destruct (String.eqb_spec (fst a) (fst kv)) as [E|E].
    + exfalso. apply Ha. rewrite E. apply in_map. exact (nth_error_In _ _ Hi).
    + exact (IH _ _ Hl Hi).
Qed.

(** The select box and the lookup of line 606 on a catalog without repeated
    descriptions: they yield the entry at the picked position. *)
Lemma catalog_lookup (l : list (string * string)) picked :
  l <> [] ->
  NoDup (map fst l) ->
  exists kv,
    selected_entry l picked = Some kv /\
    selectbox (map fst l) picked = Some (fst kv) /\
    find (fun x => fst x =? fst kv) l = Some kv.
Proof.
  intros Hne Hnd. unfold selected_entry, selectbox. rewrite length_map.
  set (i := if (picked <? length l)%nat then picked else 0%nat).
  assert (Hi : i < length l).
  { subst i. destruct (Nat.ltb_spec picked (length l)); [assumption|].
    destruct l; [congruence | cbn; lia]. }
  destruct (nth_error l i) as [kv|] eqn:E;
    [|apply nth_error_None in E; lia].
  exists kv. split; [reflexivity|]. split.
  - rewrite nth_error_map, E. reflexivity.
  - exact (find_key_distinct _ _ _ Hnd E).
Qed.

(** What the run button does, by the text and by what the database does
    with it. *)
Lemma run_button_cases py_strip conn q :
  run_button py_strip conn q =
  ((if py_strip q =? "" then [st_warning "Please enter a query to run."]
    else st_spinner "Executing query..." :: pd_read_sql q ::
         match execute conn q with
         | inr df => [st_subheader "Query Results"; st_dataframe df;
                      st_success "Query executed successfully!"]
         | inl e => [st_error [Lit "❌ Query Error: "; FmtExn e];
                     st_error [Lit "Query failed. Please check your SQL syntax or database tables."]]
         end),
   Ok tt).
Proof.
  unfold run_button, run_query. cbn [py_truthy].
  destruct (py_strip q =? ""); cbn [negb]; [reflexivity|].
  destruct (execute conn q); reflexivity.
Qed.

(** The page with a connection, as one list of calls. *)
Lemma show_sql_queries_connected py_strip w conn :
  connect w = inr (true, conn) ->
  show_sql_queries py_strip w =
  (page_head w ++
   map ui_call (if run_pressed w
                then trace (run_button py_strip conn (editor_text w))
                else []) ++
   conn_close :: page_footer,
   Ok tt).
Proof.
  intros Hc. unfold show_sql_queries, create_connection. rewrite Hc.
  destruct (catalog_lookup QUERIES (query_pick w) QUERIES_not_empty
              QUERIES_keys_distinct) as (kv & He & Hs & Hf).
  cbn [pemit pret pbind app]. rewrite Hs, Hf. cbn [pret pbind app].
  unfold page_head, editor_text, selected_text. rewrite He.
  destruct (run_pressed w).
  - rewrite run_button_cases. unfold of_ui, trace. cbn [fst snd pbind pemit app].
    reflexivity.
  - reflexivity.
Qed.

(** X19.  When the database server refuses the connection (the connector
    raises one of its errors) or the connection reports not to be connected,
    the SQL page ends with the could-not-connect warning: no select box, no
    editor, no statement sent, nothing closed.  Only a raised error is
    shown; a connection that is not connected gives no message of its own. *)
Theorem sql_page_no_connection py_strip (w : sql_session) :
  (exists msg, connect w = inl (DatabaseError msg)) \/
  (exists conn, connect w = inr (false, conn)) ->
  show_sql_queries py_strip w =
  ([ui_call (st_title "🔍 SQL Analytics");
    ui_call (st_markdown [Lit "---"]);
    st_info "💡 Note: This page connects to a MySQL database to run the queries. Make sure your database is running and the connection details are correct.";
    mysql_connect (db_host w) (db_user w) (db_password w) (db_name w)] ++
   match connect w with
   | inl e => [ui_call (st_error [Lit "❌ Error connecting to MySQL database: ";
                                  FmtExn e])]
   | inr _ => []
   end ++
   [ui_call (st_warning "Could not connect to the database. Please check your credentials and connection.")],
   Ok tt).
Proof.
  unfold show_sql_queries, create_connection.
  intros [(msg & ->) | (conn & ->)]; reflexivity.
Qed.

Lemma sql_page_no_connection_witness :
  show_sql_queries lstrip_blank access_denied =
  ([ui_call (st_title "🔍 SQL Analytics");
    ui_call (st_markdown [Lit "---"]);
    st_info "💡 Note: This page connects to a MySQL database to run the queries. Make sure your database is running and the connection details are correct.";
    mysql_connect (Some "localhost") (Some "root") None (Some "cricket");
    ui_call (st_error [Lit "❌ Error connecting to MySQL database: ";
                       FmtExn (DatabaseError "Access denied for user")]);
    ui_call (st_warning "Could not connect to the database. Please check your credentials and connection.")],
   Ok tt).
Proof.
  apply (sql_page_no_connection lstrip_blank access_denied).
  left. eexists. reflexivity.
Defined.

(** X20.  With a connection, the SQL page always completes, whatever is
    picked, typed or pressed and whatever the database does with the
    statement, and it closes the connection exactly once: after everything
    the run button did, and before the closing help texts. *)
Theorem sql_page_closes_connection py_strip (w : sql_session) conn :
  connect w = inr (true, conn) ->
  exists body,
    show_sql_queries py_strip w = (body ++ conn_close :: page_footer, Ok tt) /\
    existsb is_close body = false /\
    existsb is_close page_footer = false /\
    statements page_footer = [].
Proof.
  intros Hc. rewrite (show_sql_queries_connected _ _ _ Hc).
  eexists. split; [rewrite app_assoc; reflexivity|].
  split; [|split; reflexivity].
  rewrite existsb_app. apply orb_false_iff. split; [reflexivity|].
  apply not_true_is_false. intros H.
  apply existsb_exists in H as (e & He & Hclose).
  apply in_map_iff in He as (u & <- & _). discriminate.
Qed.

Lemma sql_page_closes_connection_witness :
  exists body,
    show_sql_queries lstrip_blank run_third_query =
      (body ++ conn_close :: page_footer, Ok tt) /\
    existsb is_close body = false /\
    existsb is_close page_footer = false /\
    statements page_footer = [].
Proof.
  exact (sql_page_closes_connection lstrip_blank run_third_query one_table_db eq_refl).
Defined.

Lemma statements_app l1 l2 : statements (l1 ++ l2) = statements l1 ++ statements l2.
Proof. unfold statements. apply flat_map_app. Qed.

(** X21.  With a connection, a run of the SQL page sends at most one
    statement: none unless the button was pressed and the text of the editor
    is not blank, and otherwise exactly that text, unchanged, be it the
    pre-filled statement of the selected catalog entry or what the user
    typed. *)
Theorem sql_page_statements py_strip (w : sql_session) conn :
  connect w = inr (true, conn) ->
  statements (trace_of_page (show_sql_queries py_strip w)) =
  if run_pressed w && negb (py_strip (editor_text w) =? "")
  then [editor_text w]
  else [].
Proof.
  intros Hc. rewrite (show_sql_queries_connected _ _ _ Hc).
  unfold trace_of_page. cbn [fst]. rewrite !statements_app.
  change (statements (page_head w)) with (@nil string).
  change (statements (conn_close :: page_footer)) with (@nil string).
  rewrite app_nil_r. cbn [app].
  destruct (run_pressed w); cbn [andb]; [|reflexivity].
  rewrite run_button_cases. unfold trace. cbn [fst].
  destruct (py_strip (editor_text w) =? ""); cbn [negb]; [reflexivity|].
  destruct (execute conn (editor_text w)); reflexivity.
Qed.

Lemma sql_page_statements_witness :
  statements (trace_of_page (show_sql_queries lstrip_blank run_typed_query)) =
  ["SELECT player_name, runs AS total_runs FROM top_odi_runs"].
Proof.
  exact (sql_page_statements lstrip_blank run_typed_query one_table_db eq_refl).
Defined.

(** X22.  For a text that is not blank, the run button reports what the
    database did with it: after a table, the results heading, the table and
    the success message; after an exception, the message of the exception
    and the general failure message, and neither table nor success message.
    Either way the statement is sent once and the block completes. *)
Theorem run_button_reports py_strip (conn : connection) (q : string) :
  py_strip q <> "" ->
  (forall df, execute conn q = inr df ->
     run_button py_strip conn q =
     ([st_spinner "Executing query..."; pd_read_sql q;
       st_subheader "Query Results"; st_dataframe df;
       st_success "Query executed successfully!"], Ok tt)) /\
  (forall e, execute conn q = inl e ->
     run_button py_strip conn q =
     ([st_spinner "Executing query..."; pd_read_sql q;
       st_error [Lit "❌ Query Error: "; FmtExn e];
       st_error [Lit "Query failed. Please check your SQL syntax or database tables."]],
      Ok tt)).
Proof.
  intros Hq. rewrite run_button_cases.
  destruct (String.eqb_spec (py_strip q) ""); [contradiction|].
  split; intros x ->; reflexivity.
Qed.

Lemma run_button_reports_witness :
  run_button lstrip_blank one_table_db "DROP TABLE players" =
  ([st_spinner "Executing query..."; pd_read_sql "DROP TABLE players";
    st_error [Lit "❌ Query Error: ";
              FmtExn (DatabaseError "You have an error in your SQL syntax")];
    st_error [Lit "Query failed. Please check your SQL syntax or database tables."]],
   Ok tt).
Proof.
  refine (proj2 (run_button_reports lstrip_blank one_table_db "DROP TABLE players" _)
            _ eq_refl).
  discriminate.
Defined.

(** X23.  [create_connection] catches the connector's own errors only: any
    other exception raised while connecting propagates out of the page,
    which stops right after the connection attempt, without a message. *)
Theorem sql_page_connect_crash py_strip (w : sql_session) (e : pyexn) :
  connect w = inl e ->
  is_mysql_error e = false ->
  show_sql_queries py_strip w =
  ([ui_call (st_title "🔍 SQL Analytics");
    ui_call (st_markdown [Lit "---"]);
    st_info "💡 Note: This page connects to a MySQL database to run the queries. Make sure your database is running and the connection details are correct.";
    mysql_connect (db_host w) (db_user w) (db_password w) (db_name w)],
   Raise e).
Proof.
  intros Hc He. unfold show_sql_queries, create_connection. rewrite Hc, He.
  reflexivity.
Qed.

Lemma sql_page_connect_crash_witness :
  show_sql_queries lstrip_blank connect_type_error =
  ([ui_call (st_title "🔍 SQL Analytics");
    ui_call (st_markdown [Lit "---"]);
    st_info "💡 Note: This page connects to a MySQL database to run the queries. Make sure your database is running and the connection details are correct.";
    mysql_connect None None None None],
   Raise TypeError).
Proof.
  exact (sql_page_connect_crash lstrip_blank connect_type_error TypeError
           eq_refl eq_refl).
Defined.

(** X24.  The descriptions of the catalog are pairwise different, so the
    lookup by description of line 606 finds the entry that was picked: with a
    connection, the editor is pre-filled with the statement of the entry at
    the picked position, and when the editor is left alone and the button
    pressed, that statement is the one sent (unless it is blank). *)
Theorem sql_page_runs_selected_entry py_strip (w : sql_session) conn
    (description text : string) :
  connect w = inr (true, conn) ->
  nth_error QUERIES (query_pick w) = Some (description, text) ->
  In (st_text_area "Or enter your own SQL query below:" text 200)
     (trace_of_page (show_sql_queries py_strip w)) /\
  (query_edit w = None ->
   run_pressed w = true ->
   py_strip text <> "" ->
   statements (trace_of_page (show_sql_queries py_strip w)) = [text]).
Proof.
  intros Hc Hn.
  assert (Hsel : selected_text (query_pick w) = text).
  { unfold selected_text, selected_entry.
    assert (Hlt : (query_pick w <? length QUERIES)%nat = true).
    { apply Nat.ltb_lt. apply nth_error_Some. rewrite Hn. discriminate. }
    rewrite Hlt, Hn. reflexivity. }
  pose proof (show_sql_queries_connected py_strip w conn Hc) as E.
  split.
  - rewrite E. unfold trace_of_page. cbn [fst]. apply in_or_app. left.
    unfold page_head. rewrite Hsel. cbn. tauto.
  - intros Hedit Hrun Htext. rewrite E. unfold trace_of_page. cbn [fst].
    rewrite !statements_app.
    change (statements (page_head w)) with (@nil string).
    change (statements (conn_close :: page_footer)) with (@nil string).
    rewrite app_nil_r, Hrun. cbn [app].
    assert (Het : editor_text w = text).
    { unfold editor_text. rewrite Hedit. exact Hsel. }
    rewrite Het, run_button_cases. unfold trace. cbn [fst].
    destruct (String.eqb_spec (py_strip text) ""); [contradiction|].
    destruct (execute conn text); reflexivity.
Qed.

Lemma sql_page_runs_selected_entry_witness :
  statements (trace_of_page (show_sql_queries lstrip_blank run_third_query)) =
  ["
            SELECT player_name, runs AS total_runs, average AS batting_avg
            FROM top_odi_runs
            ORDER BY total_runs DESC
            LIMIT 10;
        "].
Proof.
  refine (proj2 (sql_page_runs_selected_entry lstrip_blank run_third_query
                   one_table_db
                   "Q3: Top 10 ODI run scorers with total runs, average, centuries"
                   _ eq_refl eq_refl) eq_refl eq_refl _).
  vm_compute. discriminate.
Defined.
